(** * mini-rag: the client-side document ingestion lifecycle

    A shallow embedding of the TypeScript front end of mini-rag:
    - [frontend/src/components/DocumentUploader.tsx]: file validation,
      progress parsing, upload error classification and the status polling
      loop of [handleFileUpload];
    - [frontend/src/components/QueryInterface.tsx]: the query error classifier;
    - [frontend/src/App.tsx]: [handleDeleteDocument];
    - the API module ([fetchWithErrorHandling] and its callers).

    Conventions.  A JavaScript string is a [string] of the Standard Library: a
    sequence of 8-bit characters, which covers every literal of the source.
    A JavaScript number that holds a count, a size or a status code is a
    natural number ([nat] for the retry counter, [N] otherwise); the
    progress fraction, the quotient by one hundred of a number that holds
    an integer, is a rational of [Q], which stands for the double nearest
    to it, as the division of JavaScript gives it.  React
    state is a record that each handler transforms; what a handler does
    besides (a network call, a timer, a callback, an alert) is recorded in
    the state of the model as well. *)

From Stdlib Require Import String Ascii List Bool NArith ZArith QArith Lia.
From Stdlib Require Import DecimalString.
Import ListNotations.

Local Open Scope string_scope.

(** ** JavaScript string primitives used by the source *)

Module JS.

(** [s.startsWith(p)] *)
Fixpoint startsWith (s p : string) {struct p} : bool :=
  match p, s with
  | EmptyString, _ => true
  | String _ _, EmptyString => false
  | String a p', String b s' => Ascii.eqb a b && startsWith s' p'
  end.

(** [s.endsWith(p)]: some suffix of [s] is [p]. *)
Fixpoint endsWith (s p : string) : bool :=
  String.eqb s p ||
  match s with
  | EmptyString => false
  | String _ s' => endsWith s' p
  end.

(** [s.includes(p)]: [p] starts at some position of [s]. *)
Fixpoint includes (s p : string) : bool :=
  startsWith s p ||
  match s with
  | EmptyString => false
  | String _ s' => includes s' p
  end.

(** [s.slice(n)] for [0 <= n]. *)
Fixpoint slice (n : nat) (s : string) : string :=
  match n, s with
  | O, _ => s
  | S _, EmptyString => EmptyString
  | S n', String _ s' => slice n' s'
  end.

(** [s.replace(p, r)] with a string pattern: only the first occurrence of
    [p], scanning from the left, is replaced.  ([r] holds no [$] in the
    source, so it is inserted as it is.) *)
Fixpoint replace (s p r : string) : string :=
  if startsWith s p then r ++ slice (String.length p) s
  else match s with
       | EmptyString => EmptyString
       | String c s' => String c (replace s' p r)
       end.

Definition isUpper (c : ascii) : bool :=
  let n := nat_of_ascii c in (65 <=? n)%nat && (n <=? 90)%nat.

Definition lowerChar (c : ascii) : ascii :=
  if isUpper c then ascii_of_nat (nat_of_ascii c + 32) else c.

(** [s.toLowerCase()]: the letters [A]-[Z] move to [a]-[z].  A character
    outside ASCII is left as it is; none of them lowercases to a dot or to
    one of the letters [p], [d], [f], the only ones the source compares a
    lowercased string with. *)
Fixpoint toLowerCase (s : string) : string :=
  match s with
  | EmptyString => EmptyString
  | String c s' => String (lowerChar c) (toLowerCase s')
  end.

Definition isDigit (c : ascii) : bool :=
  let n := nat_of_ascii c in (48 <=? n)%nat && (n <=? 57)%nat.

(** The characters the regular expression atom [.] refuses. *)
Definition isLineTerminator (c : ascii) : bool :=
  Ascii.eqb c "010" || Ascii.eqb c "013".

Definition digitValue (c : ascii) : N := N.of_nat (nat_of_ascii c - 48).

Fixpoint parseDigits (acc : N) (s : string) : N :=
  match s with
  | EmptyString => acc
  | String c s' => parseDigits (10 * acc + digitValue c) s'
  end.

(** JavaScript numbers are doubles, with 53 significant bits.
    [Number.MAX_SAFE_INTEGER] is the largest integer below which every
    integer is a number. *)
Definition MAX_SAFE_INTEGER : N := (2 ^ 53 - 1)%N.

(** The Number value of a non-negative integer [n]: [n] itself while it
    has at most 53 significant bits, and otherwise the nearest integer that
    has, the one with the even significand when [n] lies half way between
    two of them. *)
Definition numberValue (n : N) : N :=
  if (N.size n <=? 53)%N then n
  else
    let ulp := (2 ^ (N.size n - 53))%N in
    let significand := (n / ulp)%N in
    let rest := (n mod ulp)%N in
    if (2 * rest <? ulp)%N then (significand * ulp)%N
    else if (ulp <? 2 * rest)%N then ((significand + 1) * ulp)%N
    else if N.even significand then (significand * ulp)%N
    else ((significand + 1) * ulp)%N.

(** [parseInt(s, 10)] on a string of decimal digits: the Number value of
    the integer that the digits write, which is that integer up to 2^53.
    ECMAScript asks this of an integer of at most twenty significant
    digits; of a longer one an implementation may take the digits after
    the twentieth for zeros, and from about 1.8e308 on the answer is
    [Infinity], which this model does not hold: the value parsed beyond
    [MAX_SAFE_INTEGER] is specified up to twenty digits. *)
Definition parseInt (s : string) : N := numberValue (parseDigits 0 s).

(** [String(n)] for a non-negative integer, as a template literal
    prints it. *)
Definition ofNumber (n : N) : string := NilZero.string_of_uint (N.to_uint n).

(** JavaScript truthiness of a string. *)
Definition truthy (s : string) : bool := negb (String.eqb s EmptyString).

End JS.

(** ** types.ts: the [Document] a status check returns *)

Module Types.

(** [metadata] is dropped: no modelled function reads it. *)
Record Document := {
  document_id : string;
  filename : string;
  status : string;
  error : option string
}.

End Types.

(** ** The [error: any] value that the two [getErrorMessage] read *)

Module Caught.

(** [error?.response]: its [status] and its [data?.detail]. *)
Record ResponseInfo := {
  status : option N;
  detail : option string
}.

Record t := {
  response : option ResponseInfo;
  message : option string
}.

Definition response_status (e : t) : option N :=
  match response e with Some r => status r | None => None end.

Definition response_detail (e : t) : option string :=
  match response e with Some r => detail r | None => None end.

(** [a || b] where [a] is a string or [undefined]. *)
Definition or_else (a : option string) (b : string) : string :=
  match a with
  | Some s => if JS.truthy s then s else b
  | None => b
  end.

(** [status === k] *)
Definition status_is (e : t) (k : N) : bool :=
  match response_status e with Some n => (n =? k)%N | None => false end.

End Caught.

(** ** components/DocumentUploader.tsx *)

Module DocumentUploader.

Definition MAX_RETRIES : nat := 30.
Definition RETRY_INTERVAL : N := 2000.
Definition MAX_FILE_SIZE : N := 10 * 1024 * 1024.

Module ERROR_MESSAGES.
Definition FILE_TOO_LARGE := "File size exceeds 10MB limit".
Definition INVALID_TYPE := "Please upload a PDF file".
Definition CORRUPTED_PDF := "The PDF file appears to be corrupted".
Definition EMPTY_PDF := "No text content could be extracted from the PDF".
Definition UPLOAD_FAILED := "Failed to upload document".
Definition PROCESSING_FAILED := "Failed to process document".
Definition PROCESSING_TIMEOUT := "Processing timed out".
Definition CONNECTION_ERROR :=
  "Connection error. Please check your internet connection".
End ERROR_MESSAGES.

(** *** [getErrorMessage] *)

Definition errorMessageOf (e : Caught.t) : string :=
  Caught.or_else (Caught.response_detail e)
    (Caught.or_else (Caught.message e) "Unknown error").

Definition getErrorMessage (e : Caught.t) : string :=
  if Caught.status_is e 413 then ERROR_MESSAGES.FILE_TOO_LARGE
  else
    let errorMessage := errorMessageOf e in
    if JS.includes errorMessage "corrupted" then ERROR_MESSAGES.CORRUPTED_PDF
    else if JS.includes errorMessage "no text content" then
      ERROR_MESSAGES.EMPTY_PDF
    else if JS.includes errorMessage "network" then
      ERROR_MESSAGES.CONNECTION_ERROR
    else errorMessage.

(** *** [validateFile] *)

(** The two fields of a browser [File] that the validator reads. *)
Record File := { name : string; size : N }.

Definition validateFile (file : File) : option string :=
  if negb (JS.endsWith (JS.toLowerCase (name file)) ".pdf") then
    Some ERROR_MESSAGES.INVALID_TYPE
  else if (MAX_FILE_SIZE <? size file)%N then
    Some ERROR_MESSAGES.FILE_TOO_LARGE
  else None.

(** *** [parseProgressFromStatus]

    [status.match(/processing: .* \((\d+)%\)/)] is a backtracking search:
    the match starts at the leftmost position that allows one, and the
    greedy [.*] gives back characters one at a time from the longest. *)

(** [\d+]: the longest run of digits at the head of [s], and what follows.
    A shorter run cannot serve: it would be followed by a digit, where the
    expression wants [%]. *)
Fixpoint spanDigits (s : string) : string * string :=
  match s with
  | EmptyString => (EmptyString, EmptyString)
  | String c s' =>
      if JS.isDigit c then
        let (ds, rest) := spanDigits s' in (String c ds, rest)
      else (EmptyString, s)
  end.

(** [ \((\d+)%\)] at the head of [s]: the captured digits, of which [\d+]
    wants one at least. *)
Definition matchGroup (s : string) : option string :=
  if JS.startsWith s " (" then
    let (ds, rest) := spanDigits (JS.slice 2 s) in
    if JS.truthy ds && JS.startsWith rest "%)" then Some ds else None
  else None.

(** [.* \((\d+)%\)] at the head of [s]: [.*] first takes the next character
    when it is not a line terminator, and tries the group here only when
    no longer choice has matched. *)
Fixpoint matchDotStar (s : string) : option string :=
  match s with
  | EmptyString => matchGroup s
  | String c s' =>
      if JS.isLineTerminator c then matchGroup s
      else match matchDotStar s' with
           | Some ds => Some ds
           | None => matchGroup s
           end
  end.

(** The whole expression tried at the head of [s]. *)
Definition matchHere (s : string) : option string :=
  if JS.startsWith s "processing: " then matchDotStar (JS.slice 12 s)
  else None.

(** [status.match(...)]: capture group 1 of the leftmost match, if any. *)
Fixpoint regexMatch (s : string) : option string :=
  match matchHere s with
  | Some ds => Some ds
  | None =>
      match s with
      | EmptyString => None
      | String _ s' => regexMatch s'
      end
  end.

Definition parseProgressFromStatus (status : string) : option Q :=
  match regexMatch status with
  | Some ds => Some (Z.of_N (JS.parseInt ds) # 100)
  | None => None
  end.

(** *** The component: React state, closures and pending work *)

Record State := {
  isUploading : bool;
  uploadProgress : string;
  progressPercent : Q;
  retryCount : nat;
  error : option string
}.

Definition initialState : State :=
  {| isUploading := false; uploadProgress := EmptyString; progressPercent := 0;
     retryCount := 0; error := None |}.

Definition setIsUploading (b : bool) (s : State) : State :=
  {| isUploading := b; uploadProgress := uploadProgress s;
     progressPercent := progressPercent s; retryCount := retryCount s;
     error := error s |}.

Definition setUploadProgress (m : string) (s : State) : State :=
  {| isUploading := isUploading s; uploadProgress := m;
     progressPercent := progressPercent s; retryCount := retryCount s;
     error := error s |}.

Definition setProgressPercent (q : Q) (s : State) : State :=
  {| isUploading := isUploading s; uploadProgress := uploadProgress s;
     progressPercent := q; retryCount := retryCount s; error := error s |}.

(** [setRetryCount] takes an updater, as in [setRetryCount(prev => prev + 1)];
    [setRetryCount(0)] is the constant updater. *)
Definition setRetryCount (f : nat -> nat) (s : State) : State :=
  {| isUploading := isUploading s; uploadProgress := uploadProgress s;
     progressPercent := progressPercent s; retryCount := f (retryCount s);
     error := error s |}.

Definition setError (e : option string) (s : State) : State :=
  {| isUploading := isUploading s; uploadProgress := uploadProgress s;
     progressPercent := progressPercent s; retryCount := retryCount s;
     error := e |}.

(** What the variables of [handleFileUpload] hold for the closure
    [checkStatus]: [retryCount] is the constant of the render in which the
    handler was created, not the React state that [setRetryCount] updates. *)
Record Closure := {
  seenRetryCount : nat;
  document_id : string
}.

(** The work the component is waiting for.  [Scheduled] and [Checking] are
    the two live states of the status poller. *)
Inductive Pending :=
| NoWork
| Uploading (seen : nat)
| Checking (c : Closure)
| Scheduled (c : Closure).

(** What the component does to the outside. *)
Inductive Effect :=
| UploadCall (f : File)
| StatusCall (document_id : string)
| SetTimeout (delay : N)
| DocumentProcessed (d : Types.Document)
| ConsoleError (label : string).

Record Component := {
  state : State;
  pending : Pending;
  effects : list Effect
}.

Definition mounted : Component :=
  {| state := initialState; pending := NoWork; effects := [] |}.

Definition update (f : State -> State) (k : Component) : Component :=
  {| state := f (state k); pending := pending k; effects := effects k |}.

Definition await (p : Pending) (k : Component) : Component :=
  {| state := state k; pending := p; effects := effects k |}.

Definition emit (e : Effect) (k : Component) : Component :=
  {| state := state k; pending := pending k; effects := effects k ++ [e] |}.

(** [checkStatus()] up to its [await]: the network call is made. *)
Definition checkStatus (c : Closure) (k : Component) : Component :=
  await (Checking c) (emit (StatusCall (document_id c)) k).

(** [setTimeout(checkStatus, RETRY_INTERVAL)] *)
Definition scheduleCheck (c : Closure) (k : Component) : Component :=
  await (Scheduled c) (emit (SetTimeout RETRY_INTERVAL) k).

(** [checkStatus] after [checkDocumentStatus] has resolved with [d]. *)
Definition checkStatus_resolved (c : Closure) (d : Types.Document)
    (k : Component) : Component :=
  if String.eqb (Types.status d) "completed" then
    emit (DocumentProcessed d)
      (update (setProgressPercent 1)
        (update (setIsUploading false) (await NoWork k)))
  else if JS.startsWith (Types.status d) "error" then
    update (setError (Some (JS.replace (Types.status d) "error: " EmptyString)))
      (update (setIsUploading false) (await NoWork k))
  else if (MAX_RETRIES <=? seenRetryCount c)%nat then
    update (setError (Some ERROR_MESSAGES.PROCESSING_TIMEOUT))
      (update (setIsUploading false) (await NoWork k))
  else
    let k1 :=
      match parseProgressFromStatus (Types.status d) with
      | Some progress => update (setProgressPercent progress) k
      | None => k
      end in
    scheduleCheck c
      (update (setRetryCount S)
        (update (setUploadProgress (Types.status d)) k1)).

(** [checkStatus] after [checkDocumentStatus] has rejected: the [catch]. *)
Definition checkStatus_rejected (c : Closure) (k : Component) : Component :=
  let k1 := emit (ConsoleError "Status check error:") k in
  if (MAX_RETRIES <=? seenRetryCount c)%nat then
    update (setError (Some ERROR_MESSAGES.PROCESSING_FAILED))
      (update (setIsUploading false) (await NoWork k1))
  else
    scheduleCheck c (update (setRetryCount S) k1).

(** [handleFileUpload] up to [await uploadDocument(formData)].  The handler
    belongs to the current render, so the [retryCount] it closes over is
    the state at the time of the event; the [<input>] is
    [disabled={isUploading}] and sends no event while an upload runs. *)
Definition handleFileUpload (file : option File) (k : Component)
    : Component :=
  if isUploading (state k) then k
  else
    match file with
    | None => k
    | Some f =>
        let seen := retryCount (state k) in
        let k1 :=
          update (setError None)
            (update (setRetryCount (fun _ => O))
              (update (setProgressPercent 0)
                (update (setUploadProgress "Validating document...")
                  (update (setIsUploading true) k)))) in
        match validateFile f with
        | Some validationError =>
            update (setError (Some validationError))
              (update (setIsUploading false) k1)
        | None =>
            await (Uploading seen)
              (emit (UploadCall f)
                (update (setProgressPercent (1 # 10))
                  (update (setUploadProgress "Uploading document...") k1)))
        end
    end.

(** [handleFileUpload] after [uploadDocument] has resolved:
    [await checkStatus()] makes the first status call. *)
Definition upload_resolved (seen : nat) (id : string) (k : Component)
    : Component :=
  checkStatus {| seenRetryCount := seen; document_id := id |} k.

(** [handleFileUpload] after [uploadDocument] has rejected: the outer
    [catch]. *)
Definition upload_rejected (e : Caught.t) (k : Component) : Component :=
  update (setError (Some (getErrorMessage e)))
    (update (setIsUploading false)
      (emit (ConsoleError "Upload error:") (await NoWork k))).

(** What can happen to the component: the user picks a file, a promise
    settles, the timer fires.  The source keeps no timer identifier and
    calls no [clearTimeout]; nothing else reaches the polling loop. *)
Inductive Event :=
| FileSelected (file : option File)
| UploadResolved (document_id : string)
| UploadRejected (e : Caught.t)
| StatusResolved (d : Types.Document)
| StatusRejected (e : Caught.t)
| TimerFired.

(** One turn of the event loop.  An event that the pending work does not
    wait for cannot occur and leaves the component as it is. *)
Definition step (k : Component) (ev : Event) : Component :=
  match ev, pending k with
  | FileSelected file, NoWork => handleFileUpload file k
  | UploadResolved id, Uploading seen => upload_resolved seen id k
  | UploadRejected e, Uploading _ => upload_rejected e k
  | StatusResolved d, Checking c => checkStatus_resolved c d k
  | StatusRejected _, Checking c => checkStatus_rejected c k
  | TimerFired, Scheduled c => checkStatus c k
  | _, _ => k
  end.

Definition run (k : Component) (evs : list Event) : Component :=
  fold_left step evs k.

(** The upload flag is set exactly while work is pending. *)
Definition Busy (k : Component) : Prop :=
  isUploading (state k) = true <-> pending k <> NoWork.

Definition isStatusCall (e : Effect) : bool :=
  match e with StatusCall _ => true | _ => false end.

(** The number of status checks made so far. *)
Definition statusCalls (k : Component) : nat :=
  List.length (filter isStatusCall (effects k)).

End DocumentUploader.

(** ** components/QueryInterface.tsx *)

Module QueryInterface.

Module ERROR_MESSAGES.
Definition EMPTY_QUESTION := "Please enter a question".
Definition TOO_LONG := "Question is too long (max 500 characters)".
Definition NETWORK_ERROR :=
  "Failed to connect to the server. Please check your internet connection.".
Definition SERVER_ERROR :=
  "An error occurred while processing your question. Please try again.".
Definition DOC_NOT_FOUND :=
  "The document was not found or has not been processed yet.".
End ERROR_MESSAGES.

(** [error?.message?.includes('network')] *)
Definition messageIncludes (e : Caught.t) (p : string) : bool :=
  match Caught.message e with
  | Some m => JS.includes m p
  | None => false
  end.

Definition getErrorMessage (e : Caught.t) : string :=
  if Caught.status_is e 404 then ERROR_MESSAGES.DOC_NOT_FOUND
  else if Caught.status_is e 400 then
    Caught.or_else (Caught.response_detail e) ERROR_MESSAGES.SERVER_ERROR
  else if messageIncludes e "network" then ERROR_MESSAGES.NETWORK_ERROR
  else ERROR_MESSAGES.SERVER_ERROR.

End QueryInterface.

(** ** The API module: [fetchWithErrorHandling] and its callers *)

Module Api.

(** A value that a [throw] or a rejected promise carries: an [Error]
    object with its message, or anything else. *)
Inductive Thrown :=
| ErrorObject (message : string)
| NotAnError (shown : string).

(** A field of a decoded JSON body: a string, or a value of another kind,
    of which the code uses the truthiness and the conversion to a string
    that [new Error(...)] makes. *)
Inductive JValue :=
| JString (s : string)
| JOther (isTruthy : bool) (shown : string).

Definition truthy (v : JValue) : bool :=
  match v with
  | JString s => JS.truthy s
  | JOther b _ => b
  end.

Definition toString (v : JValue) : string :=
  match v with
  | JString s => s
  | JOther _ s => s
  end.

(** The decoded body as far as [fetchWithErrorHandling] reads it: the
    fields [error] and [detail], [None] for a field that is missing (or
    when the body is not an object). *)
Record Body := {
  error : option JValue;
  detail : option JValue
}.

(** A [Response]: its status, and what [response.json()] settles to. *)
Record Response := {
  status : N;
  json : Thrown + Body
}.

(** [response.ok]: the status is in the range 200-299. *)
Definition ok (r : Response) : bool :=
  ((200 <=? status r) && (status r <=? 299))%N.

(** What [fetch(url, init)] settles to. *)
Inductive Fetched :=
| Rejects (t : Thrown)
| Responds (r : Response).

Record Request := {
  url : string;
  method : string
}.

(** What an [async] function of the module settles to. *)
Inductive Settled :=
| Returns (body : option Body)
| Throws (t : Thrown).

(** [a?.f || rest] *)
Definition field_or (f : option JValue) (rest : string) : string :=
  match f with
  | Some v => if truthy v then toString v else rest
  | None => rest
  end.

Definition PREFIX : string := "API request failed: ".

(** [await response.json().catch(() => null)] *)
Definition jsonOrNull (r : Response) : option Body :=
  match json r with inr b => Some b | inl _ => None end.

(** [errorData?.error] and [errorData?.detail] *)
Definition errorOf (errorData : option Body) : option JValue :=
  match errorData with Some b => error b | None => None end.

Definition detailOf (errorData : option Body) : option JValue :=
  match errorData with Some b => detail b | None => None end.

(** The message of the [Error] thrown for a response that is not [ok]. *)
Definition httpErrorMessage (errorData : option Body) (status : N) : string :=
  field_or (errorOf errorData)
    (field_or (detailOf errorData)
      ("HTTP error! status: " ++ JS.ofNumber status)).

(** The body of the [try] block. *)
Definition attempt (f : Fetched) : Settled :=
  match f with
  | Rejects t => Throws t
  | Responds r =>
      if negb (ok r) then
        let errorData := jsonOrNull r in
        Throws (ErrorObject (httpErrorMessage errorData (status r)))
      else if (status r =? 204)%N then Returns None
      else match json r with
           | inr b => Returns (Some b)
           | inl t => Throws t
           end
  end.

(** The [catch] block: an [Error] is wrapped, anything else thrown again. *)
Definition rethrow (s : Settled) : Settled :=
  match s with
  | Throws (ErrorObject m) => Throws (ErrorObject (PREFIX ++ m))
  | _ => s
  end.

Section Calls.

(** [import.meta.env.VITE_API_BASE_URL], and the network: what [fetch]
    settles to for each request. *)
Variable VITE_API_BASE_URL : option string.
Variable fetch : Request -> Fetched.

Definition API_BASE_URL : string :=
  Caught.or_else VITE_API_BASE_URL "/api".

Definition fetchWithErrorHandling (rq : Request) : Settled :=
  rethrow (attempt (fetch rq)).

Definition uploadDocument : Settled :=
  fetchWithErrorHandling
    {| url := API_BASE_URL ++ "/documents/upload"; method := "POST" |}.

Definition checkDocumentStatus (documentId : string) : Settled :=
  fetchWithErrorHandling
    {| url := API_BASE_URL ++ "/documents/status/" ++ documentId;
       method := "GET" |}.

(** [Promise<void>]: the value of the call is dropped. *)
Definition deleteDocument (documentId : string) : Settled :=
  match fetchWithErrorHandling
          {| url := API_BASE_URL ++ "/documents/" ++ documentId;
             method := "DELETE" |} with
  | Returns _ => Returns None
  | Throws t => Throws t
  end.

Definition askQuestion : Settled :=
  fetchWithErrorHandling
    {| url := API_BASE_URL ++ "/queries/ask"; method := "POST" |}.

End Calls.

End Api.

(** ** App.tsx: [handleDeleteDocument] *)

Module App.

(** The React state of [App], and the two things the handler does to the
    outside: [alert] and [console.error]. *)
Record State := {
  currentDocument : option Types.Document;
  isDeleting : bool;
  showMetadata : bool;
  alerts : list string;
  consoleErrors : list string
}.

Definition setCurrentDocument (d : option Types.Document) (s : State)
    : State :=
  {| currentDocument := d; isDeleting := isDeleting s;
     showMetadata := showMetadata s; alerts := alerts s;
     consoleErrors := consoleErrors s |}.

Definition setIsDeleting (b : bool) (s : State) : State :=
  {| currentDocument := currentDocument s; isDeleting := b;
     showMetadata := showMetadata s; alerts := alerts s;
     consoleErrors := consoleErrors s |}.

Definition alert (m : string) (s : State) : State :=
  {| currentDocument := currentDocument s; isDeleting := isDeleting s;
     showMetadata := showMetadata s; alerts := alerts s ++ [m];
     consoleErrors := consoleErrors s |}.

Definition consoleError (m : string) (s : State) : State :=
  {| currentDocument := currentDocument s; isDeleting := isDeleting s;
     showMetadata := showMetadata s; alerts := alerts s;
     consoleErrors := consoleErrors s ++ [m] |}.

Definition DELETE_FAILED : string :=
  "Failed to delete document. Please try again.".

Section Handler.

Variable VITE_API_BASE_URL : option string.
Variable fetch : Api.Request -> Api.Fetched.

(** The handler from the click to its end, the [await] included: the
    state that [try], [catch] and [finally] leave. *)
Definition handleDeleteDocument (s : State) : State :=
  match currentDocument s with
  | None => s
  | Some doc =>
      let s1 := setIsDeleting true s in
      let s2 :=
        match Api.deleteDocument VITE_API_BASE_URL fetch
                (Types.document_id doc) with
        | Api.Returns _ => setCurrentDocument None s1
        | Api.Throws _ =>
            alert DELETE_FAILED
              (consoleError "Error deleting document:" s1)
        end in
      setIsDeleting false s2
  end.

End Handler.

End App.

(** ** The words of the specification

    The notions that the properties are stated with.  Those on strings are
    stated on the strings themselves, to compare the functions of the
    source with. *)

Module Spec.

(** [p] occurs in [s]. *)
Definition Contains (s p : string) : Prop :=
  exists pre post, s = pre ++ p ++ post.

(** The name ends with [.pdf], whatever the case of the three letters. *)
Definition EndsWithPdf (n : string) : Prop :=
  exists pre c1 c2 c3,
    n = pre ++ String "." (String c1 (String c2 (String c3 EmptyString))) /\
    (c1 = "p" \/ c1 = "P")%char /\
    (c2 = "d" \/ c2 = "D")%char /\
    (c3 = "f" \/ c3 = "F")%char.

(** 10 MiB, as the specification writes it. *)
Definition SIZE_LIMIT : N := 10485760.

Fixpoint All (P : ascii -> Prop) (s : string) : Prop :=
  match s with
  | EmptyString => True
  | String c s' => P c /\ All P s'
  end.

Definition IsDigit (c : ascii) : Prop :=
  In c (list_ascii_of_string "0123456789").

(** A non-empty string of decimal digits: the writing of an integer. *)
Definition Digits (ds : string) : Prop :=
  ds <> EmptyString /\ All IsDigit ds.

(** Free text: what [.] accepts, any character but a line break. *)
Definition FreeText (t : string) : Prop :=
  All (fun c => c <> "010"%char /\ c <> "013"%char) t.

(** [processing: <free text> (<integer>%)] occurs in [s], with the integer
    written [ds]. *)
Definition ProgressPattern (s ds : string) : Prop :=
  exists pre free post,
    s = pre ++ "processing: " ++ free ++ " (" ++ ds ++ "%)" ++ post /\
    FreeText free /\ Digits ds.

(** The integer that decimal digits write: each digit counts for its
    value times the power of ten of its place. *)
Definition digitOf (c : ascii) : N :=
  match c with
  | "0"%char => 0 | "1"%char => 1 | "2"%char => 2 | "3"%char => 3
  | "4"%char => 4 | "5"%char => 5 | "6"%char => 6 | "7"%char => 7
  | "8"%char => 8 | "9"%char => 9 | _ => 0
  end%N.

Fixpoint decimal (ds : string) : N :=
  match ds with
  | EmptyString => 0
  | String c rest =>
      digitOf c * 10 ^ N.of_nat (String.length rest) + decimal rest
  end%N.

(** The integers that a JavaScript number can hold: those with at most 53
    significant bits. *)
Definition Representable (m : N) : Prop :=
  exists s e, (m = s * 2 ^ e /\ s < 2 ^ 53)%N.

Definition distance (a b : N) : Z := Z.abs (Z.of_N a - Z.of_N b).

(** [m] is the Number value of the integer [n]: the representable integer
    nearest to [n]; and when another one, [r], is as near, they are
    neighbours, some 2^e apart, of which [m] is the one with the even
    significand, the multiple of 2^(e+1). *)
Definition NumberValue (n m : N) : Prop :=
  Representable m /\
  (forall r, Representable r -> (distance n m <= distance n r)%Z) /\
  (forall r, Representable r -> r <> m -> distance n r = distance n m ->
     exists k e, distance m r = Z.of_N (2 ^ e) /\ (m = k * 2 ^ (e + 1))%N).

(** The first occurrence of [p] in [s] lies between [pre] and [post]:
    [p] occurs there, and at no place that starts earlier. *)
Definition FirstAt (s p pre post : string) : Prop :=
  s = pre ++ p ++ post /\
  forall a b post', pre = a ++ b -> b <> EmptyString -> s <> a ++ p ++ post'.

(** [r] is [s] without its leading [p]: [s] itself when [p] does not
    lead it. *)
Definition WithoutLeading (p s r : string) : Prop :=
  (exists rest, s = p ++ rest /\ r = rest) \/
  ((forall rest, s <> p ++ rest) /\ r = s).

(** A status report that is neither [completed] nor an error report. *)
Definition StillProcessing (d : Types.Document) : Prop :=
  Types.status d <> "completed" /\
  forall rest, Types.status d <> "error" ++ rest.

(** The detail of a transport failure as the specification words it: the
    [error] field of the body if present, else its [detail] field, else
    the generic text with the HTTP status. *)
Definition specifiedDetail (body : option Api.Body) (status : N) : string :=
  match body with
  | Some b =>
      match Api.error b, Api.detail b with
      | Some v, _ => Api.toString v
      | None, Some v => Api.toString v
      | None, None => "HTTP error! status: " ++ JS.ofNumber status
      end
  | None => "HTTP error! status: " ++ JS.ofNumber status
  end.

(** A field that is missing, or holds a falsy value such as the empty
    string. *)
Definition Unset (f : option Api.JValue) : Prop :=
  f = None \/ exists v, f = Some v /\ Api.truthy v = false.

(** A field that holds a truthy value, which reads [text]. *)
Definition Holds (f : option Api.JValue) (text : string) : Prop :=
  exists v, f = Some v /\ Api.truthy v = true /\ Api.toString v = text.

(** Where the [Error] that the transport layer throws comes from, and the
    message it had there: a response that is not [ok], with the message
    made from its body and status; no response at all, [fetch] itself
    having rejected; or a response that is [ok] whose body does not
    decode. *)
Definition Origin (f : Api.Fetched) (detail : string) : Prop :=
  (exists r,
      f = Api.Responds r /\ Api.ok r = false /\
      detail = Api.httpErrorMessage (Api.jsonOrNull r) (Api.status r)) \/
  f = Api.Rejects (Api.ErrorObject detail) \/
  (exists r,
      f = Api.Responds r /\ Api.ok r = true /\ Api.status r <> 204%N /\
      Api.json r = inl (Api.ErrorObject detail)).

(** The closed interval from 0 to 1. *)
Definition InUnit (q : Q) : Prop := 0 <= q /\ q <= 1.

End Spec.

(** ** Sessions of the uploader, as lists of events *)

Module Session.

Import DocumentUploader.

Definition report : File := {| name := "report.pdf"; size := 2000000 |}.

(** A first session on a freshly mounted component, up to the first status
    call. *)
Definition start : list Event :=
  [FileSelected (Some report); UploadResolved "abc"].

(** Each status report arrives and the timer that it sets fires. *)
Fixpoint polls (ds : list Types.Document) : list Event :=
  match ds with
  | [] => []
  | d :: ds' => StatusResolved d :: TimerFired :: polls ds'
  end.

(** Each status check fails at the transport level, and the timer that the
    [catch] sets fires. *)
Fixpoint failures (es : list Caught.t) : list Event :=
  match es with
  | [] => []
  | e :: es' => StatusRejected e :: TimerFired :: failures es'
  end.

(** The report of document [abc] with a given status text. *)
Definition statusReport (status : string) : Types.Document :=
  {| Types.document_id := "abc"; Types.filename := "report.pdf";
     Types.status := status; Types.error := None |}.

Definition networkDown : Caught.t :=
  {| Caught.response := None;
     Caught.message := Some "API request failed: Failed to fetch" |}.

Definition theClosure : Closure :=
  {| seenRetryCount := 0; document_id := "abc" |}.

(** The percentage that the extractor reads in the status text, if it
    reads one, is at most 100. *)
Definition PercentInRange (status : string) : Prop :=
  forall ds, regexMatch status = Some ds -> (JS.parseInt ds <= 100)%N.

(** The events that a status report concerns. *)
Definition reportOf (ev : Event) : option Types.Document :=
  match ev with
  | StatusResolved d => Some d
  | _ => None
  end.

(** Every status report of the run carries a percentage of at most 100,
    when it carries one. *)
Definition InRange (evs : list Event) : Prop :=
  Forall (fun ev => match reportOf ev with
                    | Some d => PercentInRange (Types.status d)
                    | None => True
                    end) evs.

End Session.

(** ** Failures and responses used as examples *)

Definition quotaError : Caught.t :=
  {| Caught.response := None;
     Caught.message := Some "Disk quota exceeded" |}.

Definition lockedError : Caught.t :=
  {| Caught.response :=
       Some {| Caught.status := Some 500%N;
               Caught.detail := Some "Index is locked" |};
     Caught.message := Some "Request failed with status code 500" |}.

(** Thirty-one status reports in a row that are still processing. *)
Definition stillEmbedding : list Types.Document :=
  repeat (Session.statusReport "processing: embedding chunks (42%)") 31.

(** A closure made when the React counter stood at 30. *)
Definition lateClosure : DocumentUploader.Closure :=
  {| DocumentUploader.seenRetryCount := 30;
     DocumentUploader.document_id := "abc" |}.

(** Thirty status checks in a row that fail at the transport level. *)
Definition thirtyFailures : list Caught.t := repeat Session.networkDown 30.

(** A first session that ends on an error report after thirty polls, then a
    second file and a first status check that fails at the transport
    level. *)
Definition secondSession : list DocumentUploader.Event :=
  (Session.start
   ++ Session.polls
        (repeat (Session.statusReport "processing: embedding chunks (42%)") 30)
   ++ [DocumentUploader.StatusResolved
         (Session.statusReport "error: model unavailable")]
   ++ Session.start
   ++ [DocumentUploader.StatusRejected Session.networkDown])%list.

(** An error report whose text holds ["error: "] after its beginning. *)
Definition nestedError : Types.Document :=
  Session.statusReport "errors in xref table: error: no pages".

(** A status report with a percentage above one hundred. *)
Definition overshoot : Types.Document :=
  Session.statusReport "processing: embedding chunks (250%)".

(** A scenario of the specification: five reports from 10% to 50%, then
    [completed]. *)
Definition fiveSteps : list DocumentUploader.Event :=
  (Session.start
   ++ Session.polls
        [Session.statusReport "processing: extracting text (10%)";
         Session.statusReport "processing: extracting text (20%)";
         Session.statusReport "processing: extracting text (30%)";
         Session.statusReport "processing: extracting text (40%)";
         Session.statusReport "processing: extracting text (50%)"]
   ++ [DocumentUploader.StatusResolved (Session.statusReport "completed")])%list.

(** A session whose first status check is in flight, and the same session
    after a first report that is still processing: the poller is scheduled
    for its second check. *)
Definition inFlight : DocumentUploader.Component :=
  DocumentUploader.run DocumentUploader.mounted Session.start.

Definition embedding : Types.Document :=
  Session.statusReport "processing: embedding chunks (42%)".

Definition scheduledOnce : DocumentUploader.Component :=
  DocumentUploader.run inFlight [DocumentUploader.StatusResolved embedding].

(** Networks: no connection; a 400 whose body has an empty [error] field; a
    500 with a body that is not JSON; a 204 on every request. *)
Definition offline (_ : Api.Request) : Api.Fetched :=
  Api.Rejects (Api.ErrorObject "Failed to fetch").

Definition emptyErrorField (_ : Api.Request) : Api.Fetched :=
  Api.Responds
    {| Api.status := 400;
       Api.json :=
         inr {| Api.error := Some (Api.JString EmptyString);
                Api.detail :=
                  Some (Api.JString "Only PDF files are supported") |} |}.

Definition serverDown (_ : Api.Request) : Api.Fetched :=
  Api.Responds
    {| Api.status := 500;
       Api.json := inl (Api.ErrorObject "Unexpected token < in JSON") |}.

Definition noContent (_ : Api.Request) : Api.Fetched :=
  Api.Responds
    {| Api.status := 204;
       Api.json := inl (Api.ErrorObject "Unexpected end of JSON input") |}.

(** [App] showing a processed document. *)
Definition showing : App.State :=
  {| App.currentDocument := Some (Session.statusReport "completed");
     App.isDeleting := false; App.showMetadata := true;
     App.alerts := []; App.consoleErrors := [] |}.

(** ** DocumentUploader.tsx: the ledger of a run, and what the view shows *)

Module Ledger.

Import DocumentUploader.

Definition isUploadCall (e : Effect) : bool :=
  match e with UploadCall _ => true | _ => false end.

Definition isTimer (e : Effect) : bool :=
  match e with SetTimeout _ => true | _ => false end.

(** The [console.error('Upload error:', error)] of the outer [catch]. *)
Definition isUploadError (e : Effect) : bool :=
  match e with
  | ConsoleError label => String.eqb label "Upload error:"
  | _ => false
  end.

Definition count (p : Effect -> bool) (k : Component) : nat :=
  List.length (filter p (effects k)).

(** One for the pending work that a status call will follow: an upload
    under way, or a timer that is set. *)
Definition owed (p : Pending) : nat :=
  match p with
  | Uploading _ | Scheduled _ => 1
  | NoWork | Checking _ => 0
  end.

(** The document of the closure that the pending work holds. *)
Definition polled (p : Pending) : option string :=
  match p with
  | Checking c | Scheduled c => Some (document_id c)
  | NoWork | Uploading _ => None
  end.

(** The document identifiers that the uploads of a run have returned. *)
Fixpoint returnedIds (evs : list Event) : list string :=
  match evs with
  | [] => []
  | UploadResolved id :: evs' => id :: returnedIds evs'
  | _ :: evs' => returnedIds evs'
  end.

(** [{error && ...}]: the error box is rendered for a non-empty message. *)
Definition errorShown (s : State) : bool :=
  match error s with
  | Some m => JS.truthy m
  | None => false
  end.

(** [Math.ceil(a / b)] for an integer [a] and a positive integer [b]. *)
Definition ceilDiv (a b : Z) : Z := (- ((- a) / b))%Z.

(** The seconds that the line [Time remaining: ...s] shows, when the view
    renders it: inside [isUploading && !error], under [retryCount > 0]. *)
Definition timeRemaining (s : State) : option Z :=
  if isUploading s && negb (errorShown s) && (0 <? retryCount s)%nat then
    Some (ceilDiv ((Z.of_nat MAX_RETRIES - Z.of_nat (retryCount s))
                   * Z.of_N RETRY_INTERVAL) 1000)
  else None.

(** What a [catch (error)] binds when the API module has thrown
    [new Error(m)]: an object with a message and no [response]. *)
Definition caughtError (m : string) : Caught.t :=
  {| Caught.response := None; Caught.message := Some m |}.

(** The status calls made and the closure held are for documents of
    [ids]. *)
Definition Known (ids : list string) (k : Component) : Prop :=
  (forall id, In (StatusCall id) (effects k) -> In id ids) /\
  (forall id, polled (pending k) = Some id -> In id ids).

End Ledger.

(** A component at rest after a first session of thirty polls that an error
    report ended: its React counter stands at 30. *)
Definition afterLongSession : DocumentUploader.Component :=
  DocumentUploader.run DocumentUploader.mounted
    (Session.start
     ++ Session.polls
          (repeat (Session.statusReport "processing: embedding chunks (42%)")
             30)
     ++ [DocumentUploader.StatusResolved
           (Session.statusReport "error: model unavailable")])%list.

(** A run with a rejected file, a failed upload and a session that completes
    after one poll. *)
Definition mixedRun : list DocumentUploader.Event :=
  [DocumentUploader.FileSelected
     (Some {| DocumentUploader.name := "notes.txt";
              DocumentUploader.size := 12 |});
   DocumentUploader.FileSelected (Some Session.report);
   DocumentUploader.UploadRejected Session.networkDown;
   DocumentUploader.FileSelected (Some Session.report);
   DocumentUploader.UploadResolved "abc";
   DocumentUploader.StatusResolved embedding;
   DocumentUploader.TimerFired;
   DocumentUploader.StatusResolved (Session.statusReport "completed")].


(** ** JavaScript: [String.prototype.trim] *)

Module JSText.

(** White space and line terminators among the characters of the model:
    TAB, LF, VT, FF, CR, the space and the no-break space. *)
Definition isWhiteSpace (c : ascii) : bool :=
  let n := nat_of_ascii c in
  ((9 <=? n)%nat && (n <=? 13)%nat) || (n =? 32)%nat || (n =? 160)%nat.

Fixpoint trimStart (s : string) : string :=
  match s with
  | EmptyString => EmptyString
  | String c s' => if isWhiteSpace c then trimStart s' else s
  end.

Fixpoint trimEnd (s : string) : string :=
  match s with
  | EmptyString => EmptyString
  | String c s' =>
      match trimEnd s' with
      | EmptyString => if isWhiteSpace c then EmptyString
                       else String c EmptyString
      | t => String c t
      end
  end.

(** [s.trim()] *)
Definition trim (s : string) : string := trimEnd (trimStart s).

(** The seven characters above, one by one. *)
Definition IsSpace (c : ascii) : Prop :=
  In c ["009"; "010"; "011"; "012"; "013"; " "; "160"]%char.

(** A text of white space only (the empty text included). *)
Definition Blank (s : string) : Prop := Spec.All IsSpace s.

End JSText.

(** ** components/QueryInterface.tsx: [validateQuestion] and [handleSubmit] *)

Module QueryForm.

(** [confidence] and [metadata] are dropped: the handlers pass them on
    without reading them. *)
Record QueryResult := {
  answer : string;
  context : list string
}.

Definition validateQuestion (text : string) : option string :=
  if negb (JS.truthy (JSText.trim text)) then
    Some QueryInterface.ERROR_MESSAGES.EMPTY_QUESTION
  else if (500 <? String.length text)%nat then
    Some QueryInterface.ERROR_MESSAGES.TOO_LONG
  else None.

Record State := {
  question : string;
  isLoading : bool;
  result : option QueryResult;
  error : string;
  loadingMessage : string
}.

Definition initialState : State :=
  {| question := EmptyString; isLoading := false; result := None;
     error := EmptyString; loadingMessage := EmptyString |}.

Definition setQuestion (q : string) (s : State) : State :=
  {| question := q; isLoading := isLoading s; result := result s;
     error := error s; loadingMessage := loadingMessage s |}.

Definition setIsLoading (b : bool) (s : State) : State :=
  {| question := question s; isLoading := b; result := result s;
     error := error s; loadingMessage := loadingMessage s |}.

Definition setResult (r : option QueryResult) (s : State) : State :=
  {| question := question s; isLoading := isLoading s; result := r;
     error := error s; loadingMessage := loadingMessage s |}.

Definition setError (e : string) (s : State) : State :=
  {| question := question s; isLoading := isLoading s; result := result s;
     error := e; loadingMessage := loadingMessage s |}.

Definition setLoadingMessage (m : string) (s : State) : State :=
  {| question := question s; isLoading := isLoading s; result := result s;
     error := error s; loadingMessage := m |}.

(** The component with its property [documentId], the request it waits
    for, and the questions it has sent. *)
Record Form := {
  documentId : string;
  state : State;
  awaiting : bool;
  asked : list (string * string)
}.

Definition mounted (id : string) : Form :=
  {| documentId := id; state := initialState; awaiting := false;
     asked := [] |}.

Definition update (f : State -> State) (k : Form) : Form :=
  {| documentId := documentId k; state := f (state k);
     awaiting := awaiting k; asked := asked k |}.

(** [handleSubmit] up to [await askQuestion(...)]. *)
Definition handleSubmit (k : Form) : Form :=
  match validateQuestion (question (state k)) with
  | Some validationError => update (setError validationError) k
  | None =>
      let k1 :=
        update (setLoadingMessage "Processing your question...")
          (update (setResult None)
            (update (setError EmptyString)
              (update (setIsLoading true) k))) in
      {| documentId := documentId k1; state := state k1; awaiting := true;
         asked := asked k1 ++ [(question (state k), documentId k)] |}
  end.

(** The [finally] block. *)
Definition finally (k : Form) : Form :=
  {| documentId := documentId k;
     state := setLoadingMessage EmptyString (setIsLoading false (state k));
     awaiting := false; asked := asked k |}.

Definition ask_resolved (r : QueryResult) (k : Form) : Form :=
  finally (update (setResult (Some r)) k).

Definition ask_rejected (e : Caught.t) (k : Form) : Form :=
  finally (update (setError (QueryInterface.getErrorMessage e)) k).

(** The input's [onChange]. *)
Definition handleChange (text : string) (k : Form) : Form :=
  update (setError EmptyString) (update (setQuestion text) k).

Inductive Event :=
| Typed (text : string)
| Submitted
| AskResolved (r : QueryResult)
| AskRejected (e : Caught.t).

(** One turn of the event loop.  The input and the button are
    [disabled={isLoading}]: no typing and no submission while a question is
    loading; a settlement comes only for a request in flight. *)
Definition step (k : Form) (ev : Event) : Form :=
  match ev with
  | Typed text => if isLoading (state k) then k else handleChange text k
  | Submitted => if isLoading (state k) then k else handleSubmit k
  | AskResolved r => if awaiting k then ask_resolved r k else k
  | AskRejected e => if awaiting k then ask_rejected e k else k
  end.

Definition run (k : Form) (evs : list Event) : Form := fold_left step evs k.

(** What every run keeps. *)
Definition Consistent (k : Form) : Prop :=
  isLoading (state k) = awaiting k /\
  loadingMessage (state k)
  = (if isLoading (state k) then "Processing your question..."
     else EmptyString) /\
  (isLoading (state k) = true ->
   error (state k) = EmptyString /\ result (state k) = None) /\
  Forall (fun q => validateQuestion (fst q) = None /\ snd q = documentId k)
    (asked k).

End QueryForm.

(** A server that answers every request with 404 and a detail. *)
Definition notFound (_ : Api.Request) : Api.Fetched :=
  Api.Responds
    {| Api.status := 404;
       Api.json :=
         inr {| Api.error := None;
                Api.detail := Some (Api.JString "Document not found") |} |}.

(** A blank question, a question, and the failure of the request. *)
Definition askingTwice : list QueryForm.Event :=
  [QueryForm.Typed "   ";
   QueryForm.Submitted;
   QueryForm.Typed "What is the total?";
   QueryForm.Submitted;
   QueryForm.Typed "ignored while loading";
   QueryForm.AskRejected
     (Ledger.caughtError "API request failed: Document not found")].

(** ** The API module: [config], [setApiKey] and [getHeaders] *)

(** A JavaScript object with string values, used as a map: its keys in
    insertion order, each once. *)
Module Obj.

Definition t := list (string * string).

(** [o[key]] *)
Fixpoint get (o : t) (key : string) : option string :=
  match o with
  | [] => None
  | (k, v) :: o' => if String.eqb k key then Some v else get o' key
  end.

(** [o[key] = value]: a key that is there keeps its place. *)
Fixpoint set (o : t) (key value : string) : t :=
  match o with
  | [] => [(key, value)]
  | (k, v) :: o' =>
      if String.eqb k key then (k, value) :: o'
      else (k, v) :: set o' key value
  end.

(** [{...a, ...b}] *)
Definition spread (a b : t) : t :=
  fold_left (fun acc kv => set acc (fst kv) (snd kv)) b a.

Definition keys (o : t) : list string := map fst o.

End Obj.

Module ApiConfig.

(** [interface ApiConfig { apiKey?: string }] *)
Record t := { apiKey : option string }.

(** [let config: ApiConfig = {}] *)
Definition initial : t := {| apiKey := None |}.

Definition setApiKey (key : string) (_ : t) : t := {| apiKey := Some key |}.

(** [if (x) ...] on an optional string. *)
Definition given (x : option string) : option string :=
  match x with
  | Some s => if JS.truthy s then Some s else None
  | None => None
  end.

Definition getHeaders (config : t) (contentType : option string) : Obj.t :=
  let headers := [("Accept", "application/json")] in
  let headers :=
    match given contentType with
    | Some ct => Obj.set headers "Content-Type" ct
    | None => headers
    end in
  match given (apiKey config) with
  | Some key => Obj.set headers "X-API-Key" key
  | None => headers
  end.

(** The [headers] that [fetchWithErrorHandling] hands to [fetch]:
    [{...getHeaders(options.headers?.['Content-Type']), ...options.headers}],
    with [optionsHeaders = None] when the caller gives no headers. *)
Definition requestHeaders (config : t) (optionsHeaders : option Obj.t)
    : Obj.t :=
  match optionsHeaders with
  | Some h => Obj.spread (getHeaders config (Obj.get h "Content-Type")) h
  | None => getHeaders config None
  end.

(** The headers that [queryDocument] and [askQuestion] give. *)
Definition jsonHeaders : Obj.t := [("Content-Type", "application/json")].

End ApiConfig.

(** ** components/ApiKeyInput.tsx *)

Module ApiKeyInput.

(** The component's state, the [config] of the API module and
    [localStorage]: what the component reads and writes. *)
Record Page := {
  key : string;
  isVisible : bool;
  config : ApiConfig.t;
  localStorage : Obj.t
}.

(** The effect run at mounting. *)
Definition mountEffect (p : Page) : Page :=
  match ApiConfig.given (Obj.get (localStorage p) "api_key") with
  | Some savedKey =>
      {| key := savedKey; isVisible := isVisible p;
         config := ApiConfig.setApiKey savedKey (config p);
         localStorage := localStorage p |}
  | None => p
  end.

Definition handleKeyChange (newKey : string) (p : Page) : Page :=
  {| key := newKey; isVisible := isVisible p;
     config := ApiConfig.setApiKey newKey (config p);
     localStorage := Obj.set (localStorage p) "api_key" newKey |}.

(** The page is loaded anew: the module and the component start over, and
    the storage stays. *)
Definition reload (p : Page) : Page :=
  {| key := EmptyString; isVisible := false; config := ApiConfig.initial;
     localStorage := localStorage p |}.

End ApiKeyInput.

(** A page on which no key was ever entered. *)
Definition freshPage : ApiKeyInput.Page :=
  {| ApiKeyInput.key := EmptyString; ApiKeyInput.isVisible := false;
     ApiKeyInput.config := ApiConfig.initial;
     ApiKeyInput.localStorage := [("theme", "dark")] |}.

(** A configuration with a key, after [setApiKey("s3cret")]. *)
Definition keyed : ApiConfig.t :=
  ApiConfig.setApiKey "s3cret" ApiConfig.initial.

(** ** components/SystemMonitor.tsx *)

Module SystemMonitor.

(** [SystemHealth], of which the handlers read nothing: the fields are for
    the view. *)
Record SystemHealth := { status : string }.

Record State := {
  health : option SystemHealth;
  error : option string;
  requiresAuth : bool
}.

Definition initialState : State :=
  {| health := None; error := None; requiresAuth := false |}.

(** The component, whether it is mounted (its interval is set), and the
    calls of [getHealth]: how many were made, how many are in flight. *)
Record Monitor := {
  state : State;
  mountedNow : bool;
  requests : nat;
  inFlight : nat
}.

Definition UPDATE_INTERVAL : N := 30000.

(** [fetchHealth()] up to [await getHealth()]. *)
Definition fetchHealth (k : Monitor) : Monitor :=
  {| state := state k; mountedNow := mountedNow k;
     requests := S (requests k); inFlight := S (inFlight k) |}.

(** The effect run at mounting: a first [fetchHealth()], then
    [setInterval(fetchHealth, 30000)]. *)
Definition mounted : Monitor :=
  fetchHealth {| state := initialState; mountedNow := true;
                 requests := 0; inFlight := 0 |}.

(** [setHealth(data); setError(null)] *)
Definition resolved (data : SystemHealth) (s : State) : State :=
  {| health := Some data; error := None; requiresAuth := requiresAuth s |}.

(** The [catch]: [message] is [error.message], [None] when the value
    thrown has none (then [includes] is not reached). *)
Definition rejected (message : option string) (s : State) : State :=
  {| health := health s; error := message;
     requiresAuth :=
       match message with
       | Some m => if JS.includes m "401" then true else requiresAuth s
       | None => requiresAuth s
       end |}.

Inductive Event :=
| Tick
| HealthResolved (data : SystemHealth)
| HealthRejected (message : option string)
| Unmounted.

(** A settlement ends one call in flight; React drops the state updates of
    a component that is no longer mounted. *)
Definition settle (f : State -> State) (k : Monitor) : Monitor :=
  match inFlight k with
  | O => k
  | S n =>
      {| state := if mountedNow k then f (state k) else state k;
         mountedNow := mountedNow k; requests := requests k;
         inFlight := n |}
  end.

(** One turn of the event loop; the cleanup of the effect is
    [clearInterval(interval)]. *)
Definition step (k : Monitor) (ev : Event) : Monitor :=
  match ev with
  | Tick => if mountedNow k then fetchHealth k else k
  | HealthResolved data => settle (resolved data) k
  | HealthRejected message => settle (rejected message) k
  | Unmounted =>
      {| state := state k; mountedNow := false; requests := requests k;
         inFlight := inFlight k |}
  end.

Definition run (k : Monitor) (evs : list Event) : Monitor :=
  fold_left step evs k.

Definition isTick (ev : Event) : bool :=
  match ev with Tick => true | _ => false end.

(** What the component renders. *)
Inductive View :=
| ErrorView (message : string) (keyInput : bool)
| LoadingView
| HealthView (data : SystemHealth) (keyInput : bool).

Definition render (s : State) : View :=
  match ApiConfig.given (error s), health s with
  | Some message, _ => ErrorView message (requiresAuth s)
  | None, None => LoadingView
  | None, Some data => HealthView data (requiresAuth s)
  end.

(** Some failure of the run had a message with ["401"] in it. *)
Fixpoint Saw401 (evs : list Event) : Prop :=
  match evs with
  | [] => False
  | HealthRejected (Some m) :: evs' => Spec.Contains m "401" \/ Saw401 evs'
  | _ :: evs' => Saw401 evs'
  end.

End SystemMonitor.

(** Servers that answer every request with 401: one without a JSON body,
    one with a detail. *)
Definition unauthorized (_ : Api.Request) : Api.Fetched :=
  Api.Responds
    {| Api.status := 401;
       Api.json := inl (Api.ErrorObject "Unexpected end of JSON input") |}.

Definition unauthorizedWithDetail (_ : Api.Request) : Api.Fetched :=
  Api.Responds
    {| Api.status := 401;
       Api.json :=
         inr {| Api.error := None;
                Api.detail := Some (Api.JString "Invalid API key") |} |}.

(** ** The API module: the other calls *)

Module ApiStatus.

Section Calls.

Variable VITE_API_BASE_URL : option string.
Variable fetch : Api.Request -> Api.Fetched.

Definition queryDocument : Api.Settled :=
  Api.fetchWithErrorHandling fetch
    {| Api.url := Api.API_BASE_URL VITE_API_BASE_URL ++ "/queries";
       Api.method := "POST" |}.

(** A call without [method] is a GET. *)
Definition getHealth : Api.Settled :=
  Api.fetchWithErrorHandling fetch
    {| Api.url := Api.API_BASE_URL VITE_API_BASE_URL ++ "/health";
       Api.method := "GET" |}.

Definition getSystemMetrics : Api.Settled :=
  Api.fetchWithErrorHandling fetch
    {| Api.url := Api.API_BASE_URL VITE_API_BASE_URL ++ "/system/metrics";
       Api.method := "GET" |}.

Definition getSystemMetricsHistory : Api.Settled :=
  Api.fetchWithErrorHandling fetch
    {| Api.url :=
         Api.API_BASE_URL VITE_API_BASE_URL ++ "/system/metrics/history";
       Api.method := "GET" |}.

End Calls.

End ApiStatus.

(** ** App.tsx: [formatFileSize] and [formatPDFDate] *)

Module AppFormat.

(** The tenths that [x.toFixed(1)] prints for [x = num / den]: the integer
    [n] with [n / 10] nearest to [x], the larger one on a tie.  The
    quotients of the source, by 1024 and by 1024 * 1024, are exact in
    JavaScript for an integer up to [JS.MAX_SAFE_INTEGER]. *)
Definition tenths (num den : N) : N := ((20 * num + den) / (2 * den))%N.

(** The digits of [n] with a point before the last one. *)
Definition showTenths (n : N) : string :=
  JS.ofNumber (n / 10) ++ "." ++ JS.ofNumber (n mod 10).

(** [x.toFixed(1)] for [x = num / den] below 10^21, where [toFixed] prints
    digits and a point; from 10^21 on it prints an exponent, which is out
    of this model. *)
Definition toFixed1 (num den : N) : string := showTenths (tenths num den).

(** [formatFileSize] on a size in bytes: a non-negative integer up to
    [JS.MAX_SAFE_INTEGER], the integers that a JavaScript number counts
    one by one.  Every quotient is then far below 10^21. *)
Definition formatFileSize (bytes : N) : string :=
  if (bytes <? 1024)%N then JS.ofNumber bytes ++ " B"
  else if (bytes <? 1024 * 1024)%N then toFixed1 bytes 1024 ++ " KB"
  else toFixed1 bytes (1024 * 1024) ++ " MB".

(** What [formatPDFDate] returns: its argument as it is, or the text of
    [new Date(year, monthIndex, day, hour, minute, second).toLocaleString()],
    which depends on the locale and is kept as the six arguments. *)
Inductive Shown :=
| AsIs (text : string)
| LocalDate (year monthIndex day hour minute second : Z).

(** [\d{n}] at the head of [s]: the digits and what follows. *)
Fixpoint takeDigits (n : nat) (s : string) : option (string * string) :=
  match n with
  | O => Some (EmptyString, s)
  | S n' =>
      match s with
      | EmptyString => None
      | String c s' =>
          if JS.isDigit c then
            match takeDigits n' s' with
            | Some (ds, rest) => Some (String c ds, rest)
            | None => None
            end
          else None
      end
  end.

(** The groups of [\d{n1}] ... in a row. *)
Fixpoint takeGroups (ns : list nat) (s : string) : option (list string) :=
  match ns with
  | [] => Some []
  | n :: ns' =>
      match takeDigits n s with
      | Some (ds, rest) =>
          match takeGroups ns' rest with
          | Some groups => Some (ds :: groups)
          | None => None
          end
      | None => None
      end
  end.

(** [/D:(\d{4})(\d{2})(\d{2})(\d{2})(\d{2})(\d{2})/] at the head of [s]. *)
Definition matchHere (s : string) : option (list string) :=
  if JS.startsWith s "D:" then takeGroups [4; 2; 2; 2; 2; 2]%nat (JS.slice 2 s)
  else None.

(** [dateStr.match(...)]: the groups of the leftmost match. *)
Fixpoint dateMatch (s : string) : option (list string) :=
  match matchHere s with
  | Some groups => Some groups
  | None =>
      match s with
      | EmptyString => None
      | String _ s' => dateMatch s'
      end
  end.

Definition int (ds : string) : Z := Z.of_N (JS.parseInt ds).

Definition formatPDFDate (dateStr : string) : Shown :=
  if negb (JS.truthy dateStr) || negb (JS.startsWith dateStr "D:") then
    AsIs dateStr
  else
    match dateMatch dateStr with
    | Some [year; month; day; hour; minute; second] =>
        LocalDate (int year) (int month - 1) (int day) (int hour)
          (int minute) (int second)
    | _ => AsIs dateStr
    end.

(** [n] decimal digits. *)
Definition DigitsOf (n : nat) (ds : string) : Prop :=
  String.length ds = n /\ Spec.All Spec.IsDigit ds.

End AppFormat.

(** * Properties *)

(** ** Strings *)

Section StringFacts.

Lemma append_assoc (a b c : string) : (a ++ b) ++ c = a ++ (b ++ c).
Proof. induction a as [|x a IH]; simpl; [reflexivity | now rewrite IH]. Qed.

Lemma append_empty_r (a : string) : a ++ EmptyString = a.
Proof. induction a as [|x a IH]; simpl; [reflexivity | now rewrite IH]. Qed.

Lemma slice_append (p r : string) : JS.slice (String.length p) (p ++ r) = r.
Proof. induction p as [|x p IH]; simpl; [destruct r; reflexivity | exact IH]. Qed.

Lemma startsWith_append (p r : string) : JS.startsWith (p ++ r) p = true.
Proof.
  induction p as [|x p IH]; simpl.
  - destruct r; reflexivity.
  - now rewrite Ascii.eqb_refl, IH.
Qed.

Lemma startsWith_split (s p : string) :
  JS.startsWith s p = true -> s = p ++ JS.slice (String.length p) s.
Proof.
  revert s; induction p as [|x p IH]; intros s H.
  - destruct s; reflexivity.
  - destruct s as [|y s]; simpl in H; [discriminate|].
    apply andb_true_iff in H as [Hxy Hp].
    apply Ascii.eqb_eq in Hxy; subst y.
    simpl. f_equal. now apply IH.
Qed.

Lemma startsWith_spec (s p : string) :
  JS.startsWith s p = true <-> exists rest, s = p ++ rest.
Proof.
  split.
  - intros H. eexists. now apply startsWith_split.
  - intros [rest ->]. apply startsWith_append.
Qed.

Lemma startsWith_false (s p : string) :
  JS.startsWith s p = false <-> forall rest, s <> p ++ rest.
Proof.
  split.
  - intros H rest ->. now rewrite startsWith_append in H.
  - intros H. destruct (JS.startsWith s p) eqn:E; [|reflexivity].
    exfalso. apply (H (JS.slice (String.length p) s)).
    now apply startsWith_split.
Qed.

Lemma endsWith_spec (s p : string) :
  JS.endsWith s p = true <-> exists pre, s = pre ++ p.
Proof.
  induction s as [|c s IH]; cbn [JS.endsWith].
  - rewrite orb_false_r, String.eqb_eq. split.
    + intros <-. now exists EmptyString.
    + intros [pre H]. destruct pre; simpl in H; [assumption | discriminate].
  - rewrite orb_true_iff, String.eqb_eq, IH. split.
    + intros [<- | [pre ->]]; [now exists EmptyString | now exists (String c pre)].
    + intros [pre H]. destruct pre as [|x pre]; simpl in H.
      * now left.
      * right. exists pre. now injection H.
Qed.

Lemma includes_spec (s p : string) :
  JS.includes s p = true <-> Spec.Contains s p.
Proof.
  unfold Spec.Contains. induction s as [|c s IH]; cbn [JS.includes].
  - rewrite orb_false_r, startsWith_spec. split.
    + intros [rest H]. now exists EmptyString, rest.
    + intros [pre [post H]]. destruct pre; simpl in H; [|discriminate].
      now exists post.
  - rewrite orb_true_iff, startsWith_spec, IH. split.
    + intros [[rest H] | [pre [post ->]]].
      * now exists EmptyString, rest.
      * now exists (String c pre), post.
    + intros [pre [post H]]. destruct pre as [|x pre]; simpl in H.
      * left. now exists post.
      * right. exists pre, post. now injection H.
Qed.

Lemma includes_false (s p : string) :
  JS.includes s p = false <-> ~ Spec.Contains s p.
Proof.
  rewrite <- includes_spec. destruct (JS.includes s p).
  - split; [discriminate | intros H; now exfalso; apply H].
  - split; [intros _ H; discriminate | reflexivity].
Qed.

Lemma toLowerCase_append (a b : string) :
  JS.toLowerCase (a ++ b) = JS.toLowerCase a ++ JS.toLowerCase b.
Proof. induction a as [|x a IH]; simpl; [reflexivity | now rewrite IH]. Qed.

(** A decomposition of the lowercased string comes from one of the string. *)
Lemma toLowerCase_split (s a b : string) :
  JS.toLowerCase s = a ++ b ->
  exists a' b', s = a' ++ b' /\ JS.toLowerCase a' = a /\ JS.toLowerCase b' = b.
Proof.
  revert a; induction s as [|c s IH]; intros a H; simpl in H.
  - destruct a; simpl in H; [|discriminate]. subst b. now exists EmptyString, EmptyString.
  - destruct a as [|x a]; simpl in H.
    + exists EmptyString, (String c s). now subst b.
    + injection H as Hx Hs. destruct (IH _ Hs) as [a' [b' [-> [Ha Hb]]]].
      exists (String c a'), b'. simpl. now rewrite Hx, Ha.
Qed.

Ltac by_cases c :=
  destruct c as [[] [] [] [] [] [] [] []]; vm_compute;
  intuition (try discriminate; try reflexivity).

Lemma lowerChar_dot (c : ascii) : JS.lowerChar c = "."%char <-> c = "."%char.
Proof. by_cases c. Qed.

Lemma lowerChar_p (c : ascii) :
  JS.lowerChar c = "p"%char <-> (c = "p" \/ c = "P")%char.
Proof. by_cases c. Qed.

Lemma lowerChar_d (c : ascii) :
  JS.lowerChar c = "d"%char <-> (c = "d" \/ c = "D")%char.
Proof. by_cases c. Qed.

Lemma lowerChar_f (c : ascii) :
  JS.lowerChar c = "f"%char <-> (c = "f" \/ c = "F")%char.
Proof. by_cases c. Qed.

Lemma toLowerCase_pdf (e : string) :
  JS.toLowerCase e = ".pdf" <->
  exists c1 c2 c3,
    e = String "." (String c1 (String c2 (String c3 EmptyString))) /\
    (c1 = "p" \/ c1 = "P")%char /\ (c2 = "d" \/ c2 = "D")%char /\
    (c3 = "f" \/ c3 = "F")%char.
Proof.
  split.
  - intros H.
    destruct e as [|c0 [|c1 [|c2 [|c3 [|c4 e]]]]]; simpl in H;
      try discriminate.
    injection H as H0 H1 H2 H3.
    apply (proj1 (lowerChar_dot _)) in H0.
    apply (proj1 (lowerChar_p _)) in H1.
    apply (proj1 (lowerChar_d _)) in H2.
    apply (proj1 (lowerChar_f _)) in H3.
    subst c0. now exists c1, c2, c3.
  - intros [c1 [c2 [c3 [-> [H1 [H2 H3]]]]]]. simpl.
    apply (proj2 (lowerChar_p _)) in H1.
    apply (proj2 (lowerChar_d _)) in H2.
    apply (proj2 (lowerChar_f _)) in H3. now rewrite H1, H2, H3.
Qed.

Lemma endsWith_pdf (n : string) :
  JS.endsWith (JS.toLowerCase n) ".pdf" = true <-> Spec.EndsWithPdf n.
Proof.
  rewrite endsWith_spec. unfold Spec.EndsWithPdf. split.
  - intros [pre H]. apply toLowerCase_split in H as [a [b [-> [_ Hb]]]].
    apply toLowerCase_pdf in Hb as [c1 [c2 [c3 [-> H]]]].
    now exists a, c1, c2, c3.
  - intros [pre [c1 [c2 [c3 [-> H]]]]].
    exists (JS.toLowerCase pre). rewrite toLowerCase_append. f_equal.
    apply toLowerCase_pdf. now exists c1, c2, c3.
Qed.

End StringFacts.

(** ** The file validator *)

(** C4.  For every candidate file, [validateFile] answers [INVALID_TYPE]
    exactly when the name does not end with [.pdf] in any letter case
    (whatever the size), [FILE_TOO_LARGE] exactly when the name ends with
    [.pdf] and the size is strictly above 10,485,760 bytes, and accepts
    (answers [null]) exactly in the remaining case.  The answer is a function
    of the file alone. *)
Theorem validateFile_contract (file : DocumentUploader.File) :
  let n := DocumentUploader.name file in
  let sz := DocumentUploader.size file in
  (DocumentUploader.validateFile file
     = Some DocumentUploader.ERROR_MESSAGES.INVALID_TYPE
   <-> ~ Spec.EndsWithPdf n) /\
  (DocumentUploader.validateFile file
     = Some DocumentUploader.ERROR_MESSAGES.FILE_TOO_LARGE
   <-> Spec.EndsWithPdf n /\ (Spec.SIZE_LIMIT < sz)%N) /\
  (DocumentUploader.validateFile file = None
   <-> Spec.EndsWithPdf n /\ (sz <= Spec.SIZE_LIMIT)%N).
Proof.
  intros n sz. unfold DocumentUploader.validateFile. fold n sz.
  pose proof (endsWith_pdf n) as Hpdf.
  change DocumentUploader.MAX_FILE_SIZE with Spec.SIZE_LIMIT.
  destruct (JS.endsWith (JS.toLowerCase n) ".pdf") eqn:E; simpl.
  - assert (Hn : Spec.EndsWithPdf n) by now apply Hpdf.
    destruct (N.ltb_spec Spec.SIZE_LIMIT sz) as [Hlt | Hle].
    + repeat split; try discriminate; try tauto; try lia;
        intros [_ H]; lia.
    + repeat split; try discriminate; try tauto; try lia;
        intros [_ H]; lia.
  - assert (Hn : ~ Spec.EndsWithPdf n).
    { intros H. apply Hpdf in H. discriminate. }
    repeat split; try discriminate; try tauto.
Qed.

(** ** The progress extractor *)

Section ProgressFacts.

Import DocumentUploader.

Ltac by_cases c :=
  destruct c as [[] [] [] [] [] [] [] []]; vm_compute;
  intuition (try discriminate; try reflexivity).

Lemma isDigit_spec (c : ascii) : JS.isDigit c = true <-> Spec.IsDigit c.
Proof. by_cases c. Qed.

Lemma isLineTerminator_spec (c : ascii) :
  JS.isLineTerminator c = false <-> (c <> "010" /\ c <> "013")%char.
Proof. by_cases c. Qed.

Lemma digit_not_space (c : ascii) : Spec.IsDigit c -> c <> " "%char.
Proof. by_cases c. Qed.

Lemma All_append (P : ascii -> Prop) (a b : string) :
  Spec.All P (a ++ b) <-> Spec.All P a /\ Spec.All P b.
Proof. induction a as [|x a IH]; simpl; [tauto | rewrite IH; tauto]. Qed.

Lemma All_impl (P Q : ascii -> Prop) (a : string) :
  (forall c, P c -> Q c) -> Spec.All P a -> Spec.All Q a.
Proof. intros H. induction a as [|x a IH]; simpl; [tauto | intuition]. Qed.

Lemma spanDigits_sound (s ds rest : string) :
  spanDigits s = (ds, rest) -> s = ds ++ rest /\ Spec.All Spec.IsDigit ds.
Proof.
  revert ds rest; induction s as [|c s IH]; intros ds rest H; simpl in H.
  - injection H as <- <-. now split.
  - destruct (JS.isDigit c) eqn:E.
    + destruct (spanDigits s) as [ds' rest'] eqn:E'.
      injection H as <- <-. destruct (IH _ _ eq_refl) as [-> Hd].
      split; [reflexivity|]. simpl. split; [now apply isDigit_spec | exact Hd].
    + injection H as <- <-. now split.
Qed.

(** The run of digits stops at the percent sign. *)
Lemma spanDigits_percent (ds post : string) :
  Spec.All Spec.IsDigit ds ->
  spanDigits (ds ++ "%)" ++ post) = (ds, "%)" ++ post).
Proof.
  induction ds as [|c ds IH]; intros H; simpl in *.
  - reflexivity.
  - destruct H as [Hc Hds]. apply isDigit_spec in Hc. rewrite Hc.
    now rewrite (IH Hds).
Qed.

Lemma matchGroup_sound (s ds : string) :
  matchGroup s = Some ds ->
  exists post, s = " (" ++ ds ++ "%)" ++ post /\ Spec.Digits ds.
Proof.
  unfold matchGroup. intros H.
  destruct (JS.startsWith s " (") eqn:E; [|discriminate].
  apply startsWith_split in E.
  destruct (spanDigits (JS.slice 2 s)) as [d rest] eqn:Es.
  destruct (JS.truthy d) eqn:Et; [|discriminate].
  destruct (JS.startsWith rest "%)") eqn:Er; [|discriminate].
  injection H as <-.
  apply spanDigits_sound in Es as [Es Hd].
  apply startsWith_split in Er.
  exists (JS.slice 2 rest). split.
  - rewrite E at 1. change (String.length " (") with 2%nat. rewrite Es.
    rewrite Er at 1. reflexivity.
  - split; [|exact Hd]. intros ->. discriminate.
Qed.

Lemma matchGroup_complete (ds post : string) :
  Spec.Digits ds -> matchGroup (" (" ++ ds ++ "%)" ++ post) = Some ds.
Proof.
  intros [Hne Hd]. unfold matchGroup.
  change (JS.startsWith (" (" ++ ds ++ "%)" ++ post) " (") with true.
  change (JS.slice 2 (" (" ++ ds ++ "%)" ++ post)) with (ds ++ "%)" ++ post).
  rewrite (spanDigits_percent _ _ Hd).
  replace (JS.truthy ds) with true.
  - reflexivity.
  - unfold JS.truthy. destruct ds; [now elim Hne | reflexivity].
Qed.

Lemma matchGroup_space (c : ascii) (s : string) :
  c <> " "%char -> matchGroup (String c s) = None.
Proof.
  intros H. unfold matchGroup. cbn [JS.startsWith].
  destruct (Ascii.eqb_spec " " c) as [<- | _]; [now elim H | reflexivity].
Qed.

Lemma matchDotStar_sound (s ds : string) :
  matchDotStar s = Some ds ->
  exists free post,
    s = free ++ " (" ++ ds ++ "%)" ++ post /\
    Spec.FreeText free /\ Spec.Digits ds.
Proof.
  induction s as [|c s IH]; intros H; cbn [matchDotStar] in H.
  - apply matchGroup_sound in H as [post [H _]]. discriminate.
  - assert (Hhere : matchGroup (String c s) = Some ds ->
                    exists free post,
                      String c s = free ++ " (" ++ ds ++ "%)" ++ post /\
                      Spec.FreeText free /\ Spec.Digits ds).
    { intros Hg. apply matchGroup_sound in Hg as [post [Hg Hd]].
      exists EmptyString, post. exact (conj Hg (conj I Hd)). }
    destruct (JS.isLineTerminator c) eqn:E; [now apply Hhere|].
    destruct (matchDotStar s) as [d|] eqn:Es; [|now apply Hhere].
    injection H as ->.
    destruct (IH eq_refl) as [free [post [-> [Hf Hd]]]].
    exists (String c free), post.
    refine (conj eq_refl (conj (conj _ Hf) Hd)).
    now apply isLineTerminator_spec.
Qed.

Lemma matchDotStar_complete (free ds post : string) :
  Spec.FreeText free -> Spec.Digits ds ->
  exists ds', matchDotStar (free ++ " (" ++ ds ++ "%)" ++ post) = Some ds'.
Proof.
  intros Hf Hd. induction free as [|c free IH].
  - change (EmptyString ++ " (" ++ ds ++ "%)" ++ post)
      with (String " " ("(" ++ ds ++ "%)" ++ post)).
    cbn [matchDotStar]. change (JS.isLineTerminator " ") with false.
    destruct (matchDotStar ("(" ++ ds ++ "%)" ++ post)) as [d|];
      [now exists d|].
    exists ds. now apply (matchGroup_complete ds post).
  - destruct Hf as [Hc Hf]. apply isLineTerminator_spec in Hc.
    change (String c free ++ " (" ++ ds ++ "%)" ++ post)
      with (String c (free ++ " (" ++ ds ++ "%)" ++ post)).
    cbn [matchDotStar]. rewrite Hc.
    destruct (IH Hf) as [d ->]. now exists d.
Qed.

Lemma matchDotStar_no_space (s : string) :
  Spec.All (fun c => c <> " "%char) s -> matchDotStar s = None.
Proof.
  induction s as [|c s IH]; intros H.
  - reflexivity.
  - destruct H as [Hc Hs]. cbn [matchDotStar].
    rewrite (IH Hs), (matchGroup_space _ _ Hc).
    now destruct (JS.isLineTerminator c).
Qed.

(** When the pattern ends the text, the greedy [.*] stops at its last
    group: the digits returned are those that end the text. *)
Lemma matchDotStar_whole (free ds : string) :
  Spec.FreeText free -> Spec.Digits ds ->
  matchDotStar (free ++ " (" ++ ds ++ "%)") = Some ds.
Proof.
  intros Hf Hd. induction free as [|c free IH].
  - change (EmptyString ++ " (" ++ ds ++ "%)") with (String " " ("(" ++ ds ++ "%)")).
    cbn [matchDotStar]. change (JS.isLineTerminator " ") with false.
    rewrite matchDotStar_no_space.
    + pose proof (matchGroup_complete ds EmptyString Hd) as H.
      now rewrite append_empty_r in H.
    + change ("(" ++ ds ++ "%)") with (String "(" (ds ++ "%)")).
      split; [discriminate|]. apply All_append. split.
      * eapply All_impl; [apply digit_not_space | apply Hd].
      * simpl. repeat split; discriminate.
  - destruct Hf as [Hc Hf]. apply isLineTerminator_spec in Hc.
    change (String c free ++ " (" ++ ds ++ "%)")
      with (String c (free ++ " (" ++ ds ++ "%)")).
    cbn [matchDotStar]. now rewrite Hc, (IH Hf).
Qed.

Lemma matchHere_sound (s ds : string) :
  matchHere s = Some ds ->
  exists free post,
    s = "processing: " ++ free ++ " (" ++ ds ++ "%)" ++ post /\
    Spec.FreeText free /\ Spec.Digits ds.
Proof.
  unfold matchHere. intros H.
  destruct (JS.startsWith s "processing: ") eqn:E; [|discriminate].
  apply startsWith_split in E.
  apply matchDotStar_sound in H as [free [post [H [Hf Hd]]]].
  exists free, post. refine (conj _ (conj Hf Hd)).
  change (String.length "processing: ") with 12%nat in E.
  rewrite H in E. exact E.
Qed.

Lemma regexMatch_sound (s ds : string) :
  regexMatch s = Some ds -> Spec.ProgressPattern s ds.
Proof.
  unfold Spec.ProgressPattern.
  induction s as [|c s IH]; intros H; cbn [regexMatch] in H.
  - destruct (matchHere EmptyString) eqn:E; [|discriminate]. injection H as ->.
    apply matchHere_sound in E as [free [post [E _]]]. discriminate.
  - destruct (matchHere (String c s)) as [d|] eqn:E.
    + injection H as ->.
      apply matchHere_sound in E as [free [post [E [Hf Hd]]]].
      exists EmptyString, free, post. exact (conj E (conj Hf Hd)).
    + destruct (IH H) as [pre [free [post [-> [Hf Hd]]]]].
      exists (String c pre), free, post. exact (conj eq_refl (conj Hf Hd)).
Qed.

Lemma regexMatch_complete (s ds : string) :
  Spec.ProgressPattern s ds -> exists ds', regexMatch s = Some ds'.
Proof.
  intros [pre [free [post [-> [Hf Hd]]]]].
  induction pre as [|c pre IH].
  - destruct (matchDotStar_complete free ds post Hf Hd) as [d Hm].
    exists d.
    assert (Hh : matchHere
                   ("processing: " ++ free ++ " (" ++ ds ++ "%)" ++ post)
                 = Some d) by exact Hm.
    change (EmptyString ++ "processing: " ++ free ++ " (" ++ ds ++ "%)" ++ post)
      with ("processing: " ++ free ++ " (" ++ ds ++ "%)" ++ post).
    destruct ("processing: " ++ free ++ " (" ++ ds ++ "%)" ++ post);
      cbn [regexMatch]; now rewrite Hh.
  - destruct IH as [d IH].
    change (String c pre ++ "processing: " ++ free ++ " (" ++ ds ++ "%)" ++ post)
      with (String c (pre ++ "processing: " ++ free ++ " (" ++ ds ++ "%)" ++ post)).
    cbn [regexMatch].
    destruct (matchHere _) as [d'|]; [now exists d' | now exists d].
Qed.

Lemma regexMatch_whole (free ds : string) :
  Spec.FreeText free -> Spec.Digits ds ->
  regexMatch ("processing: " ++ free ++ " (" ++ ds ++ "%)") = Some ds.
Proof.
  intros Hf Hd.
  assert (Hh : matchHere ("processing: " ++ free ++ " (" ++ ds ++ "%)")
               = Some ds) by exact (matchDotStar_whole free ds Hf Hd).
  change ("processing: " ++ free ++ " (" ++ ds ++ "%)")
    with (String "p" ("rocessing: " ++ free ++ " (" ++ ds ++ "%)")) in *.
  cbn [regexMatch]. now rewrite Hh.
Qed.

(** A parsed progress is the hundredth of an integer that the pattern
    shows in the status. *)
Lemma parsed_pattern (status : string) (q : Q) :
  parseProgressFromStatus status = Some q ->
  exists ds, Spec.ProgressPattern status ds /\
             q = Z.of_N (JS.parseInt ds) # 100.
Proof.
  unfold parseProgressFromStatus. intros H.
  destruct (regexMatch status) as [d|] eqn:E; [|discriminate].
  injection H as <-. exists d.
  split; [now apply regexMatch_sound | reflexivity].
Qed.

End ProgressFacts.

(** ** Numbers

    The decimal reading of the source and the rounding of an integer to a
    JavaScript number, against their specifications. *)

Section NumberFacts.

Lemma digitValue_digitOf (c : ascii) :
  Spec.IsDigit c -> JS.digitValue c = Spec.digitOf c.
Proof.
  unfold Spec.IsDigit. cbn [list_ascii_of_string In].
  intros H. repeat (destruct H as [<- | H]; [reflexivity|]). destruct H.
Qed.

Lemma parseDigits_decimal (ds : string) :
  Spec.All Spec.IsDigit ds ->
  forall acc,
    JS.parseDigits acc ds
    = (acc * 10 ^ N.of_nat (String.length ds) + Spec.decimal ds)%N.
Proof.
  induction ds as [|c ds IH]; intros Hd acc.
  - cbn. lia.
  - destruct Hd as [Hc Hd]. cbn [JS.parseDigits Spec.decimal String.length].
    rewrite (IH Hd), (digitValue_digitOf c Hc).
    rewrite Nat2N.inj_succ, N.pow_succ_r'. lia.
Qed.

Lemma size_spec (n : N) :
  (53 < N.size n)%N ->
  exists e, (N.size n = e + 53 /\ 2 ^ 52 * 2 ^ e <= n < 2 ^ 53 * 2 ^ e)%N.
Proof.
  intros H. assert (Hn : n <> 0%N) by (intros ->; cbn in H; lia).
  exists (N.size n - 53)%N. split; [lia|].
  rewrite <- !N.pow_add_r.
  pose proof (N.log2_spec n ltac:(lia)) as [Hlo Hhi].
  rewrite (N.size_log2 n Hn) in *.
  replace (52 + (N.succ (N.log2 n) - 53))%N with (N.log2 n) by lia.
  replace (53 + (N.succ (N.log2 n) - 53))%N with (N.succ (N.log2 n)) by lia.
  now split.
Qed.

Lemma size_small (n : N) : (n < 2 ^ 53)%N -> (N.size n <= 53)%N.
Proof.
  intros H. destruct (N.le_gt_cases (N.size n) 53) as [|Hgt]; [assumption|].
  destruct (size_spec n Hgt) as [e [He [Hlo _]]].
  replace e with ((e - 1) + 1)%N in Hlo by lia.
  rewrite N.pow_add_r in Hlo. change (2 ^ 1)%N with 2%N in Hlo.
  assert (1 <= 2 ^ (e - 1))%N by (pose proof (N.pow_nonzero 2 (e - 1)); lia).
  assert (E : (2 ^ 53 = 2 * 2 ^ 52)%N) by reflexivity.
  rewrite E in H. set (c := (2 ^ 52)%N) in *. nia.
Qed.

Lemma numberValue_exact (n : N) :
  (n <= 2 ^ 53)%N -> JS.numberValue n = n.
Proof.
  intros H. unfold JS.numberValue.
  destruct (N.size n <=? 53)%N eqn:E; [reflexivity|].
  apply N.leb_gt in E.
  assert (En : n = (2 ^ 53)%N).
  { apply N.le_antisymm; [exact H|].
    destruct (N.le_gt_cases (2 ^ 53) n) as [|Hlt]; [assumption|].
    apply size_small in Hlt. lia. }
  subst n. reflexivity.
Qed.

(** The integers from which the rounding selects: with [u] the unit in
    the last place of [n], the multiples [s * u] and [(s + 1) * u] around
    [n] are representable, and no representable integer lies between. *)
Lemma neighbours (n : N) :
  (53 < N.size n)%N ->
  let u := (2 ^ (N.size n - 53))%N in
  let s := (n / u)%N in
  (n = s * u + n mod u /\ n mod u < u /\ 2 ^ 52 <= s < 2 ^ 53)%N.
Proof.
  intros H u s.
  destruct (size_spec n H) as [e [He [Hlo Hhi]]].
  assert (Eu : u = (2 ^ e)%N) by (unfold u; f_equal; lia).
  assert (Hu : u <> 0%N) by (rewrite Eu; apply N.pow_nonzero; lia).
  pose proof (N.div_mod n u Hu) as Hdm. fold s in Hdm.
  pose proof (N.mod_lt n u Hu) as Hlt.
  rewrite <- Eu in Hlo, Hhi.
  repeat split; [lia | assumption | |].
  - unfold s. apply N.div_le_lower_bound; [assumption | lia].
  - unfold s. apply N.Div0.div_lt_upper_bound. lia.
Qed.

Lemma gap (s e r : N) :
  (2 ^ 52 <= s)%N -> Spec.Representable r ->
  (r <= s * 2 ^ e \/ (s + 1) * 2 ^ e <= r)%N.
Proof.
  intros Hs [t [k [-> Ht]]].
  destruct (N.le_gt_cases e k) as [Hk | Hk].
  - replace k with ((k - e) + e)%N by lia. rewrite N.pow_add_r.
    set (j := (t * 2 ^ (k - e))%N).
    replace (t * (2 ^ (k - e) * 2 ^ e))%N with (j * 2 ^ e)%N by (unfold j; lia).
    destruct (N.le_gt_cases j s) as [Hj | Hj].
    + left. now apply N.mul_le_mono_r.
    + right. apply N.mul_le_mono_r. lia.
  - left. replace e with ((e - k - 1) + 1 + k)%N by lia.
    rewrite !N.pow_add_r. change (2 ^ 1)%N with 2%N.
    assert (1 <= 2 ^ (e - k - 1))%N
      by (pose proof (N.pow_nonzero 2 (e - k - 1)); lia).
    assert (1 <= 2 ^ k)%N by (pose proof (N.pow_nonzero 2 k); lia).
    assert (2 ^ 53 = 2 * 2 ^ 52)%N by reflexivity.
    set (a := (2 ^ (e - k - 1))%N) in *. set (b := (2 ^ k)%N) in *.
    assert (t * b <= 2 * 2 ^ 52 * b)%N by (apply N.mul_le_mono_r; lia).
    assert (2 * 2 ^ 52 * b <= s * 2 * b)%N by (apply N.mul_le_mono_r; lia).
    assert (s * 2 * b * 1 <= s * 2 * b * a)%N by (apply N.mul_le_mono_l; lia).
    lia.
Qed.

Lemma representable_multiple (s e : N) :
  (s <= 2 ^ 53)%N -> Spec.Representable (s * 2 ^ e).
Proof.
  intros H. destruct (N.eq_dec s (2 ^ 53)) as [-> | Hne].
  - exists (2 ^ 52)%N, (e + 1)%N. split; [|reflexivity].
    rewrite N.pow_add_r. change (2 ^ 1)%N with 2%N.
    change (2 ^ 53)%N with (2 ^ 52 * 2)%N. lia.
  - exists s, e. split; [reflexivity | lia].
Qed.

Lemma even_multiple (s e : N) :
  N.even s = true -> exists k, (s * 2 ^ e = k * 2 ^ (e + 1))%N.
Proof.
  intros H. apply N.even_spec in H as [k ->]. exists k.
  rewrite N.pow_add_r. change (2 ^ 1)%N with 2%N. lia.
Qed.

Lemma odd_successor (s : N) : N.even s = false -> N.even (s + 1) = true.
Proof.
  intros H. rewrite N.add_1_r, N.even_succ. rewrite <- N.negb_even, H.
  reflexivity.
Qed.

Lemma numberValue_spec (n : N) : Spec.NumberValue n (JS.numberValue n).
Proof.
  unfold JS.numberValue.
  destruct (N.size n <=? 53)%N eqn:E.
  - apply N.leb_le in E. split; [|split].
    + exists n, 0%N. split; [cbn; lia|].
      eapply N.lt_le_trans; [apply N.size_gt|]. now apply N.pow_le_mono_r.
    + intros r _. unfold Spec.distance. lia.
    + intros r _ Hr. unfold Spec.distance. lia.
  - apply N.leb_gt in E.
    destruct (neighbours n E) as [Hn [Hrest [Hlo Hhi]]].
    set (e := (N.size n - 53)%N) in *.
    set (s := (n / 2 ^ e)%N) in *. set (rest := (n mod 2 ^ e)%N) in *.
    cbv zeta.
    pose proof (fun r => gap s e r Hlo) as Hgap.
    assert (Ra : Spec.Representable (s * 2 ^ e))
      by (apply representable_multiple; lia).
    assert (Rb : Spec.Representable ((s + 1) * 2 ^ e))
      by (apply representable_multiple; lia).
    assert (Eb : ((s + 1) * 2 ^ e = s * 2 ^ e + 2 ^ e)%N) by lia.
    pose proof (even_multiple s e) as Hs0.
    pose proof (even_multiple (s + 1) e) as Hs1.
    pose proof (odd_successor s) as Hodd.
    rewrite Eb in *.
    set (a := (s * 2 ^ e)%N) in *. set (u := (2 ^ e)%N) in *.
    unfold Spec.NumberValue, Spec.distance.
    destruct (2 * rest <? u)%N eqn:E1;
      [apply N.ltb_lt in E1 | apply N.ltb_ge in E1;
       destruct (u <? 2 * rest)%N eqn:E2;
       [apply N.ltb_lt in E2 | apply N.ltb_ge in E2;
        destruct (N.even s) eqn:E3]].
    + split; [exact Ra|]. split.
      * intros r Hr. destruct (Hgap r Hr); lia.
      * intros r Hr Hne Hd. destruct (Hgap r Hr); lia.
    + split; [exact Rb|]. split.
      * intros r Hr. destruct (Hgap r Hr); lia.
      * intros r Hr Hne Hd. destruct (Hgap r Hr); lia.
    + split; [exact Ra|]. split.
      * intros r Hr. destruct (Hgap r Hr); lia.
      * intros r Hr Hne Hd. destruct (Hs0 eq_refl) as [k Hk].
        exists k, e. fold u. split; [|exact Hk].
        destruct (Hgap r Hr); lia.
    + split; [exact Rb|]. split.
      * intros r Hr. destruct (Hgap r Hr); lia.
      * intros r Hr Hne Hd. destruct (Hs1 (Hodd eq_refl)) as [k Hk].
        exists k, e. fold u. split; [|exact Hk].
        destruct (Hgap r Hr); lia.
Qed.

(** The specification names one integer. *)
Lemma NumberValue_unique (n m m' : N) :
  Spec.NumberValue n m -> Spec.NumberValue n m' -> m = m'.
Proof.
  intros [Rm [Hm Tm]] [Rm' [Hm' Tm']].
  destruct (N.eq_dec m m') as [|Hne]; [assumption | exfalso].
  pose proof (Hm m' Rm') as H1. pose proof (Hm' m Rm) as H2.
  destruct (Tm m' Rm' (not_eq_sym Hne) ltac:(lia)) as [k [e [Hd Hk]]].
  destruct (Tm' m Rm Hne ltac:(lia)) as [k' [e' [Hd' Hk']]].
  unfold Spec.distance in Hd, Hd'.
  assert (Ee : (2 ^ e = 2 ^ e')%N) by lia.
  apply N.pow_inj_r in Ee; [subst e' | lia].
  rewrite N.pow_add_r in Hk, Hk'. change (2 ^ 1)%N with 2%N in Hk, Hk'.
  assert (Hu : (1 <= 2 ^ e)%N) by (pose proof (N.pow_nonzero 2 e); lia).
  set (u := (2 ^ e)%N) in *.
  destruct (N.lt_trichotomy k k') as [Hlt | [-> | Hlt]].
  - assert ((k + 1) * (u * 2) <= k' * (u * 2))%N
      by (apply N.mul_le_mono_r; lia). lia.
  - lia.
  - assert ((k' + 1) * (u * 2) <= k * (u * 2))%N
      by (apply N.mul_le_mono_r; lia). lia.
Qed.

Lemma parseInt_decimal (ds : string) :
  Spec.Digits ds -> JS.parseInt ds = JS.numberValue (Spec.decimal ds).
Proof.
  intros [_ Hd]. unfold JS.parseInt.
  rewrite (parseDigits_decimal ds Hd). f_equal.
Qed.

Lemma parseInt_exact (ds : string) :
  Spec.Digits ds -> (Spec.decimal ds <= JS.MAX_SAFE_INTEGER)%N ->
  JS.parseInt ds = Spec.decimal ds.
Proof.
  intros Hd Hn. rewrite (parseInt_decimal ds Hd).
  apply numberValue_exact. unfold JS.MAX_SAFE_INTEGER in Hn.
  assert ((2 ^ 53 - 1 <= 2 ^ 53)%N) by (apply N.le_sub_l). lia.
Qed.

End NumberFacts.

Example parseInt_examples :
  JS.parseInt "42" = 42%N /\ JS.parseInt "007" = 7%N /\
  JS.parseInt "100" = 100%N /\ JS.parseInt "250" = 250%N /\
  JS.parseInt "9007199254740992" = 9007199254740992%N /\
  JS.parseInt "9007199254740993" = 9007199254740992%N /\
  JS.parseInt "9007199254740995" = 9007199254740996%N /\
  JS.parseInt "9007199254740997" = 9007199254740996%N.
Proof. repeat split. Qed.

(** C5.  [parseProgressFromStatus] is total (it never raises).  It answers
    [null] exactly for the status strings in which the pattern
    [processing: <free text> (<integer>%)] does not occur.  When it answers
    a number, the pattern occurs in the status with an integer [n] of which
    the answer is the hundredth: [n/100] itself for every [n] up to
    [Number.MAX_SAFE_INTEGER], and for an [n] of at most twenty digits the
    hundredth of the Number value of [n], which is the integer of 53
    significant bits nearest to [n].  A status that is exactly such a
    pattern yields the answer of its integer.  The answer [null] is not the
    answer 0.  In particular ["processing: embedding chunks (42%)"] yields
    0.42 and ["completed"] yields [null]. *)
Theorem parseProgressFromStatus_contract :
  (forall status,
      DocumentUploader.parseProgressFromStatus status = None <->
      ~ exists ds, Spec.ProgressPattern status ds) /\
  (forall status q,
      DocumentUploader.parseProgressFromStatus status = Some q ->
      exists ds,
        Spec.ProgressPattern status ds /\
        ((Spec.decimal ds <= JS.MAX_SAFE_INTEGER)%N ->
         q = Z.of_N (Spec.decimal ds) # 100) /\
        ((Spec.decimal ds < 10 ^ 20)%N ->
         exists m,
           Spec.NumberValue (Spec.decimal ds) m /\ q = Z.of_N m # 100)) /\
  (forall free ds,
      Spec.FreeText free -> Spec.Digits ds ->
      (Spec.decimal ds <= JS.MAX_SAFE_INTEGER)%N ->
      DocumentUploader.parseProgressFromStatus
        ("processing: " ++ free ++ " (" ++ ds ++ "%)")
      = Some (Z.of_N (Spec.decimal ds) # 100)) /\
  (forall free ds,
      Spec.FreeText free -> Spec.Digits ds ->
      (Spec.decimal ds < 10 ^ 20)%N ->
      exists m,
        Spec.NumberValue (Spec.decimal ds) m /\
        DocumentUploader.parseProgressFromStatus
          ("processing: " ++ free ++ " (" ++ ds ++ "%)")
        = Some (Z.of_N m # 100)) /\
  DocumentUploader.parseProgressFromStatus "processing: embedding chunks (42%)"
    = Some (42 # 100) /\
  DocumentUploader.parseProgressFromStatus "completed" = None /\
  @None Q <> Some (0 # 100).
Proof.
  unfold DocumentUploader.parseProgressFromStatus.
  split; [|split; [|split; [|split; [|split; [|split]]]]].
  - intros status. split.
    + intros H [ds Hp]. apply regexMatch_complete in Hp as [d Hd].
      rewrite Hd in H. discriminate.
    + intros H. destruct (DocumentUploader.regexMatch status) as [d|] eqn:E;
        [|reflexivity].
      exfalso. apply H. exists d. now apply regexMatch_sound.
  - intros status q H.
    destruct (DocumentUploader.regexMatch status) as [d|] eqn:E;
      [|discriminate].
    injection H as <-. apply regexMatch_sound in E.
    assert (Hd : Spec.Digits d) by (destruct E as [? [? [? [_ [_ Hd]]]]]; exact Hd).
    exists d. split; [exact E|]. split.
    + intros Hn. now rewrite (parseInt_exact d Hd Hn).
    + intros _. exists (JS.numberValue (Spec.decimal d)).
      split; [apply numberValue_spec|].
      now rewrite (parseInt_decimal d Hd).
  - intros free ds Hf Hd Hn. rewrite (regexMatch_whole free ds Hf Hd).
    now rewrite (parseInt_exact ds Hd Hn).
  - intros free ds Hf Hd _. exists (JS.numberValue (Spec.decimal ds)).
    split; [apply numberValue_spec|].
    rewrite (regexMatch_whole free ds Hf Hd).
    now rewrite (parseInt_decimal ds Hd).
  - reflexivity.
  - reflexivity.
  - discriminate.
Qed.

(** The contract at work on a status with two percentages: the pattern that
    ends the text gives the answer. *)
Lemma parseProgressFromStatus_witness :
  DocumentUploader.parseProgressFromStatus
    ("processing: " ++ "page 3 (of 9)" ++ " (" ++ "35" ++ "%)")
  = Some (35 # 100).
Proof.
  refine (proj1 (proj2 (proj2 parseProgressFromStatus_contract))
            "page 3 (of 9)" "35" _ _ _).
  - simpl. repeat split; discriminate.
  - split; [discriminate|]. simpl. unfold Spec.IsDigit. simpl. tauto.
  - apply N.leb_le. reflexivity.
Defined.

(** C5, a counterexample to the wording of the specification.  In the
    status ["processing: x (9007199254740993%)"] the pattern occurs with the
    integer 2^53 + 1, which no JavaScript number holds: [parseInt] answers
    2^53, and the extractor the hundredth of that, 90071992547409.92, which
    is not the hundredth of the integer written.  Nor do the two read as
    the same double: the middle between the neighbouring doubles
    5764607523034235/64 and 5764607523034236/64 lies between them. *)
Lemma progress_rounding_counterexample :
  Spec.ProgressPattern
    "processing: x (9007199254740993%)" "9007199254740993" /\
  Spec.decimal "9007199254740993" = 9007199254740993%N /\
  DocumentUploader.parseProgressFromStatus "processing: x (9007199254740993%)"
  = Some (9007199254740992 # 100) /\
  ~ 9007199254740992 # 100 == 9007199254740993 # 100 /\
  9007199254740992 # 100 < 2 * 5764607523034235 + 1 # 128 /\
  2 * 5764607523034235 + 1 # 128 < 9007199254740993 # 100.
Proof.
  split; [|split; [|split; [|split; [|split]]]].
  - exists EmptyString, "x", EmptyString. split; [reflexivity|].
    split; [simpl; repeat split; discriminate|].
    split; [discriminate|]. simpl. unfold Spec.IsDigit. simpl. tauto.
  - reflexivity.
  - reflexivity.
  - unfold Qeq. cbn. lia.
  - unfold Qlt. cbn. lia.
  - unfold Qlt. cbn. lia.
Qed.

(** ** The error classifiers *)

Section ClassifierFacts.

Lemma status_is_spec (e : Caught.t) (k : N) :
  Caught.status_is e k = true <-> Caught.response_status e = Some k.
Proof.
  unfold Caught.status_is. destruct (Caught.response_status e) as [n|].
  - rewrite N.eqb_eq. split; [now intros -> | now intros [= ->]].
  - split; discriminate.
Qed.

Lemma status_is_not (e : Caught.t) (k : N) :
  Caught.response_status e <> Some k -> Caught.status_is e k = false.
Proof.
  intros H. destruct (Caught.status_is e k) eqn:E; [|reflexivity].
  now apply status_is_spec in E.
Qed.

(** [a || b] is [a] when [a] is a non-empty string, and [b] otherwise. *)
Lemma or_else_spec (a : option string) (b : string) :
  (forall s, a = Some s -> s <> EmptyString -> Caught.or_else a b = s) /\
  (a = None \/ a = Some EmptyString -> Caught.or_else a b = b).
Proof.
  split.
  - intros s -> Hs. unfold Caught.or_else, JS.truthy.
    destruct (String.eqb_spec s EmptyString); [contradiction | reflexivity].
  - intros [-> | ->]; reflexivity.
Qed.

End ClassifierFacts.

(** C7, as the code has it.  The upload classifier applies its rules in
    priority order: a response status of 413 yields [FILE_TOO_LARGE]
    whatever the message; otherwise, on the message text (the response
    detail, else the error's message, else ["Unknown error"]), an occurrence
    of ["corrupted"] yields [CORRUPTED_PDF], else one of ["no text content"]
    yields [EMPTY_PDF], else one of ["network"] yields [CONNECTION_ERROR];
    when no rule matches, the result is the message text itself.  The
    generic [SERVER_ERROR] is the fallback of the query classifier, which
    returns it when the status is neither 404 nor 400 and the message does
    not hold ["network"]. *)
Theorem getErrorMessage_rules (e : Caught.t) :
  let m := DocumentUploader.errorMessageOf e in
  (Caught.response_status e = Some 413%N ->
   DocumentUploader.getErrorMessage e
   = DocumentUploader.ERROR_MESSAGES.FILE_TOO_LARGE) /\
  (Caught.response_status e <> Some 413%N ->
   (Spec.Contains m "corrupted" ->
    DocumentUploader.getErrorMessage e
    = DocumentUploader.ERROR_MESSAGES.CORRUPTED_PDF) /\
   (~ Spec.Contains m "corrupted" -> Spec.Contains m "no text content" ->
    DocumentUploader.getErrorMessage e
    = DocumentUploader.ERROR_MESSAGES.EMPTY_PDF) /\
   (~ Spec.Contains m "corrupted" -> ~ Spec.Contains m "no text content" ->
    Spec.Contains m "network" ->
    DocumentUploader.getErrorMessage e
    = DocumentUploader.ERROR_MESSAGES.CONNECTION_ERROR) /\
   (~ Spec.Contains m "corrupted" -> ~ Spec.Contains m "no text content" ->
    ~ Spec.Contains m "network" ->
    DocumentUploader.getErrorMessage e = m)) /\
  ((forall s, Caught.response_detail e = Some s -> s <> EmptyString -> m = s) /\
   (Caught.response_detail e = None \/ Caught.response_detail e = Some EmptyString ->
    (forall s, Caught.message e = Some s -> s <> EmptyString -> m = s) /\
    (Caught.message e = None \/ Caught.message e = Some EmptyString ->
     m = "Unknown error"))) /\
  (Caught.response_status e <> Some 404%N ->
   Caught.response_status e <> Some 400%N ->
   (forall s, Caught.message e = Some s -> ~ Spec.Contains s "network") ->
   QueryInterface.getErrorMessage e
   = QueryInterface.ERROR_MESSAGES.SERVER_ERROR).
Proof.
  intros m. unfold DocumentUploader.getErrorMessage. fold m.
  split; [|split; [|split]].
  - intros H. apply status_is_spec in H. now rewrite H.
  - intros H. rewrite (status_is_not _ _ H).
    repeat split.
    + intros Hc. apply includes_spec in Hc. now rewrite Hc.
    + intros Hc He. apply includes_false in Hc. apply includes_spec in He.
      now rewrite Hc, He.
    + intros Hc He Hn. apply includes_false in Hc, He.
      apply includes_spec in Hn. now rewrite Hc, He, Hn.
    + intros Hc He Hn. apply includes_false in Hc, He, Hn.
      now rewrite Hc, He, Hn.
  - unfold m, DocumentUploader.errorMessageOf. split.
    + intros s Hs Hne. now apply or_else_spec.
    + intros Hd. rewrite (proj2 (or_else_spec _ _) Hd). split.
      * intros s Hs Hne. now apply or_else_spec.
      * intros Hm. now apply or_else_spec.
  - intros H404 H400 Hn. unfold QueryInterface.getErrorMessage.
    rewrite (status_is_not _ _ H404), (status_is_not _ _ H400).
    unfold QueryInterface.messageIncludes.
    destruct (Caught.message e) as [s|]; [|reflexivity].
    specialize (Hn s eq_refl). apply includes_false in Hn. now rewrite Hn.
Qed.

(** C7, a counterexample to the wording of the specification.
    On two failures that no rule matches, the
    upload classifier returns two different texts, the failures' own, and
    neither is a generic server error message. *)
Lemma getErrorMessage_fallback_counterexample :
  (Caught.response_status quotaError <> Some 413%N /\
   ~ Spec.Contains (DocumentUploader.errorMessageOf quotaError) "corrupted" /\
   ~ Spec.Contains (DocumentUploader.errorMessageOf quotaError)
       "no text content" /\
   ~ Spec.Contains (DocumentUploader.errorMessageOf quotaError) "network") /\
  (Caught.response_status lockedError <> Some 413%N /\
   ~ Spec.Contains (DocumentUploader.errorMessageOf lockedError) "corrupted" /\
   ~ Spec.Contains (DocumentUploader.errorMessageOf lockedError)
       "no text content" /\
   ~ Spec.Contains (DocumentUploader.errorMessageOf lockedError) "network") /\
  DocumentUploader.getErrorMessage quotaError = "Disk quota exceeded" /\
  DocumentUploader.getErrorMessage lockedError = "Index is locked" /\
  DocumentUploader.getErrorMessage quotaError
    <> DocumentUploader.getErrorMessage lockedError /\
  DocumentUploader.getErrorMessage quotaError
    <> QueryInterface.ERROR_MESSAGES.SERVER_ERROR.
Proof.
  repeat split; try discriminate; try reflexivity;
    apply includes_false; reflexivity.
Qed.

(** The rules at work on a failure with status 413 and on [quotaError]. *)
Lemma getErrorMessage_rules_witness :
  DocumentUploader.getErrorMessage
    {| Caught.response :=
         Some {| Caught.status := Some 413%N;
                 Caught.detail := Some "the file is corrupted" |};
       Caught.message := None |}
  = DocumentUploader.ERROR_MESSAGES.FILE_TOO_LARGE /\
  DocumentUploader.getErrorMessage quotaError = "Disk quota exceeded".
Proof.
  split.
  - apply (proj1 (getErrorMessage_rules _)). reflexivity.
  - refine (proj2 (proj2 (proj2
              (proj1 (proj2 (getErrorMessage_rules quotaError)) _))) _ _ _);
      try discriminate; apply includes_false; reflexivity.
Defined.

(** ** The status poller *)

Section PollerFacts.

Import DocumentUploader.

Lemma run_app (k : Component) (a b : list Event) :
  run k (a ++ b) = run (run k a) b.
Proof. apply fold_left_app. Qed.

Lemma statusCalls_emit (e : Effect) (k : Component) :
  statusCalls (emit e k)
  = (statusCalls k + if isStatusCall e then 1 else 0)%nat.
Proof.
  unfold statusCalls, emit. cbn [effects].
  rewrite filter_app, length_app. cbn [filter].
  destruct (isStatusCall e); reflexivity.
Qed.

Lemma not_completed (status : string) :
  status <> "completed" -> String.eqb status "completed" = false.
Proof. apply String.eqb_neq. Qed.

Lemma error_not_completed (status : string) :
  JS.startsWith status "error" = true ->
  String.eqb status "completed" = false.
Proof.
  intros H. apply String.eqb_neq. intros ->. discriminate.
Qed.

Lemma guard_open (c : Closure) :
  (seenRetryCount c < MAX_RETRIES)%nat ->
  (MAX_RETRIES <=? seenRetryCount c)%nat = false.
Proof. intros H. apply Nat.leb_gt. exact H. Qed.

Lemma guard_tripped (c : Closure) :
  (MAX_RETRIES <= seenRetryCount c)%nat ->
  (MAX_RETRIES <=? seenRetryCount c)%nat = true.
Proof. intros H. apply Nat.leb_le. exact H. Qed.

(** The [else] branch of [checkStatus] when the guard lets it pass. *)
Lemma checkStatus_resolved_processing (c : Closure) (d : Types.Document)
    (k : Component) :
  Spec.StillProcessing d -> (seenRetryCount c < MAX_RETRIES)%nat ->
  let k' := checkStatus_resolved c d k in
  pending k' = Scheduled c /\
  effects k' = (effects k ++ [SetTimeout RETRY_INTERVAL])%list /\
  isUploading (state k') = isUploading (state k) /\
  error (state k') = error (state k) /\
  retryCount (state k') = S (retryCount (state k)) /\
  uploadProgress (state k') = Types.status d /\
  progressPercent (state k')
  = match parseProgressFromStatus (Types.status d) with
    | Some progress => progress
    | None => progressPercent (state k)
    end.
Proof.
  intros [Hc He] Hg. unfold checkStatus_resolved.
  rewrite (not_completed _ Hc), (proj2 (startsWith_false _ _) He),
    (guard_open _ Hg).
  destruct (parseProgressFromStatus (Types.status d)); repeat split.
Qed.

(** One round of polling: a status report that is still processing, then
    the timer. *)
Lemma poll_round (c : Closure) (d : Types.Document) (k : Component) :
  Spec.StillProcessing d -> (seenRetryCount c < MAX_RETRIES)%nat ->
  pending k = Checking c ->
  let k' := run k [StatusResolved d; TimerFired] in
  pending k' = Checking c /\
  statusCalls k' = S (statusCalls k) /\
  isUploading (state k') = isUploading (state k) /\
  error (state k') = error (state k) /\
  retryCount (state k') = S (retryCount (state k)).
Proof.
  intros Hd Hg Hp. cbn [run fold_left].
  assert (E1 : step k (StatusResolved d) = checkStatus_resolved c d k)
    by (unfold step; now rewrite Hp).
  rewrite E1.
  destruct (checkStatus_resolved_processing c d k Hd Hg)
    as [Hp' [Hef [Hu [Her [Hr _]]]]].
  set (k1 := checkStatus_resolved c d k) in *.
  assert (E2 : step k1 TimerFired = checkStatus c k1)
    by (unfold step; now rewrite Hp').
  rewrite E2. unfold checkStatus. repeat split; try assumption.
  unfold statusCalls, await, emit. cbn [effects]. rewrite Hef.
  rewrite !filter_app, !length_app. cbn. lia.
Qed.

Lemma polls_keep_checking (c : Closure) (ds : list Types.Document) :
  Forall Spec.StillProcessing ds -> (seenRetryCount c < MAX_RETRIES)%nat ->
  forall k, pending k = Checking c ->
  let k' := run k (Session.polls ds) in
  pending k' = Checking c /\
  statusCalls k' = (statusCalls k + List.length ds)%nat /\
  isUploading (state k') = isUploading (state k) /\
  error (state k') = error (state k) /\
  retryCount (state k') = (retryCount (state k) + List.length ds)%nat.
Proof.
  intros Hds Hg. induction Hds as [|d ds Hd Hds IH]; intros k Hp.
  - cbn. repeat split; try assumption; lia.
  - change (Session.polls (d :: ds))
      with ([StatusResolved d; TimerFired] ++ Session.polls ds)%list.
    cbv zeta. rewrite run_app.
    destruct (poll_round c d k Hd Hg Hp) as [Hp1 [Hc1 [Hu1 [He1 Hr1]]]].
    destruct (IH _ Hp1) as [Hp2 [Hc2 [Hu2 [He2 Hr2]]]].
    repeat split.
    + exact Hp2.
    + rewrite Hc2, Hc1. cbn [List.length]. lia.
    + now rewrite Hu2.
    + now rewrite He2.
    + rewrite Hr2, Hr1. cbn [List.length]. lia.
Qed.

End PollerFacts.

(** C1, the code at work: in a first session on a fresh component, whatever
    the number of status reports that are neither [completed] nor an error,
    the poller answers each of them with one more status check.  After [n]
    such reports [n + 1] checks have been made, the session shows no error
    and is still uploading, and the React counter [retryCount] stands at
    [n], while the guard [retryCount >= MAX_RETRIES] of the closure keeps
    reading 0. *)
Theorem retry_guard_never_trips (ds : list Types.Document) :
  Forall Spec.StillProcessing ds ->
  let k :=
    DocumentUploader.run DocumentUploader.mounted
      (Session.start ++ Session.polls ds)%list in
  DocumentUploader.pending k = DocumentUploader.Checking Session.theClosure /\
  DocumentUploader.statusCalls k = S (List.length ds) /\
  DocumentUploader.isUploading (DocumentUploader.state k) = true /\
  DocumentUploader.error (DocumentUploader.state k) = None /\
  DocumentUploader.retryCount (DocumentUploader.state k) = List.length ds.
Proof.
  intros Hds. cbv zeta. rewrite run_app.
  assert (Hp : DocumentUploader.pending
                 (DocumentUploader.run DocumentUploader.mounted Session.start)
               = DocumentUploader.Checking Session.theClosure) by reflexivity.
  assert (Hg : (DocumentUploader.seenRetryCount Session.theClosure
                < DocumentUploader.MAX_RETRIES)%nat)
    by (unfold DocumentUploader.MAX_RETRIES; cbn; lia).
  destruct (polls_keep_checking _ ds Hds Hg _ Hp) as [H1 [H2 [H3 [H4 H5]]]].
  repeat split.
  - exact H1.
  - rewrite H2. reflexivity.
  - rewrite H3. reflexivity.
  - rewrite H4. reflexivity.
  - rewrite H5. reflexivity.
Qed.

(** C1 at a failing input: thirty-one reports of
    ["processing: embedding chunks (42%)"] are answered by thirty-two status
    checks, and the session has not timed out. *)
Lemma retry_guard_never_trips_witness :
  Forall Spec.StillProcessing stillEmbedding /\
  DocumentUploader.statusCalls
    (DocumentUploader.run DocumentUploader.mounted
       (Session.start ++ Session.polls stillEmbedding)%list) = 32%nat /\
  DocumentUploader.error
    (DocumentUploader.state
       (DocumentUploader.run DocumentUploader.mounted
          (Session.start ++ Session.polls stillEmbedding)%list)) = None /\
  DocumentUploader.retryCount
    (DocumentUploader.state
       (DocumentUploader.run DocumentUploader.mounted
          (Session.start ++ Session.polls stillEmbedding)%list)) = 31%nat.
Proof.
  assert (H : Forall Spec.StillProcessing stillEmbedding).
  { apply Forall_forall. intros x Hx. apply repeat_spec in Hx. subst x.
    split; [discriminate | apply startsWith_false; reflexivity]. }
  split; [exact H|].
  destruct (retry_guard_never_trips stillEmbedding H) as [_ [H2 [_ [H4 H5]]]].
  exact (conj H2 (conj H4 H5)).
Defined.

(** C3, as the code has it.  When a status check fails at the transport
    level, the [catch] of [checkStatus] does not end the session as long as
    its retry guard has not tripped: it adds exactly one to the retry counter
    that the other branch uses too and sets the timer of the next check at
    the fixed interval, and nothing else changes.  When the guard has
    tripped, the session ends with the message [PROCESSING_FAILED]. *)
Theorem transport_failure_is_retried (c : DocumentUploader.Closure)
    (k : DocumentUploader.Component) :
  let k' := DocumentUploader.checkStatus_rejected c k in
  ((DocumentUploader.seenRetryCount c < DocumentUploader.MAX_RETRIES)%nat ->
   DocumentUploader.pending k' = DocumentUploader.Scheduled c /\
   DocumentUploader.retryCount (DocumentUploader.state k')
   = S (DocumentUploader.retryCount (DocumentUploader.state k)) /\
   DocumentUploader.effects k'
   = (DocumentUploader.effects k
      ++ [DocumentUploader.ConsoleError "Status check error:";
          DocumentUploader.SetTimeout 2000])%list /\
   DocumentUploader.isUploading (DocumentUploader.state k')
   = DocumentUploader.isUploading (DocumentUploader.state k) /\
   DocumentUploader.error (DocumentUploader.state k')
   = DocumentUploader.error (DocumentUploader.state k) /\
   DocumentUploader.progressPercent (DocumentUploader.state k')
   = DocumentUploader.progressPercent (DocumentUploader.state k)) /\
  ((DocumentUploader.MAX_RETRIES <= DocumentUploader.seenRetryCount c)%nat ->
   DocumentUploader.pending k' = DocumentUploader.NoWork /\
   DocumentUploader.isUploading (DocumentUploader.state k') = false /\
   DocumentUploader.error (DocumentUploader.state k')
   = Some DocumentUploader.ERROR_MESSAGES.PROCESSING_FAILED /\
   DocumentUploader.retryCount (DocumentUploader.state k')
   = DocumentUploader.retryCount (DocumentUploader.state k)).
Proof.
  intros k'. subst k'. unfold DocumentUploader.checkStatus_rejected. split.
  - intros Hg. rewrite (guard_open _ Hg). cbn.
    rewrite <- app_assoc. repeat split.
  - intros Hg. rewrite (guard_tripped _ Hg). repeat split.
Qed.

(** C3, a counterexample to the wording of the specification.
    In a first session thirty transport failures
    in a row leave the session running, with a thirty-first check under
    way; and where the guard does trip on a transport failure, here on the
    first check of a second session, the message is [PROCESSING_FAILED],
    which is not the time-out message. *)
Lemma transport_failure_counterexample :
  (DocumentUploader.statusCalls
     (DocumentUploader.run DocumentUploader.mounted
        (Session.start ++ Session.failures thirtyFailures)%list) = 31%nat /\
   DocumentUploader.pending
     (DocumentUploader.run DocumentUploader.mounted
        (Session.start ++ Session.failures thirtyFailures)%list)
   = DocumentUploader.Checking Session.theClosure /\
   DocumentUploader.error
     (DocumentUploader.state
        (DocumentUploader.run DocumentUploader.mounted
           (Session.start ++ Session.failures thirtyFailures)%list))
   = None) /\
  (DocumentUploader.pending
     (DocumentUploader.run DocumentUploader.mounted secondSession)
   = DocumentUploader.NoWork /\
   DocumentUploader.statusCalls
     (DocumentUploader.run DocumentUploader.mounted secondSession)
   = 32%nat /\
   DocumentUploader.error
     (DocumentUploader.state
        (DocumentUploader.run DocumentUploader.mounted secondSession))
   = Some DocumentUploader.ERROR_MESSAGES.PROCESSING_FAILED /\
   DocumentUploader.ERROR_MESSAGES.PROCESSING_FAILED
   <> DocumentUploader.ERROR_MESSAGES.PROCESSING_TIMEOUT).
Proof.
  repeat split; try discriminate; vm_compute; reflexivity.
Qed.

(** The theorem at work on the component that waits for its first status
    check: with the closure of a first session the failure is retried, with
    the closure made at a count of thirty it ends the session. *)
Lemma transport_failure_is_retried_witness :
  DocumentUploader.pending
    (DocumentUploader.checkStatus_rejected Session.theClosure
       (DocumentUploader.run DocumentUploader.mounted Session.start))
  = DocumentUploader.Scheduled Session.theClosure /\
  DocumentUploader.error
    (DocumentUploader.state
       (DocumentUploader.checkStatus_rejected lateClosure
          (DocumentUploader.run DocumentUploader.mounted Session.start)))
  = Some DocumentUploader.ERROR_MESSAGES.PROCESSING_FAILED.
Proof.
  split.
  - refine (proj1 (proj1 (transport_failure_is_retried Session.theClosure _) _)).
    unfold DocumentUploader.MAX_RETRIES. cbn. lia.
  - refine (proj1 (proj2 (proj2
              (proj2 (transport_failure_is_retried lateClosure _) _)))).
    unfold DocumentUploader.MAX_RETRIES. cbn. lia.
Defined.

(** ** Error reports *)

Section ReplaceFacts.

Lemma replace_absent (s p r : string) :
  ~ Spec.Contains s p -> JS.replace s p r = s.
Proof.
  induction s as [|c s IH]; intros H; cbn [JS.replace].
  - destruct (JS.startsWith EmptyString p) eqn:E; [|reflexivity].
    exfalso. apply H. apply startsWith_spec in E as [rest E].
    now exists EmptyString, rest.
  - destruct (JS.startsWith (String c s) p) eqn:E.
    + exfalso. apply H. apply startsWith_spec in E as [rest E].
      now exists EmptyString, rest.
    + f_equal. apply IH. intros [pre [post ->]]. apply H.
      now exists (String c pre), post.
Qed.

Lemma replace_first (s p r pre post : string) :
  Spec.FirstAt s p pre post -> JS.replace s p r = pre ++ r ++ post.
Proof.
  revert s. induction pre as [|c pre IH]; intros s [-> Hfirst].
  - cbn [append]. destruct (p ++ post) eqn:E; cbn [JS.replace]; rewrite <- E;
      now rewrite startsWith_append, slice_append.
  - change (String c pre ++ p ++ post) with (String c (pre ++ p ++ post)).
    cbn [JS.replace].
    destruct (JS.startsWith (String c (pre ++ p ++ post)) p) eqn:E.
    + exfalso. apply startsWith_spec in E as [rest E].
      apply (Hfirst EmptyString (String c pre) rest); [reflexivity | discriminate|].
      exact E.
    + cbn [append]. f_equal. apply IH. split; [reflexivity|].
      intros a b post' -> Hb Heq.
      apply (Hfirst (String c a) b post'); [reflexivity | exact Hb |].
      cbn [append]. now rewrite <- Heq.
Qed.

End ReplaceFacts.

(** C6, as the code has it.  For every status report that begins with
    [error], [checkStatus] ends the session: no further check is scheduled,
    no call is made, the upload flag is cleared, and the message is the
    status text with its first occurrence of ["error: "] cut out.  When the
    status begins with ["error: "] that is the status without this prefix;
    when ["error: "] does not occur the message is the whole status. *)
Theorem error_status_ends_session (c : DocumentUploader.Closure)
    (d : Types.Document) (k : DocumentUploader.Component) :
  (exists rest, Types.status d = "error" ++ rest) ->
  let k' := DocumentUploader.checkStatus_resolved c d k in
  DocumentUploader.pending k' = DocumentUploader.NoWork /\
  DocumentUploader.effects k' = DocumentUploader.effects k /\
  DocumentUploader.isUploading (DocumentUploader.state k') = false /\
  (forall pre post,
      Spec.FirstAt (Types.status d) "error: " pre post ->
      DocumentUploader.error (DocumentUploader.state k') = Some (pre ++ post)) /\
  (forall m,
      Types.status d = "error: " ++ m ->
      DocumentUploader.error (DocumentUploader.state k') = Some m) /\
  (~ Spec.Contains (Types.status d) "error: " ->
   DocumentUploader.error (DocumentUploader.state k')
   = Some (Types.status d)).
Proof.
  intros He k'. subst k'. apply startsWith_spec in He.
  unfold DocumentUploader.checkStatus_resolved.
  rewrite (error_not_completed _ He), He.
  split; [reflexivity|]. split; [reflexivity|]. split; [reflexivity|].
  cbn [DocumentUploader.update DocumentUploader.state DocumentUploader.await
       DocumentUploader.setError DocumentUploader.setIsUploading
       DocumentUploader.error].
  split; [|split].
  - intros pre post Hf. now rewrite (replace_first _ _ EmptyString _ _ Hf).
  - intros m ->. reflexivity.
  - intros Ha. now rewrite replace_absent.
Qed.

(** C6 at the status ["error: model unavailable"]: the message is
    ["model unavailable"]. *)
Lemma error_status_ends_session_witness :
  DocumentUploader.error
    (DocumentUploader.state
       (DocumentUploader.checkStatus_resolved Session.theClosure
          (Session.statusReport "error: model unavailable")
          (DocumentUploader.run DocumentUploader.mounted Session.start)))
  = Some "model unavailable".
Proof.
  refine (proj1 (proj2 (proj2 (proj2 (proj2
            (error_status_ends_session Session.theClosure
               (Session.statusReport "error: model unavailable")
               (DocumentUploader.run DocumentUploader.mounted Session.start)
               _))))) "model unavailable" eq_refl).
  exists ": model unavailable". reflexivity.
Defined.

(** C6, a counterexample to the wording of the specification.
    A status that begins with [error], in which
    ["error: "] comes later.  The message is not the status without a
    leading ["error: "] (here, the status as it is): the occurrence inside
    the text is cut out. *)
Lemma error_prefix_counterexample :
  (exists rest, Types.status nestedError = "error" ++ rest) /\
  DocumentUploader.error
    (DocumentUploader.state
       (DocumentUploader.run DocumentUploader.mounted
          (Session.start ++ [DocumentUploader.StatusResolved nestedError])%list))
  = Some "errors in xref table: no pages" /\
  ~ Spec.WithoutLeading "error: " (Types.status nestedError)
      "errors in xref table: no pages".
Proof.
  split; [|split].
  - exists "s in xref table: error: no pages". reflexivity.
  - reflexivity.
  - intros [[rest [H _]] | [_ H]]; discriminate.
Qed.

(** ** The progress fraction *)

Section ProgressBounds.

Import DocumentUploader.

Lemma percent_nonneg (n : N) : 0 <= Z.of_N n # 100.
Proof. unfold Qle. cbn. lia. Qed.

Lemma percent_le_one (n : N) : Z.of_N n # 100 <= 1 <-> (n <= 100)%N.
Proof. unfold Qle. cbn. lia. Qed.

Lemma parsed_in_unit (status : string) (q : Q) :
  Session.PercentInRange status ->
  parseProgressFromStatus status = Some q -> Spec.InUnit q.
Proof.
  unfold parseProgressFromStatus. intros Hr Hq.
  destruct (regexMatch status) as [ds|] eqn:E; [|discriminate].
  injection Hq as <-. split.
  - apply percent_nonneg.
  - apply percent_le_one. now apply Hr.
Qed.

Lemma zero_in_unit : Spec.InUnit 0.
Proof. split; unfold Qle; cbn; lia. Qed.

Lemma tenth_in_unit : Spec.InUnit (1 # 10).
Proof. split; unfold Qle; cbn; lia. Qed.

Lemma one_in_unit : Spec.InUnit 1.
Proof. split; unfold Qle; cbn; lia. Qed.

(** What [checkStatus] leaves as progress after a status report. *)
Lemma checkStatus_resolved_progress (c : Closure) (d : Types.Document)
    (k : Component) :
  let k' := checkStatus_resolved c d k in
  progressPercent (state k') = progressPercent (state k) \/
  (Types.status d = "completed" /\ progressPercent (state k') = 1) \/
  (pending k' = Scheduled c /\
   parseProgressFromStatus (Types.status d)
   = Some (progressPercent (state k'))).
Proof.
  cbv zeta. unfold checkStatus_resolved.
  destruct (String.eqb_spec (Types.status d) "completed") as [Hc | Hc].
  - right; left. now split.
  - destruct (JS.startsWith (Types.status d) "error"); [now left|].
    destruct (MAX_RETRIES <=? seenRetryCount c)%nat; [now left|].
    destruct (parseProgressFromStatus (Types.status d)) as [q|];
      [right; right; now split | now left].
Qed.

Lemma step_in_unit (k : Component) (ev : Event) :
  match Session.reportOf ev with
  | Some d => Session.PercentInRange (Types.status d)
  | None => True
  end ->
  Spec.InUnit (progressPercent (state k)) ->
  Spec.InUnit (progressPercent (state (step k ev))).
Proof.
  intros Hev Hk. unfold step.
  destruct ev as [file | id | e | d | e | ]; destruct (pending k) as [| seen | c | c];
    try exact Hk.
  - unfold handleFileUpload. destruct (isUploading (state k)); [exact Hk|].
    destruct file as [f|]; [|exact Hk].
    destruct (validateFile f); [apply zero_in_unit | apply tenth_in_unit].
  - cbn in Hev.
    destruct (checkStatus_resolved_progress c d k) as [H | [[_ H] | [_ H]]];
      cbv zeta in H.
    + now rewrite H.
    + rewrite H. apply one_in_unit.
    + now apply (parsed_in_unit (Types.status d)).
  - unfold checkStatus_rejected.
    destruct (MAX_RETRIES <=? seenRetryCount c)%nat; exact Hk.
Qed.

Lemma run_in_unit (evs : list Event) :
  Session.InRange evs ->
  forall k, Spec.InUnit (progressPercent (state k)) ->
            Spec.InUnit (progressPercent (state (run k evs))).
Proof.
  unfold Session.InRange.
  induction 1 as [|ev evs Hev _ IH]; intros k Hk; [exact Hk|].
  cbn [run fold_left]. apply IH. now apply step_in_unit.
Qed.

End ProgressBounds.

(** C8, as the code has it.  After a status report, the progress that the
    controller holds is the previous value, or 1 when the report is
    [completed], or the parsed percentage [n/100] of the report, which is at
    least 0 and is at most 1 exactly when [n] is at most 100: the controller
    stores it as parsed.  Hence on every run of the component whose status
    reports carry percentages of at most 100, the progress stays between 0
    and 1. *)
Theorem progress_fraction_bounds :
  (forall c d k,
      let k' := DocumentUploader.checkStatus_resolved c d k in
      let p := DocumentUploader.progressPercent (DocumentUploader.state k') in
      p = DocumentUploader.progressPercent (DocumentUploader.state k) \/
      (Types.status d = "completed" /\ p = 1) \/
      (exists ds,
          Spec.ProgressPattern (Types.status d) ds /\
          DocumentUploader.pending k' = DocumentUploader.Scheduled c /\
          p = Z.of_N (JS.parseInt ds) # 100 /\
          0 <= p /\
          (p <= 1 <-> (JS.parseInt ds <= 100)%N))) /\
  (forall evs,
      Session.InRange evs ->
      Spec.InUnit
        (DocumentUploader.progressPercent
           (DocumentUploader.state
              (DocumentUploader.run DocumentUploader.mounted evs)))).
Proof.
  split.
  - intros c d k k' p.
    destruct (checkStatus_resolved_progress c d k) as [H | [H | [Hp H]]].
    + now left.
    + right; left. exact H.
    + right; right. fold k' in H, Hp. fold p in H.
      apply parsed_pattern in H as [ds [Hpat Hq]].
      exists ds. rewrite Hq.
      exact (conj Hpat (conj Hp (conj eq_refl
               (conj (percent_nonneg _) (percent_le_one _))))).
  - intros evs H. apply (run_in_unit evs H). apply zero_in_unit.
Qed.

(** C8, a counterexample to the wording of the specification.
    After the report
    ["processing: embedding chunks (250%)"] the poller is scheduled for its
    next check and the progress it holds is 250/100, above 1. *)
Lemma progress_above_one_counterexample :
  DocumentUploader.pending
    (DocumentUploader.run DocumentUploader.mounted
       (Session.start ++ [DocumentUploader.StatusResolved overshoot])%list)
  = DocumentUploader.Scheduled Session.theClosure /\
  DocumentUploader.progressPercent
    (DocumentUploader.state
       (DocumentUploader.run DocumentUploader.mounted
          (Session.start ++ [DocumentUploader.StatusResolved overshoot])%list))
  = 250 # 100 /\
  ~ 250 # 100 <= 1.
Proof.
  split; [reflexivity|]. split; [reflexivity|].
  unfold Qle. cbn. lia.
Qed.

(** C8 on the scenario of five reports from 10% to 50% and then
    [completed]: the progress ends within bounds (at 1). *)
Lemma progress_fraction_bounds_witness :
  Session.InRange fiveSteps /\
  Spec.InUnit
    (DocumentUploader.progressPercent
       (DocumentUploader.state
          (DocumentUploader.run DocumentUploader.mounted fiveSteps))).
Proof.
  assert (H : Session.InRange fiveSteps).
  { unfold Session.InRange, fiveSteps.
    repeat (apply Forall_cons || apply Forall_nil); cbn [Session.reportOf];
      try exact I;
      intros ds Hds; vm_compute in Hds;
      first [discriminate Hds
            | injection Hds as <-; vm_compute; discriminate]. }
  split; [exact H|].
  exact (proj2 progress_fraction_bounds fiveSteps H).
Defined.

(** ** Cancellation *)

(** C2, as the code has it.  The poller has no cancel operation.  While a
    check is scheduled, no event but the timer changes the component, and
    the timer makes the next status check.  While a check is in flight, no
    event but its settlement changes the component, and the settlement is
    always handled by [checkStatus]: its result is used.  Polling stops only
    in [checkStatus] itself: on a [completed] status, on a status that begins
    with [error], or when the retry guard has tripped. *)
Theorem poller_has_no_cancel :
  (forall k c,
      DocumentUploader.pending k = DocumentUploader.Scheduled c ->
      (forall ev, ev <> DocumentUploader.TimerFired ->
                  DocumentUploader.step k ev = k) /\
      DocumentUploader.pending
        (DocumentUploader.step k DocumentUploader.TimerFired)
      = DocumentUploader.Checking c /\
      DocumentUploader.statusCalls
        (DocumentUploader.step k DocumentUploader.TimerFired)
      = S (DocumentUploader.statusCalls k)) /\
  (forall k c,
      DocumentUploader.pending k = DocumentUploader.Checking c ->
      (forall ev,
          (forall d, ev <> DocumentUploader.StatusResolved d) ->
          (forall e, ev <> DocumentUploader.StatusRejected e) ->
          DocumentUploader.step k ev = k) /\
      (forall d,
          DocumentUploader.step k (DocumentUploader.StatusResolved d)
          = DocumentUploader.checkStatus_resolved c d k) /\
      (forall e,
          DocumentUploader.step k (DocumentUploader.StatusRejected e)
          = DocumentUploader.checkStatus_rejected c k)) /\
  (forall c d k,
      (Types.status d = "completed" \/
       (exists rest, Types.status d = "error" ++ rest) \/
       (DocumentUploader.MAX_RETRIES <= DocumentUploader.seenRetryCount c)%nat ->
       DocumentUploader.pending (DocumentUploader.checkStatus_resolved c d k)
       = DocumentUploader.NoWork) /\
      (Spec.StillProcessing d ->
       (DocumentUploader.seenRetryCount c < DocumentUploader.MAX_RETRIES)%nat ->
       DocumentUploader.pending (DocumentUploader.checkStatus_resolved c d k)
       = DocumentUploader.Scheduled c)).
Proof.
  split; [|split].
  - intros k c Hp. split; [|split].
    + intros ev Hev. unfold DocumentUploader.step. rewrite Hp.
      destruct ev; try reflexivity. now elim Hev.
    + unfold DocumentUploader.step. now rewrite Hp.
    + unfold DocumentUploader.step. rewrite Hp.
      unfold DocumentUploader.checkStatus.
      change (DocumentUploader.statusCalls
                (DocumentUploader.await (DocumentUploader.Checking c)
                   (DocumentUploader.emit
                      (DocumentUploader.StatusCall
                         (DocumentUploader.document_id c)) k)))
        with (DocumentUploader.statusCalls
                (DocumentUploader.emit
                   (DocumentUploader.StatusCall
                      (DocumentUploader.document_id c)) k)).
      rewrite statusCalls_emit. cbn. lia.
  - intros k c Hp. split; [|split].
    + intros ev Hd He. unfold DocumentUploader.step. rewrite Hp.
      destruct ev; try reflexivity; [now elim (Hd d) | now elim (He e)].
    + intros d. unfold DocumentUploader.step. now rewrite Hp.
    + intros e. unfold DocumentUploader.step. now rewrite Hp.
  - intros c d k. split.
    + unfold DocumentUploader.checkStatus_resolved.
      intros [Hc | [He | Hg]].
      * rewrite Hc. reflexivity.
      * apply startsWith_spec in He.
        now rewrite (error_not_completed _ He), He.
      * rewrite (guard_tripped _ Hg).
        destruct (String.eqb (Types.status d) "completed"); [reflexivity|].
        destruct (JS.startsWith (Types.status d) "error"); reflexivity.
    + intros Hd Hg.
      apply (checkStatus_resolved_processing c d k Hd Hg).
Qed.

(** C2, a counterexample to the wording of the specification.
    With the poller scheduled for its second
    check, whatever event comes first, the timer then makes one more status
    check: no operation prevents it.  With the first check in flight,
    whatever comes before its result, the result is used and the next check
    is scheduled. *)
Lemma cancel_counterexample :
  DocumentUploader.pending scheduledOnce
  = DocumentUploader.Scheduled Session.theClosure /\
  (forall ev,
      DocumentUploader.statusCalls
        (DocumentUploader.run scheduledOnce [ev; DocumentUploader.TimerFired])
      = S (DocumentUploader.statusCalls scheduledOnce)) /\
  DocumentUploader.pending inFlight
  = DocumentUploader.Checking Session.theClosure /\
  (forall ev,
      (forall d, ev <> DocumentUploader.StatusResolved d) ->
      (forall e, ev <> DocumentUploader.StatusRejected e) ->
      DocumentUploader.run inFlight [ev; DocumentUploader.StatusResolved embedding]
      = scheduledOnce).
Proof.
  split; [reflexivity|]. split; [|split; [reflexivity|]].
  - intros ev. destruct ev; reflexivity.
  - intros ev Hd He.
    destruct ev; try reflexivity; [now elim (Hd d) | now elim (He e)].
Qed.

(** The theorem at work on [scheduledOnce]: a new file selection leaves the
    scheduled check in place, and the timer makes the second call. *)
Lemma poller_has_no_cancel_witness :
  DocumentUploader.step scheduledOnce
    (DocumentUploader.FileSelected (Some Session.report))
  = scheduledOnce /\
  DocumentUploader.statusCalls
    (DocumentUploader.step scheduledOnce DocumentUploader.TimerFired)
  = 2%nat.
Proof.
  destruct (proj1 poller_has_no_cancel scheduledOnce Session.theClosure
              eq_refl) as [H1 [_ H3]].
  split.
  - apply H1. discriminate.
  - exact H3.
Defined.

(** ** Deletion *)

(** C9.  [handleDeleteDocument] on a current document: when the delete
    request rejects, the current document (with the status it holds) is left
    as it is and the failure is shown to the user in an alert; when it
    succeeds, the current document is cleared, which brings the uploader
    back.  The current document is cleared only in the second case.  In
    both, the deleting flag is off at the end. *)
Theorem delete_failure_keeps_document (env : option string)
    (fetch : Api.Request -> Api.Fetched) (s : App.State)
    (doc : Types.Document) :
  App.currentDocument s = Some doc ->
  let s' := App.handleDeleteDocument env fetch s in
  let outcome := Api.deleteDocument env fetch (Types.document_id doc) in
  ((exists t, outcome = Api.Throws t) ->
   App.currentDocument s' = Some doc /\
   App.alerts s' = (App.alerts s ++ [App.DELETE_FAILED])%list /\
   App.showMetadata s' = App.showMetadata s /\
   App.isDeleting s' = false) /\
  ((exists v, outcome = Api.Returns v) ->
   App.currentDocument s' = None /\
   App.alerts s' = App.alerts s /\
   App.isDeleting s' = false) /\
  (App.currentDocument s' = None <-> exists v, outcome = Api.Returns v).
Proof.
  intros Hdoc s' outcome. subst s'. unfold App.handleDeleteDocument.
  rewrite Hdoc. fold outcome. destruct outcome as [v | t].
  - split; [|split].
    + intros [t Ht]. discriminate.
    + intros _. repeat split.
    + split; [intros _; now exists v | reflexivity].
  - split; [|split].
    + intros _. cbn. rewrite Hdoc. repeat split.
    + intros [v Hv]. discriminate.
    + cbn. rewrite Hdoc. split; [discriminate | intros [v Hv]; discriminate].
Qed.

(** C9 on [showing]: with the server answering 500 the document stays and
    one alert is raised; with the server answering 204 the document is
    cleared. *)
Lemma delete_failure_keeps_document_witness :
  App.currentDocument (App.handleDeleteDocument None serverDown showing)
  = Some (Session.statusReport "completed") /\
  App.alerts (App.handleDeleteDocument None serverDown showing)
  = [App.DELETE_FAILED] /\
  App.currentDocument (App.handleDeleteDocument None noContent showing)
  = None.
Proof.
  destruct (delete_failure_keeps_document None serverDown showing
              (Session.statusReport "completed") eq_refl) as [H1 _].
  destruct (delete_failure_keeps_document None noContent showing
              (Session.statusReport "completed") eq_refl) as [_ [H2 _]].
  destruct H1 as [Ha [Hb _]];
    [eexists; vm_compute; reflexivity|].
  destruct H2 as [Hc _]; [eexists; vm_compute; reflexivity|].
  exact (conj Ha (conj Hb Hc)).
Defined.

(** ** The transport layer *)

Section TransportFacts.

Lemma length_append (a b : string) :
  String.length (a ++ b) = (String.length a + String.length b)%nat.
Proof. induction a as [|x a IH]; cbn; [reflexivity | now rewrite IH]. Qed.

Lemma prefix_changes (detail : string) : Api.PREFIX ++ detail <> detail.
Proof.
  intros H. apply (f_equal String.length) in H.
  rewrite length_append in H. cbn in H. lia.
Qed.

Lemma field_or_holds (f : option Api.JValue) (rest text : string) :
  Spec.Holds f text -> Api.field_or f rest = text.
Proof. intros [v [-> [Ht <-]]]. unfold Api.field_or. now rewrite Ht. Qed.

Lemma field_or_unset (f : option Api.JValue) (rest : string) :
  Spec.Unset f -> Api.field_or f rest = rest.
Proof.
  intros [-> | [v [-> Ht]]]; unfold Api.field_or; [reflexivity|].
  now rewrite Ht.
Qed.

Lemma rethrow_attempt (f : Api.Fetched) (m : string) :
  Api.rethrow (Api.attempt f) = Api.Throws (Api.ErrorObject m) ->
  exists detail, m = Api.PREFIX ++ detail /\ Spec.Origin f detail.
Proof.
  unfold Spec.Origin. destruct f as [t | r]; cbn [Api.attempt].
  - destruct t as [msg | v]; cbn [Api.rethrow]; intros H; [|discriminate].
    injection H as <-. exists msg. split; [reflexivity|]. right; left.
    reflexivity.
  - destruct (Api.ok r) eqn:Hok; cbn [negb].
    + destruct (N.eqb_spec (Api.status r) 204) as [E | E];
        [discriminate|].
      destruct (Api.json r) as [[msg | v] | b] eqn:Hj; cbn [Api.rethrow];
        intros H; try discriminate.
      injection H as <-. exists msg. split; [reflexivity|]. right; right.
      exists r. now repeat split.
    + cbn [Api.rethrow]. intros H. injection H as <-.
      eexists. split; [reflexivity|]. left. exists r. now repeat split.
Qed.

End TransportFacts.

(** C10, as the code has it.  Every [Error] that the transport layer throws,
    from upload, status check, delete or ask, carries the message
    ["API request failed: "] followed by a detail.  For a response that is
    not [ok] the detail is the [error] field of the body when that field
    holds a truthy value, else the [detail] field when it does, else
    ["HTTP error! status: "] and the status.  When [fetch] itself has
    rejected, or the body of an [ok] response does not decode, the detail
    is the message of that error.  No message reaches the caller without the
    prefix. *)
Theorem transport_failure_message :
  (forall fetch rq m,
      Api.fetchWithErrorHandling fetch rq = Api.Throws (Api.ErrorObject m) ->
      exists detail, m = Api.PREFIX ++ detail /\ Spec.Origin (fetch rq) detail) /\
  (forall errorData status,
      (forall text,
          Spec.Holds (Api.errorOf errorData) text ->
          Api.httpErrorMessage errorData status = text) /\
      (Spec.Unset (Api.errorOf errorData) ->
       forall text,
         Spec.Holds (Api.detailOf errorData) text ->
         Api.httpErrorMessage errorData status = text) /\
      (Spec.Unset (Api.errorOf errorData) ->
       Spec.Unset (Api.detailOf errorData) ->
       Api.httpErrorMessage errorData status
       = "HTTP error! status: " ++ JS.ofNumber status)) /\
  (forall env fetch id m,
      Api.uploadDocument env fetch = Api.Throws (Api.ErrorObject m) \/
      Api.checkDocumentStatus env fetch id = Api.Throws (Api.ErrorObject m) \/
      Api.deleteDocument env fetch id = Api.Throws (Api.ErrorObject m) \/
      Api.askQuestion env fetch = Api.Throws (Api.ErrorObject m) ->
      exists detail, m = Api.PREFIX ++ detail /\ m <> detail).
Proof.
  split; [|split].
  - intros fetch rq m H. now apply rethrow_attempt.
  - intros errorData status. unfold Api.httpErrorMessage. split; [|split].
    + intros text H. now apply field_or_holds.
    + intros Hu text H. rewrite (field_or_unset _ _ Hu).
      now apply field_or_holds.
    + intros Hu Hd. now rewrite (field_or_unset _ _ Hu), (field_or_unset _ _ Hd).
  - intros env fetch id m H.
    assert (Hm : exists rq,
               Api.fetchWithErrorHandling fetch rq
               = Api.Throws (Api.ErrorObject m)).
    { destruct H as [H | [H | [H | H]]].
      - eexists; exact H.
      - eexists; exact H.
      - unfold Api.deleteDocument in H.
        destruct (Api.fetchWithErrorHandling fetch _) as [v | t] eqn:E;
          [discriminate|].
        injection H as ->. eexists; exact E.
      - eexists; exact H. }
    destruct Hm as [rq Hm].
    apply rethrow_attempt in Hm as [detail [-> _]].
    exists detail. split; [reflexivity | apply prefix_changes].
Qed.

(** C10, a counterexample to the wording of the specification.
    With no connection, the upload fails with
    the message of the network error behind the prefix: no response body
    and no HTTP status are behind it.  And on a 400 whose body has an empty
    [error] field next to a [detail] field, the detail is the [detail]
    field, not the [error] field that is present. *)
Lemma transport_detail_counterexample :
  (Api.uploadDocument None offline
   = Api.Throws (Api.ErrorObject "API request failed: Failed to fetch") /\
   (forall r, offline {| Api.url := "/api/documents/upload";
                         Api.method := "POST" |} <> Api.Responds r) /\
   (forall status,
       "Failed to fetch" <> Spec.specifiedDetail None status)) /\
  (Api.uploadDocument None emptyErrorField
   = Api.Throws
       (Api.ErrorObject "API request failed: Only PDF files are supported") /\
   Spec.specifiedDetail
     (Some {| Api.error := Some (Api.JString EmptyString);
              Api.detail := Some (Api.JString "Only PDF files are supported") |})
     400 = EmptyString /\
   Api.uploadDocument None emptyErrorField
   <> Api.Throws
        (Api.ErrorObject
           (Api.PREFIX
            ++ Spec.specifiedDetail
                 (Some {| Api.error := Some (Api.JString EmptyString);
                          Api.detail :=
                            Some (Api.JString "Only PDF files are supported") |})
                 400))).
Proof.
  split; split; try reflexivity.
  - split; [discriminate|]. intros status. cbn. discriminate.
  - split; [reflexivity | discriminate].
Qed.

(** C10 on a 500 whose body is not JSON: the status check fails with the
    generic text behind the prefix. *)
Lemma transport_failure_message_witness :
  Api.checkDocumentStatus None serverDown "abc"
  = Api.Throws (Api.ErrorObject "API request failed: HTTP error! status: 500")
  /\ exists detail,
      "API request failed: HTTP error! status: 500" = Api.PREFIX ++ detail /\
      "API request failed: HTTP error! status: 500" <> detail.
Proof.
  split; [reflexivity|].
  apply (proj2 (proj2 transport_failure_message) None serverDown "abc").
  right; left. reflexivity.
Defined.

(** ** The model of the event loop is closed

    The [<input>] is [disabled={isUploading}], and [step] ignores a file
    selection while work is pending.  The two agree: on every run from the
    mounted component, the upload flag is set exactly while work is
    pending. *)

Section EventLoopFacts.

Import DocumentUploader.

Ltac still_busy Hk :=
  split; [discriminate | intros _; apply Hk; discriminate].

Ltac at_rest := split; [discriminate | intros H; now elim H].

Lemma step_busy (k : Component) (ev : Event) : Busy k -> Busy (step k ev).
Proof.
  unfold Busy. intros Hk. unfold step.
  destruct ev as [file | id | e | d | e | ];
    destruct (pending k) as [| seen | c | c] eqn:Hp;
    try (rewrite Hp; exact Hk).
  - unfold handleFileUpload.
    destruct (isUploading (state k)) eqn:Hu;
      [exfalso; now apply (proj1 Hk eq_refl)|].
    destruct file as [f|]; [|now rewrite Hu, Hp].
    destruct (validateFile f); cbn; [at_rest|].
    split; [discriminate | reflexivity].
  - cbn. still_busy Hk.
  - cbn. at_rest.
  - unfold checkStatus_resolved.
    destruct (String.eqb (Types.status d) "completed"); [cbn; at_rest|].
    destruct (JS.startsWith (Types.status d) "error"); [cbn; at_rest|].
    destruct (MAX_RETRIES <=? seenRetryCount c)%nat; [cbn; at_rest|].
    destruct (parseProgressFromStatus (Types.status d)); cbn;
      still_busy Hk.
  - unfold checkStatus_rejected.
    destruct (MAX_RETRIES <=? seenRetryCount c)%nat; cbn;
      [at_rest | still_busy Hk].
  - cbn. still_busy Hk.
Qed.

Lemma run_busy (evs : list Event) : Busy (run mounted evs).
Proof.
  assert (H : forall k, Busy k -> Busy (run k evs)).
  { induction evs as [|ev evs IH]; intros k Hk; [exact Hk|].
    cbn [run fold_left]. apply IH. now apply step_busy. }
  apply H. unfold Busy. cbn. split; [discriminate | intros H'; now elim H'].
Qed.

End EventLoopFacts.

(** ** Runs of the uploader: what every run keeps *)

Section RunFacts.

Import DocumentUploader.

Lemma run_invariant (P : Component -> Prop) :
  (forall k ev, P k -> P (step k ev)) ->
  forall evs k, P k -> P (run k evs).
Proof.
  intros Hstep evs. induction evs as [|ev evs IH]; intros k Hk; [exact Hk|].
  cbn [run fold_left]. apply IH. now apply Hstep.
Qed.

(** Every case of [step], with the tests of the handlers decided. *)
Ltac step_cases k ev :=
  unfold step;
  destruct ev as [[f|] | id | e | d | e | ];
  destruct (pending k) as [| seen | c | c] eqn:?;
  unfold handleFileUpload, upload_resolved, upload_rejected,
    checkStatus_resolved, checkStatus_rejected, checkStatus, scheduleCheck;
  repeat match goal with
         | |- context [if isUploading ?s then _ else _] =>
             destruct (isUploading s) eqn:?
         | |- context [match validateFile ?f with _ => _ end] =>
             destruct (validateFile f) eqn:?
         | |- context [if String.eqb ?a ?b then _ else _] =>
             destruct (String.eqb a b) eqn:?
         | |- context [if JS.startsWith ?a ?b then _ else _] =>
             destruct (JS.startsWith a b) eqn:?
         | |- context [if Nat.leb ?a ?b then _ else _] =>
             destruct (Nat.leb a b) eqn:?
         | |- context [match parseProgressFromStatus ?a with _ => _ end] =>
             destruct (parseProgressFromStatus a) eqn:?
         end.

Lemma validateFile_accepts (f : File) :
  validateFile f = None ->
  Spec.EndsWithPdf (name f) /\ (size f <= Spec.SIZE_LIMIT)%N.
Proof.
  unfold validateFile. intros H.
  destruct (JS.endsWith (JS.toLowerCase (name f)) ".pdf") eqn:E;
    [|discriminate].
  cbn [negb] in H. split; [now apply endsWith_pdf|].
  change MAX_FILE_SIZE with Spec.SIZE_LIMIT in H.
  destruct (N.ltb_spec Spec.SIZE_LIMIT (size f)); [discriminate | assumption].
Qed.

Lemma step_uploads_valid (k : Component) (ev : Event) :
  Forall (fun e => match e with
                   | UploadCall f => validateFile f = None
                   | _ => True
                   end) (effects k) ->
  Forall (fun e => match e with
                   | UploadCall f => validateFile f = None
                   | _ => True
                   end) (effects (step k ev)).
Proof.
  intros H. step_cases k ev; cbn; try exact H;
    repeat (apply Forall_app; split; try exact H);
    repeat (apply Forall_cons || apply Forall_nil); try exact I; assumption.
Qed.

Lemma step_quiet (k : Component) (ev : Event) :
  (isUploading (state k) = true -> error (state k) = None) ->
  isUploading (state (step k ev)) = true -> error (state (step k ev)) = None.
Proof.
  intros H. step_cases k ev; cbn; intros Hu; try discriminate;
    try reflexivity; try congruence; auto.
Qed.

Lemma step_ledger (k : Component) (ev : Event) :
  (Ledger.count isStatusCall k + Ledger.owed (pending k)
   + Ledger.count Ledger.isUploadError k
   = Ledger.count Ledger.isUploadCall k + Ledger.count Ledger.isTimer k)%nat ->
  (Ledger.count isStatusCall (step k ev) + Ledger.owed (pending (step k ev))
   + Ledger.count Ledger.isUploadError (step k ev)
   = Ledger.count Ledger.isUploadCall (step k ev)
     + Ledger.count Ledger.isTimer (step k ev))%nat.
Proof.
  unfold Ledger.count. intros H.
  step_cases k ev; cbn; rewrite ?filter_app, ?length_app; cbn;
    try match goal with E : pending k = _ |- _ => rewrite ?E end;
    cbn in *; lia.
Qed.

Lemma step_timers (k : Component) (ev : Event) :
  Forall (fun e => match e with
                   | SetTimeout delay => delay = 2000%N
                   | _ => True
                   end) (effects k) ->
  Forall (fun e => match e with
                   | SetTimeout delay => delay = 2000%N
                   | _ => True
                   end) (effects (step k ev)).
Proof.
  intros H. step_cases k ev; cbn; try exact H;
    repeat (apply Forall_app; split; try exact H);
    repeat (apply Forall_cons || apply Forall_nil); try exact I; reflexivity.
Qed.

Lemma step_processed (k : Component) (ev : Event) :
  Forall (fun e => match e with
                   | DocumentProcessed d => Types.status d = "completed"
                   | _ => True
                   end) (effects k) ->
  Forall (fun e => match e with
                   | DocumentProcessed d => Types.status d = "completed"
                   | _ => True
                   end) (effects (step k ev)).
Proof.
  intros H. step_cases k ev; cbn; try exact H;
    repeat (apply Forall_app; split; try exact H);
    repeat (apply Forall_cons || apply Forall_nil); try exact I.
  now apply String.eqb_eq.
Qed.

End RunFacts.

(** X1.  Validation comes before the network: on every run of the uploader
    from its mounting, each file that an upload call carries has a name that
    ends with [.pdf] (in any letter case) and a size of at most 10,485,760
    bytes.  A file that the validator rejects is never sent. *)
Theorem uploads_pass_validation (evs : list DocumentUploader.Event)
    (f : DocumentUploader.File) :
  In (DocumentUploader.UploadCall f)
     (DocumentUploader.effects
        (DocumentUploader.run DocumentUploader.mounted evs)) ->
  Spec.EndsWithPdf (DocumentUploader.name f) /\
  (DocumentUploader.size f <= Spec.SIZE_LIMIT)%N.
Proof.
  intros H. apply validateFile_accepts.
  assert (Hall : Forall (fun e => match e with
                                  | DocumentUploader.UploadCall f =>
                                      DocumentUploader.validateFile f = None
                                  | _ => True
                                  end)
                   (DocumentUploader.effects
                      (DocumentUploader.run DocumentUploader.mounted evs))).
  { apply (run_invariant _ step_uploads_valid). apply Forall_nil. }
  exact (proj1 (Forall_forall _ _) Hall _ H).
Qed.

(** X1 on [mixedRun]: [report.pdf] is sent, and the two upload calls of the
    run are for it; [notes.txt] is not among them. *)
Lemma uploads_pass_validation_witness :
  In (DocumentUploader.UploadCall Session.report)
     (DocumentUploader.effects
        (DocumentUploader.run DocumentUploader.mounted mixedRun)) /\
  Spec.EndsWithPdf "report.pdf" /\
  (2000000 <= Spec.SIZE_LIMIT)%N.
Proof.
  assert (H : In (DocumentUploader.UploadCall Session.report)
                (DocumentUploader.effects
                   (DocumentUploader.run DocumentUploader.mounted mixedRun)))
    by (left; reflexivity).
  split; [exact H|].
  exact (uploads_pass_validation mixedRun Session.report H).
Defined.

(** X2.  On every run of the uploader from its mounting, the upload flag is
    set exactly while work is pending (an upload, a status check or a
    timer), and no error message is held while it is set.  So the file
    input, disabled by the flag, accepts a new file only when no polling
    loop is alive, and the progress view is never hidden by an old error. *)
Theorem upload_flag_tracks_work (evs : list DocumentUploader.Event) :
  let k := DocumentUploader.run DocumentUploader.mounted evs in
  (DocumentUploader.isUploading (DocumentUploader.state k) = true <->
   DocumentUploader.pending k <> DocumentUploader.NoWork) /\
  (DocumentUploader.isUploading (DocumentUploader.state k) = true ->
   DocumentUploader.error (DocumentUploader.state k) = None).
Proof.
  cbv zeta. split.
  - exact (run_busy evs).
  - apply (run_invariant
             (fun k => DocumentUploader.isUploading (DocumentUploader.state k)
                       = true ->
                       DocumentUploader.error (DocumentUploader.state k)
                       = None) step_quiet).
    discriminate.
Qed.

(** X3.  The ledger of status checks.  On every run of the uploader from its
    mounting, the status checks made, plus one if an upload or a timer is
    pending, plus the uploads that failed, equal the upload calls plus the
    timers set; and every timer is set to 2000 ms.  So each status check is
    the first of its upload or follows a timer of its own: the poller never
    makes two checks on one timer. *)
Theorem status_checks_ledger (evs : list DocumentUploader.Event) :
  let k := DocumentUploader.run DocumentUploader.mounted evs in
  (DocumentUploader.statusCalls k + Ledger.owed (DocumentUploader.pending k)
   + Ledger.count Ledger.isUploadError k
   = Ledger.count Ledger.isUploadCall k + Ledger.count Ledger.isTimer k)%nat /\
  (DocumentUploader.statusCalls k
   <= Ledger.count Ledger.isUploadCall k + Ledger.count Ledger.isTimer k)%nat /\
  (forall delay,
      In (DocumentUploader.SetTimeout delay) (DocumentUploader.effects k) ->
      delay = DocumentUploader.RETRY_INTERVAL).
Proof.
  cbv zeta.
  assert (H : (Ledger.count DocumentUploader.isStatusCall
                 (DocumentUploader.run DocumentUploader.mounted evs)
               + Ledger.owed
                   (DocumentUploader.pending
                      (DocumentUploader.run DocumentUploader.mounted evs))
               + Ledger.count Ledger.isUploadError
                   (DocumentUploader.run DocumentUploader.mounted evs)
               = Ledger.count Ledger.isUploadCall
                   (DocumentUploader.run DocumentUploader.mounted evs)
                 + Ledger.count Ledger.isTimer
                     (DocumentUploader.run DocumentUploader.mounted evs))%nat).
  { apply (run_invariant
             (fun k => (Ledger.count DocumentUploader.isStatusCall k
                        + Ledger.owed (DocumentUploader.pending k)
                        + Ledger.count Ledger.isUploadError k
                        = Ledger.count Ledger.isUploadCall k
                          + Ledger.count Ledger.isTimer k)%nat) step_ledger).
    reflexivity. }
  change (Ledger.count DocumentUploader.isStatusCall
            (DocumentUploader.run DocumentUploader.mounted evs))
    with (DocumentUploader.statusCalls
            (DocumentUploader.run DocumentUploader.mounted evs)) in H.
  split; [exact H|]. split; [lia|].
  intros delay Hin.
  assert (Hall : Forall (fun e => match e with
                                  | DocumentUploader.SetTimeout delay =>
                                      delay = 2000%N
                                  | _ => True
                                  end)
                   (DocumentUploader.effects
                      (DocumentUploader.run DocumentUploader.mounted evs))).
  { apply (run_invariant _ step_timers). apply Forall_nil. }
  exact (proj1 (Forall_forall _ _) Hall _ Hin).
Qed.

(** X4.  On every run of the uploader from its mounting, each document
    handed to [onDocumentProcessed] has the status [completed]: the
    application never receives a document that is still processing or in
    error. *)
Theorem only_completed_documents_are_handed_over
    (evs : list DocumentUploader.Event) (d : Types.Document) :
  In (DocumentUploader.DocumentProcessed d)
     (DocumentUploader.effects
        (DocumentUploader.run DocumentUploader.mounted evs)) ->
  Types.status d = "completed".
Proof.
  intros H.
  assert (Hall : Forall (fun e => match e with
                                  | DocumentUploader.DocumentProcessed d =>
                                      Types.status d = "completed"
                                  | _ => True
                                  end)
                   (DocumentUploader.effects
                      (DocumentUploader.run DocumentUploader.mounted evs))).
  { apply (run_invariant _ step_processed). apply Forall_nil. }
  exact (proj1 (Forall_forall _ _) Hall _ H).
Qed.

(** X4 on [mixedRun]: the document handed over at its end. *)
Lemma only_completed_documents_are_handed_over_witness :
  In (DocumentUploader.DocumentProcessed (Session.statusReport "completed"))
     (DocumentUploader.effects
        (DocumentUploader.run DocumentUploader.mounted mixedRun)) /\
  Types.status (Session.statusReport "completed") = "completed".
Proof.
  assert (H : In (DocumentUploader.DocumentProcessed
                    (Session.statusReport "completed"))
                (DocumentUploader.effects
                   (DocumentUploader.run DocumentUploader.mounted mixedRun))).
  { vm_compute. tauto. }
  split; [exact H|].
  exact (only_completed_documents_are_handed_over mixedRun _ H).
Defined.

Section PolledDocuments.

Import DocumentUploader.

Ltac step_cases k ev :=
  unfold step;
  destruct ev as [[f|] | id | e | d | e | ];
  destruct (pending k) as [| seen | c | c] eqn:?;
  unfold handleFileUpload, upload_resolved, upload_rejected,
    checkStatus_resolved, checkStatus_rejected, checkStatus, scheduleCheck;
  repeat match goal with
         | |- context [if isUploading ?s then _ else _] =>
             destruct (isUploading s) eqn:?
         | |- context [match validateFile ?f with _ => _ end] =>
             destruct (validateFile f) eqn:?
         | |- context [if String.eqb ?a ?b then _ else _] =>
             destruct (String.eqb a b) eqn:?
         | |- context [if JS.startsWith ?a ?b then _ else _] =>
             destruct (JS.startsWith a b) eqn:?
         | |- context [if Nat.leb ?a ?b then _ else _] =>
             destruct (Nat.leb a b) eqn:?
         | |- context [match parseProgressFromStatus ?a with _ => _ end] =>
             destruct (parseProgressFromStatus a) eqn:?
         end.

(** The status call that a step adds, if any, is for the document that the
    upload has just returned or for the document of the closure. *)
Lemma step_status_call (k : Component) (ev : Event) :
  exists new,
    effects (step k ev) = (effects k ++ new)%list /\
    forall id, In (StatusCall id) new ->
               ev = UploadResolved id \/
               Ledger.polled (pending k) = Some id.
Proof.
  step_cases k ev; cbn;
    first [ exists []; split; [now rewrite app_nil_r | intros ? []]
          | eexists; split; [rewrite <- ?app_assoc; reflexivity|] ];
    intros id' H; cbn in H;
    repeat (destruct H as [H | H]); try contradiction; try discriminate;
    injection H as <-; auto.
Qed.

Lemma step_polled (k : Component) (ev : Event) (doc : string) :
  Ledger.polled (pending (step k ev)) = Some doc ->
  ev = UploadResolved doc \/ Ledger.polled (pending k) = Some doc.
Proof.
  step_cases k ev; cbn; intros H; try discriminate;
    try (injection H as <-); auto;
    match goal with E : pending k = _ |- _ => rewrite E in H end;
    cbn in H; try discriminate; auto.
Qed.

Lemma step_known (ids : list string) (k : Component) (ev : Event) :
  Ledger.Known ids k ->
  Ledger.Known (ids ++ Ledger.returnedIds [ev]) (step k ev).
Proof.
  intros [He Hp]. split.
  - destruct (step_status_call k ev) as [new [-> Hnew]].
    intros id H. apply in_app_or in H as [H | H].
    + apply in_or_app. left. auto.
    + apply in_or_app. destruct (Hnew id H) as [-> | Hid].
      * right. now left.
      * left. auto.
  - intros id H. apply in_or_app.
    destruct (step_polled k ev id H) as [-> | Hid].
    + right. now left.
    + left. auto.
Qed.

Lemma returnedIds_cons (ev : Event) (evs : list Event) :
  Ledger.returnedIds (ev :: evs)
  = (Ledger.returnedIds [ev] ++ Ledger.returnedIds evs)%list.
Proof. destruct ev; reflexivity. Qed.

Lemma run_known (evs : list Event) :
  forall ids k, Ledger.Known ids k ->
                Ledger.Known (ids ++ Ledger.returnedIds evs) (run k evs).
Proof.
  induction evs as [|ev evs IH]; intros ids k H.
  - cbn. now rewrite app_nil_r.
  - cbn [run fold_left]. rewrite returnedIds_cons, app_assoc.
    apply IH. now apply step_known.
Qed.

End PolledDocuments.

(** X5.  On every run of the uploader from its mounting, every status check
    asks for a document identifier that an upload of the run has returned:
    the poller never asks for the status of a document it was not given. *)
Theorem status_checks_ask_for_uploaded_documents
    (evs : list DocumentUploader.Event) (id : string) :
  In (DocumentUploader.StatusCall id)
     (DocumentUploader.effects
        (DocumentUploader.run DocumentUploader.mounted evs)) ->
  In (DocumentUploader.UploadResolved id) evs.
Proof.
  intros H.
  assert (Hk : Ledger.Known [] DocumentUploader.mounted)
    by (split; [intros ? [] | discriminate]).
  apply (run_known evs) in Hk. cbn [app] in Hk.
  apply (proj1 Hk) in H. clear Hk.
  induction evs as [|ev evs IH]; [destruct H|].
  rewrite returnedIds_cons in H. apply in_app_or in H as [H | H].
  - left. destruct ev; cbn in H; try contradiction.
    destruct H as [<- | []]. reflexivity.
  - right. now apply IH.
Qed.

(** X5 on [mixedRun]: the two status checks of the run ask for [abc]. *)
Lemma status_checks_ask_for_uploaded_documents_witness :
  In (DocumentUploader.StatusCall "abc")
     (DocumentUploader.effects
        (DocumentUploader.run DocumentUploader.mounted mixedRun)) /\
  In (DocumentUploader.UploadResolved "abc") mixedRun.
Proof.
  assert (H : In (DocumentUploader.StatusCall "abc")
                (DocumentUploader.effects
                   (DocumentUploader.run DocumentUploader.mounted mixedRun))).
  { vm_compute. tauto. }
  split; [exact H|].
  exact (status_checks_ask_for_uploaded_documents mixedRun "abc" H).
Defined.

Section SessionFacts.

Import DocumentUploader.

Lemma ceilDiv_interval (n : nat) :
  Ledger.ceilDiv ((Z.of_nat MAX_RETRIES - Z.of_nat n) * Z.of_N RETRY_INTERVAL)
    1000
  = (60 - 2 * Z.of_nat n)%Z.
Proof.
  unfold Ledger.ceilDiv, MAX_RETRIES, RETRY_INTERVAL.
  replace (- ((Z.of_nat 30 - Z.of_nat n) * Z.of_N 2000))%Z
    with ((2 * Z.of_nat n - 60) * 1000)%Z by lia.
  rewrite Z.div_mul by lia. lia.
Qed.

(** A valid file selected on a component at rest, and its upload resolved:
    the closure holds the count that the component showed at the
    selection. *)
Lemma session_starts (k : Component) (f : File) (id : string) :
  pending k = NoWork -> isUploading (state k) = false ->
  validateFile f = None ->
  let k' := run k [FileSelected (Some f); UploadResolved id] in
  pending k'
  = Checking {| seenRetryCount := retryCount (state k); document_id := id |} /\
  effects k' = (effects k ++ [UploadCall f; StatusCall id])%list /\
  retryCount (state k') = 0%nat /\
  isUploading (state k') = true /\
  error (state k') = None.
Proof.
  intros Hp Hu Hv. cbn [run fold_left].
  assert (E : step k (FileSelected (Some f))
              = await (Uploading (retryCount (state k)))
                  (emit (UploadCall f)
                     (update (setProgressPercent (1 # 10))
                        (update (setUploadProgress "Uploading document...")
                           (update (setError None)
                              (update (setRetryCount (fun _ => O))
                                 (update (setProgressPercent 0)
                                    (update
                                       (setUploadProgress
                                          "Validating document...")
                                       (update (setIsUploading true) k))))))))).
  { unfold step. rewrite Hp. unfold handleFileUpload. now rewrite Hu, Hv. }
  rewrite E. cbn. rewrite <- app_assoc. repeat split.
Qed.

End SessionFacts.

(** X6.  The retry guard of a session reads the retry count that the
    component showed when the file was selected, not the count of the
    session.  On a component at rest, a valid file whose upload resolves and
    whose first status report is still processing gives: when that old count
    is 30 or more, a time-out at once, after a single status check and with
    the counter just reset to 0; when it is below 30, a scheduled second
    check. *)
Theorem guard_reads_count_at_selection (k : DocumentUploader.Component)
    (f : DocumentUploader.File) (id : string) (d : Types.Document) :
  DocumentUploader.pending k = DocumentUploader.NoWork ->
  DocumentUploader.isUploading (DocumentUploader.state k) = false ->
  DocumentUploader.validateFile f = None ->
  Spec.StillProcessing d ->
  let old := DocumentUploader.retryCount (DocumentUploader.state k) in
  let k' :=
    DocumentUploader.run k
      [DocumentUploader.FileSelected (Some f);
       DocumentUploader.UploadResolved id;
       DocumentUploader.StatusResolved d] in
  ((DocumentUploader.MAX_RETRIES <= old)%nat ->
   DocumentUploader.pending k' = DocumentUploader.NoWork /\
   DocumentUploader.error (DocumentUploader.state k')
   = Some DocumentUploader.ERROR_MESSAGES.PROCESSING_TIMEOUT /\
   DocumentUploader.isUploading (DocumentUploader.state k') = false /\
   DocumentUploader.retryCount (DocumentUploader.state k') = 0%nat /\
   DocumentUploader.effects k'
   = (DocumentUploader.effects k
      ++ [DocumentUploader.UploadCall f;
          DocumentUploader.StatusCall id])%list) /\
  ((old < DocumentUploader.MAX_RETRIES)%nat ->
   DocumentUploader.pending k'
   = DocumentUploader.Scheduled
       {| DocumentUploader.seenRetryCount := old;
          DocumentUploader.document_id := id |} /\
   DocumentUploader.error (DocumentUploader.state k') = None /\
   DocumentUploader.retryCount (DocumentUploader.state k') = 1%nat).
Proof.
  intros Hp Hu Hv Hd old k'.
  destruct (session_starts k f id Hp Hu Hv) as [Hp1 [He1 [Hr1 [Hu1 Her1]]]].
  cbv zeta in Hp1, He1, Hr1, Hu1, Her1.
  assert (Ek : k' = DocumentUploader.step
                      (DocumentUploader.run k
                         [DocumentUploader.FileSelected (Some f);
                          DocumentUploader.UploadResolved id])
                      (DocumentUploader.StatusResolved d)) by reflexivity.
  set (k1 := DocumentUploader.run k
               [DocumentUploader.FileSelected (Some f);
                DocumentUploader.UploadResolved id]) in *.
  assert (Es : k' = DocumentUploader.checkStatus_resolved
                      {| DocumentUploader.seenRetryCount := old;
                         DocumentUploader.document_id := id |} d k1).
  { rewrite Ek. unfold DocumentUploader.step. now rewrite Hp1. }
  clear Ek. clearbody k' k1. subst k'.
  destruct Hd as [Hc He]. split.
  - intros Hg. unfold DocumentUploader.checkStatus_resolved.
    rewrite (not_completed _ Hc), (proj2 (startsWith_false _ _) He).
    rewrite (guard_tripped
               {| DocumentUploader.seenRetryCount := old;
                  DocumentUploader.document_id := id |} Hg). cbn.
    rewrite Hr1, He1. repeat split.
  - intros Hg.
    destruct (checkStatus_resolved_processing
                {| DocumentUploader.seenRetryCount := old;
                   DocumentUploader.document_id := id |} d k1
                (conj Hc He) Hg) as [H1 [_ [_ [H4 [H5 _]]]]].
    rewrite H1, H4, H5, Her1, Hr1. repeat split.
Qed.

(** X6 on [afterLongSession]: its counter stands at 30, and the next file
    times out on its first status report. *)
Lemma guard_reads_count_at_selection_witness :
  DocumentUploader.retryCount (DocumentUploader.state afterLongSession)
  = 30%nat /\
  DocumentUploader.error
    (DocumentUploader.state
       (DocumentUploader.run afterLongSession
          [DocumentUploader.FileSelected (Some Session.report);
           DocumentUploader.UploadResolved "def";
           DocumentUploader.StatusResolved embedding]))
  = Some DocumentUploader.ERROR_MESSAGES.PROCESSING_TIMEOUT.
Proof.
  split; [reflexivity|].
  refine (proj1 (proj2 (proj1
            (guard_reads_count_at_selection afterLongSession Session.report
               "def" embedding eq_refl eq_refl eq_refl _) _))).
  - split; [discriminate | apply startsWith_false; reflexivity].
  - apply Nat.leb_le. reflexivity.
Defined.

(** X7.  The line [Time remaining] of a first session.  After [n >= 1]
    status reports that are still processing, the view shows
    [60 - 2n] seconds: 0 after the thirtieth report and a negative time
    after each later one. *)
Theorem time_remaining_in_first_session (ds : list Types.Document) :
  Forall Spec.StillProcessing ds -> ds <> [] ->
  Ledger.timeRemaining
    (DocumentUploader.state
       (DocumentUploader.run DocumentUploader.mounted
          (Session.start ++ Session.polls ds)%list))
  = Some (60 - 2 * Z.of_nat (List.length ds))%Z.
Proof.
  intros Hds Hne. rewrite run_app.
  assert (Hp : DocumentUploader.pending
                 (DocumentUploader.run DocumentUploader.mounted Session.start)
               = DocumentUploader.Checking Session.theClosure) by reflexivity.
  assert (Hg : (DocumentUploader.seenRetryCount Session.theClosure
                < DocumentUploader.MAX_RETRIES)%nat)
    by (unfold DocumentUploader.MAX_RETRIES; cbn; lia).
  destruct (polls_keep_checking _ ds Hds Hg _ Hp) as [_ [_ [H3 [H4 H5]]]].
  cbv zeta in H3, H4, H5. unfold Ledger.timeRemaining, Ledger.errorShown.
  rewrite H3, H4, H5. cbn [DocumentUploader.isUploading
    DocumentUploader.error DocumentUploader.retryCount
    DocumentUploader.state DocumentUploader.run fold_left].
  change (DocumentUploader.isUploading
            (DocumentUploader.state
               (DocumentUploader.run DocumentUploader.mounted Session.start)))
    with true.
  change (DocumentUploader.error
            (DocumentUploader.state
               (DocumentUploader.run DocumentUploader.mounted Session.start)))
    with (@None string).
  change (DocumentUploader.retryCount
            (DocumentUploader.state
               (DocumentUploader.run DocumentUploader.mounted Session.start)))
    with 0%nat.
  cbn [andb negb Nat.add].
  destruct ds as [|d ds]; [now elim Hne|].
  cbn [List.length Nat.ltb Nat.leb]. f_equal. apply ceilDiv_interval.
Qed.

(** X7 after the thirty-one reports of [stillEmbedding]: minus two
    seconds. *)
Lemma time_remaining_in_first_session_witness :
  Ledger.timeRemaining
    (DocumentUploader.state
       (DocumentUploader.run DocumentUploader.mounted
          (Session.start ++ Session.polls stillEmbedding)%list))
  = Some (-2)%Z.
Proof.
  refine (time_remaining_in_first_session stillEmbedding _ _).
  - apply Forall_forall. intros x Hx. apply repeat_spec in Hx. subst x.
    split; [discriminate | apply startsWith_false; reflexivity].
  - discriminate.
Defined.

Section TransportAndClassifier.



End TransportAndClassifier.



(** ** The question form *)

Section QuestionFacts.

Ltac by_cases c :=
  destruct c as [[] [] [] [] [] [] [] []]; vm_compute;
  intuition (try discriminate; try reflexivity).

Lemma isWhiteSpace_spec (c : ascii) :
  JSText.isWhiteSpace c = true <-> JSText.IsSpace c.
Proof. by_cases c. Qed.

Lemma trimStart_empty (s : string) :
  JSText.trimStart s = EmptyString <-> JSText.Blank s.
Proof.
  unfold JSText.Blank. induction s as [|c s IH]; cbn [JSText.trimStart Spec.All].
  - tauto.
  - destruct (JSText.isWhiteSpace c) eqn:E.
    + apply isWhiteSpace_spec in E. rewrite IH. tauto.
    + split; [discriminate|]. intros [H _]. apply isWhiteSpace_spec in H.
      rewrite H in E. discriminate.
Qed.

(** What is left of a text that starts with a visible character. *)
Lemma trimEnd_visible (c : ascii) (s : string) :
  JSText.isWhiteSpace c = false ->
  JSText.trimEnd (String c s) <> EmptyString.
Proof.
  intros E. cbn [JSText.trimEnd]. rewrite E.
  destruct (JSText.trimEnd s); discriminate.
Qed.

Lemma trimStart_visible (s : string) :
  JSText.trimStart s = EmptyString \/
  exists c t, JSText.trimStart s = String c t /\
              JSText.isWhiteSpace c = false.
Proof.
  induction s as [|c s IH]; cbn [JSText.trimStart]; [now left|].
  destruct (JSText.isWhiteSpace c) eqn:E; [exact IH|].
  right. now exists c, s.
Qed.

Lemma trim_empty (s : string) :
  JSText.trim s = EmptyString <-> JSText.Blank s.
Proof.
  unfold JSText.trim. rewrite <- trimStart_empty.
  destruct (trimStart_visible s) as [-> | [c [t [-> E]]]].
  - cbn. tauto.
  - split; [|discriminate]. intros H. now apply trimEnd_visible in H.
Qed.

Lemma truthy_false (s : string) : JS.truthy s = false <-> s = EmptyString.
Proof.
  unfold JS.truthy. destruct (String.eqb_spec s EmptyString); cbn; split;
    intros; try discriminate; try reflexivity; try assumption; contradiction.
Qed.

End QuestionFacts.

(** X9.  [validateQuestion] answers [EMPTY_QUESTION] exactly for a text of
    white space only (whatever its length), [TOO_LONG] exactly for a text
    with a visible character and more than 500 characters, and accepts
    exactly the other texts. *)
Theorem validateQuestion_contract (text : string) :
  (QueryForm.validateQuestion text
   = Some QueryInterface.ERROR_MESSAGES.EMPTY_QUESTION
   <-> JSText.Blank text) /\
  (QueryForm.validateQuestion text
   = Some QueryInterface.ERROR_MESSAGES.TOO_LONG
   <-> ~ JSText.Blank text /\ (500 < String.length text)%nat) /\
  (QueryForm.validateQuestion text = None
   <-> ~ JSText.Blank text /\ (String.length text <= 500)%nat).
Proof.
  unfold QueryForm.validateQuestion.
  pose proof (trim_empty text) as Ht.
  pose proof (truthy_false (JSText.trim text)) as Hf.
  destruct (JS.truthy (JSText.trim text)); cbn [negb].
  - assert (Hn : ~ JSText.Blank text).
    { intros H. apply Ht in H. apply Hf in H. discriminate. }
    destruct (Nat.ltb_spec 500 (String.length text)).
    + repeat split; try discriminate; try tauto; try lia;
        intros [_ H']; lia.
    + repeat split; try discriminate; try tauto; try lia;
        intros [_ H']; lia.
  - assert (Hb : JSText.Blank text) by (apply Ht, Hf; reflexivity).
    repeat split; try discriminate; try tauto.
Qed.

Section FormFacts.

Import QueryForm.

Lemma validateQuestion_accepts (text : string) :
  validateQuestion text = None ->
  ~ JSText.Blank text /\ (String.length text <= 500)%nat.
Proof.
  unfold validateQuestion. intros H.
  destruct (JS.truthy (JSText.trim text)) eqn:E; [|discriminate].
  cbn [negb] in H.
  destruct (Nat.ltb_spec 500 (String.length text)); [discriminate|].
  split; [|assumption]. intros Hb. apply trim_empty in Hb.
  rewrite Hb in E. discriminate.
Qed.

Lemma step_documentId (k : Form) (ev : Event) :
  documentId (step k ev) = documentId k.
Proof.
  unfold step, handleChange, handleSubmit, ask_resolved, ask_rejected.
  destruct ev.
  - destruct (isLoading (state k)); reflexivity.
  - destruct (isLoading (state k)); [reflexivity|].
    destruct (validateQuestion (question (state k))); reflexivity.
  - destruct (awaiting k); reflexivity.
  - destruct (awaiting k); reflexivity.
Qed.

Lemma step_consistent (k : Form) (ev : Event) :
  Consistent k -> Consistent (step k ev).
Proof.
  unfold Consistent. intros [H1 [H2 [H3 H4]]].
  unfold step. destruct ev as [text | | r | e].
  - destruct (isLoading (state k)) eqn:E; [now rewrite E|].
    cbn. rewrite E in *. repeat split; try assumption; discriminate.
  - destruct (isLoading (state k)) eqn:E; [now rewrite E|].
    unfold handleSubmit.
    destruct (validateQuestion (question (state k))) eqn:Ev.
    + cbn. rewrite E in *. repeat split; try assumption; discriminate.
    + cbn. repeat split. apply Forall_app. split; [exact H4|].
      apply Forall_cons; [|apply Forall_nil]. now split.
  - destruct (awaiting k) eqn:E.
    + cbn. repeat split; try assumption; discriminate.
    + rewrite ?E. exact (conj H1 (conj H2 (conj H3 H4))).
  - destruct (awaiting k) eqn:E.
    + cbn. repeat split; try assumption; discriminate.
    + rewrite ?E. exact (conj H1 (conj H2 (conj H3 H4))).
Qed.

Lemma run_consistent (evs : list Event) :
  forall k, Consistent k ->
            Consistent (run k evs) /\ documentId (run k evs) = documentId k.
Proof.
  induction evs as [|ev evs IH]; intros k Hk; [now split|].
  destruct (IH _ (step_consistent k ev Hk)) as [H1 H2].
  change (run k (ev :: evs)) with (run (step k ev) evs).
  split; [exact H1|]. now rewrite H2, step_documentId.
Qed.

End FormFacts.

(** X10.  On every run of the question form: the loading flag is set
    exactly while a request is in flight, and the loading message is shown
    exactly then; while it is set, no error and no earlier answer are held;
    and every question sent to the server has a visible character, at most
    500 characters, and goes with the document of the form.  A question
    that the validator rejects is never sent. *)
Theorem question_form_invariants (id : string) (evs : list QueryForm.Event) :
  let k := QueryForm.run (QueryForm.mounted id) evs in
  QueryForm.isLoading (QueryForm.state k) = QueryForm.awaiting k /\
  QueryForm.loadingMessage (QueryForm.state k)
  = (if QueryForm.isLoading (QueryForm.state k)
     then "Processing your question..." else EmptyString) /\
  (QueryForm.isLoading (QueryForm.state k) = true ->
   QueryForm.error (QueryForm.state k) = EmptyString /\
   QueryForm.result (QueryForm.state k) = None) /\
  (forall q d,
      In (q, d) (QueryForm.asked k) ->
      ~ JSText.Blank q /\ (String.length q <= 500)%nat /\ d = id).
Proof.
  cbv zeta.
  assert (H0 : QueryForm.Consistent (QueryForm.mounted id)).
  { repeat split; try discriminate. apply Forall_nil. }
  destruct (run_consistent evs _ H0) as [[H1 [H2 [H3 H4]]] Hid].
  split; [exact H1|]. split; [exact H2|]. split; [exact H3|].
  intros q d Hin.
  destruct (proj1 (Forall_forall _ _) H4 _ Hin) as [Hv Hd].
  cbn [fst snd] in Hv, Hd. apply validateQuestion_accepts in Hv as [Hb Hl].
  rewrite Hid in Hd. exact (conj Hb (conj Hl Hd)).
Qed.

(** X10 on [askingTwice]: of the two submissions only the second is sent. *)
Lemma question_form_invariants_witness :
  QueryForm.asked (QueryForm.run (QueryForm.mounted "abc") askingTwice)
  = [("What is the total?", "abc")] /\
  ~ JSText.Blank "What is the total?".
Proof.
  split; [reflexivity|].
  refine (proj1 (proj2 (proj2 (proj2
            (question_form_invariants "abc" askingTwice)))
            "What is the total?" "abc" _)).
  left. reflexivity.
Defined.

(** X11.  What the question form shows when the server answers a question
    with a status outside 200-299, 404 and 400 included.  The transport
    layer throws an [Error] that carries a message and no response, so the
    rules of the classifier for 404 and 400 do not apply: the form shows the
    connection text when the message holds ["network"], and the generic
    server text otherwise; never the text for a document not found. *)
Theorem question_failure_text_from_transport (env : option string)
    (fetch : Api.Request -> Api.Fetched) (resp : Api.Response) :
  fetch {| Api.url := Api.API_BASE_URL env ++ "/queries/ask";
           Api.method := "POST" |} = Api.Responds resp ->
  Api.ok resp = false ->
  let m :=
    Api.PREFIX
    ++ Api.httpErrorMessage (Api.jsonOrNull resp) (Api.status resp) in
  let shown := QueryInterface.getErrorMessage (Ledger.caughtError m) in
  Api.askQuestion env fetch = Api.Throws (Api.ErrorObject m) /\
  (Spec.Contains m "network" ->
   shown = QueryInterface.ERROR_MESSAGES.NETWORK_ERROR) /\
  (~ Spec.Contains m "network" ->
   shown = QueryInterface.ERROR_MESSAGES.SERVER_ERROR) /\
  shown <> QueryInterface.ERROR_MESSAGES.DOC_NOT_FOUND.
Proof.
  intros Hf Hok m shown. split.
  - unfold Api.askQuestion, Api.fetchWithErrorHandling. rewrite Hf.
    cbn [Api.attempt]. rewrite Hok. reflexivity.
  - subst shown. unfold QueryInterface.getErrorMessage.
    change (Caught.status_is (Ledger.caughtError m) 404) with false.
    change (Caught.status_is (Ledger.caughtError m) 400) with false.
    change (QueryInterface.messageIncludes (Ledger.caughtError m) "network")
      with (JS.includes m "network").
    pose proof (includes_spec m "network") as Hn.
    destruct (JS.includes m "network").
    + split; [reflexivity|]. split; [|discriminate].
      intros H. exfalso. apply H. now apply Hn.
    + split; [|split; [reflexivity | discriminate]].
      intros H. apply Hn in H. discriminate.
Qed.

(** X11 on a server that answers 404 with the detail
    ["Document not found"]: the form shows the generic server text. *)
Lemma question_failure_text_from_transport_witness :
  Api.askQuestion None notFound
  = Api.Throws (Api.ErrorObject "API request failed: Document not found") /\
  QueryInterface.getErrorMessage
    (Ledger.caughtError "API request failed: Document not found")
  = QueryInterface.ERROR_MESSAGES.SERVER_ERROR.
Proof.
  destruct (question_failure_text_from_transport None notFound
              {| Api.status := 404;
                 Api.json :=
                   inr {| Api.error := None;
                          Api.detail :=
                            Some (Api.JString "Document not found") |} |}
              eq_refl eq_refl) as [H1 [_ [H3 _]]].
  split; [exact H1|].
  apply H3. apply includes_false. reflexivity.
Defined.

(** ** Deletion, at the level of HTTP *)

(** X12.  [handleDeleteDocument] clears the current document exactly when
    the DELETE request for [<base>/documents/<document_id>] is answered
    with a status in 200-299 that is 204 or comes with a body that decodes
    as JSON.  A success answered with another status and an empty body is
    taken as a failure: the document stays. *)
Theorem delete_clears_on_http_success (env : option string)
    (fetch : Api.Request -> Api.Fetched) (s : App.State)
    (doc : Types.Document) :
  App.currentDocument s = Some doc ->
  (App.currentDocument (App.handleDeleteDocument env fetch s) = None <->
   exists resp,
     fetch {| Api.url :=
                Api.API_BASE_URL env ++ "/documents/" ++ Types.document_id doc;
              Api.method := "DELETE" |} = Api.Responds resp /\
     Api.ok resp = true /\
     (Api.status resp = 204%N \/ exists body, Api.json resp = inr body)).
Proof.
  intros Hdoc. unfold App.handleDeleteDocument. rewrite Hdoc.
  unfold Api.deleteDocument, Api.fetchWithErrorHandling.
  destruct (fetch _) as [t | resp] eqn:Hf; cbn [Api.attempt].
  - destruct t; cbn; rewrite Hdoc;
      (split; [discriminate | intros [r [H _]]; discriminate]).
  - destruct (Api.ok resp) eqn:Hok; cbn [negb].
    + destruct (N.eqb_spec (Api.status resp) 204) as [E | E].
      * cbn. split; [|reflexivity]. intros _. exists resp. auto.
      * destruct (Api.json resp) as [t | body] eqn:Hj.
        -- destruct t; cbn; rewrite Hdoc;
             (split; [discriminate|]);
             intros [r [H [_ [H' | [b H']]]]]; injection H as <-;
             [contradiction | congruence | contradiction | congruence].
        -- cbn. split; [|reflexivity]. intros _. exists resp.
           split; [reflexivity|]. split; [exact Hok|]. right. now exists body.
    + cbn. rewrite Hdoc. split; [discriminate|].
      intros [r [H [Hok' _]]]. injection H as <-. congruence.
Qed.

(** X12 on [showing] with a server that answers 204. *)
Lemma delete_clears_on_http_success_witness :
  App.currentDocument (App.handleDeleteDocument None noContent showing)
  = None.
Proof.
  apply (proj2 (delete_clears_on_http_success None noContent showing
                  (Session.statusReport "completed") eq_refl)).
  eexists. split; [reflexivity|]. split; [reflexivity|]. now left.
Defined.

(** ** Request headers and the API key *)

Section HeaderFacts.

Lemma get_set (o : Obj.t) (key value key' : string) :
  Obj.get (Obj.set o key value) key'
  = if String.eqb key key' then Some value else Obj.get o key'.
Proof.
  induction o as [|[k v] o IH]; cbn [Obj.set Obj.get].
  - reflexivity.
  - destruct (String.eqb_spec k key) as [-> | Hk]; cbn [Obj.get].
    + destruct (String.eqb key key'); reflexivity.
    + rewrite IH. destruct (String.eqb_spec k key') as [-> | Hk'];
        [|reflexivity].
      destruct (String.eqb_spec key key') as [-> | _];
        [contradiction | reflexivity].
Qed.

(** In [{...a, ...b}] a key of [b] has the value that [b] gives it, and any
    other key the value that [a] gives it. *)
Lemma get_spread (b : Obj.t) :
  NoDup (Obj.keys b) ->
  forall a key,
    Obj.get (Obj.spread a b) key
    = match Obj.get b key with
      | Some v => Some v
      | None => Obj.get a key
      end.
Proof.
  unfold Obj.spread, Obj.keys.
  induction b as [|[k v] b IH]; intros Hnd a key; cbn; [reflexivity|].
  inversion Hnd as [|? ? Hnotin Hnd']; subst.
  rewrite (IH Hnd'). rewrite get_set.
  destruct (String.eqb_spec k key) as [-> | Hk]; [|reflexivity].
  destruct (Obj.get b key) as [v'|] eqn:E; [|reflexivity].
  exfalso. apply Hnotin. clear -E.
  induction b as [|[k' w] b IH]; cbn in *; [discriminate|].
  destruct (String.eqb_spec k' key) as [-> | _]; [now left | right; auto].
Qed.

Lemma getHeaders_get (config : ApiConfig.t) (contentType : option string)
    (key : string) :
  Obj.get (ApiConfig.getHeaders config contentType) key
  = if String.eqb "X-API-Key" key then
      ApiConfig.given (ApiConfig.apiKey config)
    else if String.eqb "Content-Type" key then ApiConfig.given contentType
    else if String.eqb "Accept" key then Some "application/json"
    else None.
Proof.
  unfold ApiConfig.getHeaders.
  destruct (ApiConfig.given (ApiConfig.apiKey config)) as [k|];
    destruct (ApiConfig.given contentType) as [ct|];
    rewrite ?get_set; cbn [Obj.get];
    destruct (String.eqb_spec "X-API-Key" key) as [<- | ?];
    try reflexivity;
    destruct (String.eqb_spec "Content-Type" key) as [<- | ?];
    try reflexivity;
    destruct (String.eqb_spec "Accept" key) as [<- | ?]; reflexivity.
Qed.

End HeaderFacts.

(** X13.  The headers of a request.  Each header is the caller's when the
    caller gives it.  Otherwise [X-API-Key] is the configured key when one
    is configured and not empty, [Accept] is [application/json], and no
    other header is sent: the module adds no [Content-Type] of its own, and
    a key set to the empty string is not sent. *)
Theorem request_headers_merge (config : ApiConfig.t)
    (optionsHeaders : option Obj.t) (key : string) :
  (forall h, optionsHeaders = Some h -> NoDup (Obj.keys h)) ->
  Obj.get (ApiConfig.requestHeaders config optionsHeaders) key
  = match match optionsHeaders with
          | Some h => Obj.get h key
          | None => None
          end with
    | Some v => Some v
    | None =>
        if String.eqb "X-API-Key" key then
          match ApiConfig.apiKey config with
          | Some k => if String.eqb k EmptyString then None else Some k
          | None => None
          end
        else if String.eqb "Accept" key then Some "application/json"
        else None
    end.
Proof.
  intros Hnd. unfold ApiConfig.requestHeaders.
  assert (Hgiven : ApiConfig.given (ApiConfig.apiKey config)
                   = match ApiConfig.apiKey config with
                     | Some k => if String.eqb k EmptyString then None
                                 else Some k
                     | None => None
                     end).
  { unfold ApiConfig.given, JS.truthy.
    destruct (ApiConfig.apiKey config) as [k|]; [|reflexivity].
    destruct (String.eqb k EmptyString); reflexivity. }
  destruct optionsHeaders as [h|].
  - rewrite (get_spread h (Hnd h eq_refl)).
    destruct (Obj.get h key) as [v|] eqn:E; [reflexivity|].
    rewrite getHeaders_get, Hgiven.
    destruct (String.eqb_spec "X-API-Key" key); [reflexivity|].
    destruct (String.eqb_spec "Content-Type" key) as [<- | ?];
      [|reflexivity].
    rewrite E. reflexivity.
  - rewrite getHeaders_get, Hgiven.
    destruct (String.eqb_spec "X-API-Key" key); [reflexivity|].
    destruct (String.eqb_spec "Content-Type" key) as [<- | ?]; reflexivity.
Qed.

(** X13 on a question asked with the key [s3cret] configured: the key is
    sent, next to the caller's content type. *)
Lemma request_headers_merge_witness :
  Obj.get (ApiConfig.requestHeaders keyed (Some ApiConfig.jsonHeaders))
    "X-API-Key" = Some "s3cret" /\
  Obj.get (ApiConfig.requestHeaders keyed (Some ApiConfig.jsonHeaders))
    "Content-Type" = Some "application/json".
Proof.
  assert (H : forall h, Some ApiConfig.jsonHeaders = Some h ->
                        NoDup (Obj.keys h)).
  { intros h [= <-]. repeat constructor. intros []. }
  split.
  - exact (request_headers_merge keyed (Some ApiConfig.jsonHeaders)
             "X-API-Key" H).
  - exact (request_headers_merge keyed (Some ApiConfig.jsonHeaders)
             "Content-Type" H).
Defined.

(** X14.  The API key survives a reload of the page.  After the user has
    entered a key, a reload followed by the mounting of the key input gives
    back the key in the input and in the storage, and the requests carry
    the same headers as before the reload; this holds for the empty key
    too, which is sent neither before nor after. *)
Theorem api_key_survives_reload (p : ApiKeyInput.Page) (newKey : string) :
  let before := ApiKeyInput.handleKeyChange newKey p in
  let after := ApiKeyInput.mountEffect (ApiKeyInput.reload before) in
  ApiKeyInput.key after = newKey /\
  Obj.get (ApiKeyInput.localStorage after) "api_key" = Some newKey /\
  (forall optionsHeaders,
      ApiConfig.requestHeaders (ApiKeyInput.config after) optionsHeaders
      = ApiConfig.requestHeaders (ApiKeyInput.config before) optionsHeaders).
Proof.
  cbv zeta. unfold ApiKeyInput.mountEffect, ApiKeyInput.reload,
    ApiKeyInput.handleKeyChange.
  cbn [ApiKeyInput.localStorage ApiKeyInput.config ApiKeyInput.key
       ApiKeyInput.isVisible].
  rewrite get_set. cbn [String.eqb Ascii.eqb Bool.eqb andb].
  change (String.eqb "api_key" "api_key") with true. cbv iota.
  unfold ApiConfig.given, JS.truthy.
  destruct (String.eqb_spec newKey EmptyString) as [-> | Hne]; cbn [negb].
  - cbn [ApiKeyInput.key ApiKeyInput.localStorage ApiKeyInput.config].
    rewrite get_set. repeat split.
  - cbn [ApiKeyInput.key ApiKeyInput.localStorage ApiKeyInput.config].
    rewrite get_set. repeat split.
Qed.

(** ** The system monitor *)

Section MonitorFacts.

Import SystemMonitor.

Lemma step_requiresAuth (k : Monitor) (ev : Event) :
  requiresAuth (state (step k ev)) = true ->
  requiresAuth (state k) = true \/ Saw401 [ev].
Proof.
  unfold step, settle, fetchHealth.
  destruct ev as [| data | [m|] | ]; cbn [Saw401];
    try destruct (mountedNow k); try destruct (inFlight k);
    cbn; auto.
  destruct (JS.includes m "401") eqn:E; auto.
  intros _. right. left. now apply includes_spec.
Qed.

Lemma step_keeps_requiresAuth (k : Monitor) (ev : Event) :
  requiresAuth (state k) = true -> requiresAuth (state (step k ev)) = true.
Proof.
  unfold step, settle, fetchHealth. intros H.
  destruct ev as [| data | [m|] | ];
    try destruct (mountedNow k); try destruct (inFlight k);
    cbn; auto.
  destruct (JS.includes m "401"); auto.
Qed.

Lemma first_failure (m : string) :
  requiresAuth (state (run mounted [HealthRejected (Some m)]))
  = JS.includes m "401" /\
  error (state (run mounted [HealthRejected (Some m)])) = Some m.
Proof. cbn. destruct (JS.includes m "401"); split; reflexivity. Qed.

Lemma Saw401_cons (ev : Event) (evs : list Event) :
  Saw401 (ev :: evs) <-> Saw401 [ev] \/ Saw401 evs.
Proof. destruct ev as [| data | [m|] | ]; cbn; tauto. Qed.

Lemma step_requests (k : Monitor) (ev : Event) :
  requests (step k ev)
  = (requests k + if mountedNow k && isTick ev then 1 else 0)%nat /\
  (mountedNow k = false -> mountedNow (step k ev) = false).
Proof.
  unfold step, settle, fetchHealth.
  destruct ev; destruct (mountedNow k) eqn:E; try destruct (inFlight k);
    cbn; rewrite ?E; split; try lia; auto.
Qed.

Lemma run_unmounted (evs : list Event) :
  forall k, mountedNow k = false -> requests (run k evs) = requests k.
Proof.
  induction evs as [|ev evs IH]; intros k H; [reflexivity|].
  change (run k (ev :: evs)) with (run (step k ev) evs).
  destruct (step_requests k ev) as [H1 H2].
  rewrite (IH _ (H2 H)), H1, H. cbn. lia.
Qed.

Lemma run_requests_bound (evs : list Event) :
  forall k, (requests (run k evs)
             <= requests k + List.length (filter isTick evs))%nat.
Proof.
  induction evs as [|ev evs IH]; intros k; [cbn; lia|].
  change (run k (ev :: evs)) with (run (step k ev) evs).
  cbn [filter]. specialize (IH (step k ev)).
  destruct (step_requests k ev) as [H1 _]. rewrite H1 in IH.
  destruct (mountedNow k); destruct (isTick ev); cbn in *; lia.
Qed.

End MonitorFacts.

(** X15.  The monitor asks for an API key only on a failure whose message
    holds ["401"], and never stops asking.  On every run from the mounting,
    if [requiresAuth] is set then a health check of the run has failed with
    a message in which ["401"] occurs; and once set it stays set, whatever
    follows, a successful health check included. *)
Theorem requiresAuth_is_sticky (evs later : list SystemMonitor.Event) :
  SystemMonitor.requiresAuth
    (SystemMonitor.state (SystemMonitor.run SystemMonitor.mounted evs))
  = true ->
  SystemMonitor.Saw401 evs /\
  SystemMonitor.requiresAuth
    (SystemMonitor.state
       (SystemMonitor.run SystemMonitor.mounted (evs ++ later)%list))
  = true.
Proof.
  intros H. split.
  - assert (G : forall k,
               SystemMonitor.requiresAuth
                 (SystemMonitor.state (SystemMonitor.run k evs)) = true ->
               SystemMonitor.requiresAuth (SystemMonitor.state k) = true \/
               SystemMonitor.Saw401 evs).
    { clear H. induction evs as [|ev evs IH]; intros k H; [now left|].
      cbn [SystemMonitor.run fold_left] in H.
      apply IH in H as [H | H].
      - apply step_requiresAuth in H as [H | H]; [now left|].
        right. apply Saw401_cons. now left.
      - right. apply Saw401_cons. now right. }
    destruct (G _ H) as [H' | H']; [discriminate | exact H'].
  - unfold SystemMonitor.run. rewrite fold_left_app.
    fold (SystemMonitor.run SystemMonitor.mounted evs).
    generalize dependent (SystemMonitor.run SystemMonitor.mounted evs).
    induction later as [|ev later IH]; intros k H; [exact H|].
    cbn [fold_left]. apply IH. now apply step_keeps_requiresAuth.
Qed.

(** X15 on a failure with status text, followed by a success. *)
Lemma requiresAuth_is_sticky_witness :
  SystemMonitor.render
    (SystemMonitor.state
       (SystemMonitor.run SystemMonitor.mounted
          ([SystemMonitor.HealthRejected
              (Some "API request failed: HTTP error! status: 401")]
           ++ [SystemMonitor.Tick;
               SystemMonitor.HealthResolved
                 {| SystemMonitor.status := "healthy" |}])%list))
  = SystemMonitor.HealthView {| SystemMonitor.status := "healthy" |} true /\
  SystemMonitor.requiresAuth
    (SystemMonitor.state
       (SystemMonitor.run SystemMonitor.mounted
          ([SystemMonitor.HealthRejected
              (Some "API request failed: HTTP error! status: 401")]
           ++ [SystemMonitor.Tick;
               SystemMonitor.HealthResolved
                 {| SystemMonitor.status := "healthy" |}])%list))
  = true.
Proof.
  split; [reflexivity|].
  exact (proj2 (requiresAuth_is_sticky
                  [SystemMonitor.HealthRejected
                     (Some "API request failed: HTTP error! status: 401")]
                  [SystemMonitor.Tick;
                   SystemMonitor.HealthResolved
                     {| SystemMonitor.status := "healthy" |}]
                  eq_refl)).
Defined.

(** X16.  Whether a 401 from the server makes the monitor ask for a key
    depends on the text of the failure.  For a health check answered with
    401, the transport layer throws ["API request failed: "] followed by the
    text of the body, or by the status text when the body gives none; the
    monitor sets [requiresAuth] exactly when ["401"] occurs in that message.
    With no text in the body it does; with a text such as
    ["Invalid API key"] it does not ([getHealth] is the call of the
    monitor). *)
Theorem unauthorized_health_check (env : option string)
    (fetch : Api.Request -> Api.Fetched) (resp : Api.Response) :
  fetch {| Api.url := Api.API_BASE_URL env ++ "/health";
           Api.method := "GET" |} = Api.Responds resp ->
  Api.status resp = 401%N ->
  let m :=
    Api.PREFIX ++ Api.httpErrorMessage (Api.jsonOrNull resp) 401 in
  let s :=
    SystemMonitor.state
      (SystemMonitor.run SystemMonitor.mounted
         [SystemMonitor.HealthRejected (Some m)]) in
  ApiStatus.getHealth env fetch = Api.Throws (Api.ErrorObject m) /\
  SystemMonitor.error s = Some m /\
  (SystemMonitor.requiresAuth s = true <-> Spec.Contains m "401") /\
  (Spec.Unset (Api.errorOf (Api.jsonOrNull resp)) ->
   Spec.Unset (Api.detailOf (Api.jsonOrNull resp)) ->
   SystemMonitor.requiresAuth s = true).
Proof.
  intros Hf Hs m s.
  destruct (first_failure m) as [Hreq Herr]. fold s in Hreq, Herr.
  split; [|split; [exact Herr | split]].
  - unfold ApiStatus.getHealth, Api.fetchWithErrorHandling. rewrite Hf.
    cbn [Api.attempt]. unfold Api.ok. rewrite Hs. reflexivity.
  - rewrite Hreq. apply includes_spec.
  - intros He Hd. rewrite Hreq. subst m. unfold Api.httpErrorMessage.
    rewrite (field_or_unset _ _ He), (field_or_unset _ _ Hd). reflexivity.
Qed.

(** X16 on the two servers: without a body the key input is asked for,
    with the detail ["Invalid API key"] it is not. *)
Lemma unauthorized_health_check_witness :
  SystemMonitor.requiresAuth
    (SystemMonitor.state
       (SystemMonitor.run SystemMonitor.mounted
          [SystemMonitor.HealthRejected
             (Some "API request failed: HTTP error! status: 401")]))
  = true /\
  ApiStatus.getHealth None unauthorizedWithDetail
  = Api.Throws (Api.ErrorObject "API request failed: Invalid API key") /\
  SystemMonitor.requiresAuth
    (SystemMonitor.state
       (SystemMonitor.run SystemMonitor.mounted
          [SystemMonitor.HealthRejected
             (Some "API request failed: Invalid API key")]))
  <> true.
Proof.
  split; [|split].
  - refine (proj2 (proj2 (proj2
              (unauthorized_health_check None unauthorized
                 {| Api.status := 401;
                    Api.json :=
                      inl (Api.ErrorObject "Unexpected end of JSON input") |}
                 eq_refl eq_refl))) _ _); left; reflexivity.
  - reflexivity.
  - intros H.
    apply (proj1 (proj1 (proj2 (proj2
             (unauthorized_health_check None unauthorizedWithDetail
                {| Api.status := 401;
                   Api.json :=
                     inr {| Api.error := None;
                            Api.detail :=
                              Some (Api.JString "Invalid API key") |} |}
                eq_refl eq_refl))))) in H.
    apply includes_spec in H. discriminate.
Defined.

(** X17.  The health checks stop with the component.  After the unmounting
    no further health request is made, whatever happens next; and up to
    then there is one request at the mounting and at most one for each tick
    of the 30 s interval. *)
Theorem health_checks_stop_at_unmount
    (evs later : list SystemMonitor.Event) :
  SystemMonitor.requests
    (SystemMonitor.run SystemMonitor.mounted
       (evs ++ SystemMonitor.Unmounted :: later)%list)
  = SystemMonitor.requests (SystemMonitor.run SystemMonitor.mounted evs) /\
  (SystemMonitor.requests (SystemMonitor.run SystemMonitor.mounted evs)
   <= 1 + List.length (filter SystemMonitor.isTick evs))%nat.
Proof.
  split.
  - unfold SystemMonitor.run. rewrite fold_left_app. cbn [fold_left].
    fold (SystemMonitor.run SystemMonitor.mounted evs).
    fold (SystemMonitor.run
            (SystemMonitor.step
               (SystemMonitor.run SystemMonitor.mounted evs)
               SystemMonitor.Unmounted) later).
    now rewrite run_unmounted.
  - exact (run_requests_bound evs SystemMonitor.mounted).
Qed.

(** ** Formatting *)

Section FormatFacts.

Import AppFormat.

Lemma tenths_nearest (num den : N) :
  (0 < den)%N ->
  (2 * den * tenths num den <= 20 * num + den
   /\ 20 * num + den < 2 * den * tenths num den + 2 * den)%N.
Proof.
  intros Hden. unfold tenths.
  assert (H : (2 * den <> 0)%N) by lia.
  pose proof (N.div_mod (20 * num + den) (2 * den) H) as Hdm.
  pose proof (N.mod_lt (20 * num + den) (2 * den) H) as Hlt.
  set (q := ((20 * num + den) / (2 * den))%N) in *.
  set (r := ((20 * num + den) mod (2 * den))%N) in *.
  nia.
Qed.

Lemma takeDigits_exact (n : nat) (ds rest : string) :
  DigitsOf n ds -> takeDigits n (ds ++ rest) = Some (ds, rest).
Proof.
  revert ds. induction n as [|n IH]; intros ds [Hl Hd].
  - destruct ds; [reflexivity | discriminate].
  - destruct ds as [|c ds]; [discriminate|].
    destruct Hd as [Hc Hd]. injection Hl as Hl.
    cbn [takeDigits append]. apply isDigit_spec in Hc. rewrite Hc.
    now rewrite (IH ds (conj Hl Hd)).
Qed.

End FormatFacts.

(** X18.  [formatFileSize] on a size in bytes, an integer up to
    [Number.MAX_SAFE_INTEGER].  Below 1024 it prints the bytes.  From 1024
    to below 1,048,576 it prints kilobytes, and from there on megabytes,
    with one decimal: the tenth nearest to the exact quotient, the upper
    one on a tie, so that the value printed is within 0.05 of the size.
    Rounding can carry the kilobytes up to 1024.0: every size from
    1,048,525 to 1,048,575 bytes is printed ["1024.0 KB"]. *)
Theorem formatFileSize_units (bytes : N) :
  ((bytes < 1024)%N ->
   AppFormat.formatFileSize bytes = JS.ofNumber bytes ++ " B") /\
  ((1024 <= bytes < 1048576)%N ->
   exists n,
     AppFormat.formatFileSize bytes = AppFormat.showTenths n ++ " KB" /\
     (10 <= n <= 10240)%N /\
     (1024 * n <= 10 * bytes + 512 < 1024 * n + 1024)%N) /\
  ((1048576 <= bytes <= JS.MAX_SAFE_INTEGER)%N ->
   exists n,
     AppFormat.formatFileSize bytes = AppFormat.showTenths n ++ " MB" /\
     (10 <= n)%N /\
     (1048576 * n <= 10 * bytes + 524288 < 1048576 * n + 1048576)%N) /\
  ((1048525 <= bytes < 1048576)%N ->
   AppFormat.formatFileSize bytes = "1024.0 KB").
Proof.
  unfold AppFormat.formatFileSize, AppFormat.toFixed1.
  change (1024 * 1024)%N with 1048576%N.
  split; [|split; [|split]].
  - intros H. apply N.ltb_lt in H. now rewrite H.
  - intros [H1 H2]. apply N.ltb_ge in H1. apply N.ltb_lt in H2.
    rewrite H1, H2. exists (AppFormat.tenths bytes 1024).
    split; [reflexivity|].
    apply N.ltb_ge in H1. apply N.ltb_lt in H2.
    pose proof (tenths_nearest bytes 1024). lia.
  - intros [H _].
    assert (H1 : (bytes <? 1024)%N = false) by (apply N.ltb_ge; lia).
    apply N.ltb_ge in H. rewrite H1, H.
    exists (AppFormat.tenths bytes 1048576). split; [reflexivity|].
    apply N.ltb_ge in H.
    pose proof (tenths_nearest bytes 1048576). lia.
  - intros [H1 H2].
    assert (E1 : (bytes <? 1024)%N = false) by (apply N.ltb_ge; lia).
    assert (E2 : (bytes <? 1048576)%N = true) by (apply N.ltb_lt; lia).
    rewrite E1, E2.
    assert (En : AppFormat.tenths bytes 1024 = 10240%N).
    { pose proof (tenths_nearest bytes 1024). lia. }
    rewrite En. reflexivity.
Qed.

(** X18 at 1536 bytes, at one byte below a mebibyte, and at 5,452,595
    bytes, which are 5.2 MB. *)
Lemma formatFileSize_units_witness :
  AppFormat.formatFileSize 1536 = "1.5 KB" /\
  AppFormat.formatFileSize 1048575 = "1024.0 KB" /\
  AppFormat.formatFileSize 5452595 = "5.2 MB" /\
  exists n,
    AppFormat.formatFileSize 5452595 = AppFormat.showTenths n ++ " MB" /\
    (10 <= n)%N /\
    (1048576 * n <= 10 * 5452595 + 524288 < 1048576 * n + 1048576)%N.
Proof.
  split; [reflexivity|]. split; [|split; [reflexivity|]].
  - apply (proj2 (proj2 (proj2 (formatFileSize_units 1048575)))). lia.
  - apply (proj1 (proj2 (proj2 (formatFileSize_units 5452595)))).
    split; apply N.leb_le; reflexivity.
Defined.

(** X19.  [formatPDFDate].  A text that does not begin with [D:] is shown
    as it is.  A text that begins with [D:] and fourteen digits, whatever
    follows, is shown as the local date built from the digits taken four,
    two, two, two, two and two at a time, with the month counted from 0; the
    fields are not checked against the calendar.  Any text that is not
    turned into a date is shown unchanged. *)
Theorem formatPDFDate_fields :
  (forall dateStr,
      JS.startsWith dateStr "D:" = false ->
      AppFormat.formatPDFDate dateStr = AppFormat.AsIs dateStr) /\
  (forall year month day hour minute second rest,
      AppFormat.DigitsOf 4 year -> AppFormat.DigitsOf 2 month ->
      AppFormat.DigitsOf 2 day -> AppFormat.DigitsOf 2 hour ->
      AppFormat.DigitsOf 2 minute -> AppFormat.DigitsOf 2 second ->
      AppFormat.formatPDFDate
        ("D:" ++ year ++ month ++ day ++ hour ++ minute ++ second ++ rest)
      = AppFormat.LocalDate (AppFormat.int year) (AppFormat.int month - 1)
          (AppFormat.int day) (AppFormat.int hour) (AppFormat.int minute)
          (AppFormat.int second)) /\
  (forall dateStr text,
      AppFormat.formatPDFDate dateStr = AppFormat.AsIs text ->
      text = dateStr).
Proof.
  split; [|split].
  - intros dateStr H. unfold AppFormat.formatPDFDate. rewrite H.
    now rewrite orb_true_r.
  - intros year month day hour minute second rest Hy Hm Hd Hh Hmi Hs.
    unfold AppFormat.formatPDFDate.
    change (JS.truthy ("D:" ++ _)) with true.
    change (JS.startsWith ("D:" ++ _) "D:") with true. cbn [negb orb].
    assert (Hmatch : AppFormat.matchHere
                       ("D:" ++ year ++ month ++ day ++ hour ++ minute
                        ++ second ++ rest)
                     = Some [year; month; day; hour; minute; second]).
    { unfold AppFormat.matchHere.
      change (JS.startsWith ("D:" ++ _) "D:") with true. cbv iota.
      change (JS.slice 2 ("D:" ++ ?x)) with x.
      cbn [AppFormat.takeGroups].
      rewrite (takeDigits_exact 4 year _ Hy), (takeDigits_exact 2 month _ Hm),
        (takeDigits_exact 2 day _ Hd), (takeDigits_exact 2 hour _ Hh),
        (takeDigits_exact 2 minute _ Hmi), (takeDigits_exact 2 second _ Hs).
      reflexivity. }
    change ("D:" ++ year ++ month ++ day ++ hour ++ minute ++ second ++ rest)
      with (String "D" (":" ++ year ++ month ++ day ++ hour ++ minute
                        ++ second ++ rest)) in *.
    cbn [AppFormat.dateMatch]. now rewrite Hmatch.
  - intros dateStr text. unfold AppFormat.formatPDFDate.
    destruct (negb (JS.truthy dateStr) || negb (JS.startsWith dateStr "D:"));
      [now intros [= <-]|].
    destruct (AppFormat.dateMatch dateStr) as [[|y [|m [|d [|h [|mi [|s [|]]]]]]]|];
      intros H; try discriminate; now injection H as <-.
Qed.

(** X19 on a creation date with a time zone after the digits: the ninth
    month has index 8. *)
Lemma formatPDFDate_fields_witness :
  AppFormat.formatPDFDate
    ("D:" ++ "2024" ++ "09" ++ "30" ++ "14" ++ "05" ++ "59" ++ "+02'00'")
  = AppFormat.LocalDate 2024 8 30 14 5 59.
Proof.
  refine (proj1 (proj2 formatPDFDate_fields)
            "2024" "09" "30" "14" "05" "59" "+02'00'" _ _ _ _ _ _);
    (split; [reflexivity | cbn; unfold Spec.IsDigit; cbn; tauto]).
Defined.

(** X20.  How a question ends.  On every run of the question form that has
    a request in flight: when the request succeeds the form holds the
    answer and no error; when it fails the form holds the classified error
    and no answer, the one of an earlier question included.  In both cases
    the form stops loading. *)
Theorem question_settles (id : string) (evs : list QueryForm.Event) :
  QueryForm.awaiting (QueryForm.run (QueryForm.mounted id) evs) = true ->
  (forall r,
      let s :=
        QueryForm.state
          (QueryForm.run (QueryForm.mounted id)
             (evs ++ [QueryForm.AskResolved r])%list) in
      QueryForm.result s = Some r /\ QueryForm.error s = EmptyString /\
      QueryForm.isLoading s = false) /\
  (forall e,
      let s :=
        QueryForm.state
          (QueryForm.run (QueryForm.mounted id)
             (evs ++ [QueryForm.AskRejected e])%list) in
      QueryForm.result s = None /\
      QueryForm.error s = QueryInterface.getErrorMessage e /\
      QueryForm.isLoading s = false).
Proof.
  intros Ha.
  assert (H0 : QueryForm.Consistent (QueryForm.mounted id)).
  { repeat split; try discriminate. apply Forall_nil. }
  destruct (run_consistent evs _ H0) as [[H1 [_ [H3 _]]] _].
  rewrite Ha in H1. destruct (H3 H1) as [He Hr].
  split; intros x; cbv zeta; unfold QueryForm.run; rewrite fold_left_app;
    fold (QueryForm.run (QueryForm.mounted id) evs);
    cbn [fold_left QueryForm.step]; rewrite Ha; cbn;
    rewrite ?He, ?Hr; repeat split.
Qed.

(** X20 on a question asked after an answer was shown: the failure of the
    second question leaves no answer on the form. *)
Lemma question_settles_witness :
  QueryForm.result
    (QueryForm.state
       (QueryForm.run (QueryForm.mounted "abc")
          ([QueryForm.Typed "What is the total?"; QueryForm.Submitted;
            QueryForm.AskResolved
              {| QueryForm.answer := "42"; QueryForm.context := [] |};
            QueryForm.Typed "And the mean?"; QueryForm.Submitted]
           ++ [QueryForm.AskRejected Session.networkDown])%list))
  = None.
Proof.
  exact (proj1 (proj2 (question_settles "abc"
                         [QueryForm.Typed "What is the total?";
                          QueryForm.Submitted;
                          QueryForm.AskResolved
                            {| QueryForm.answer := "42";
                               QueryForm.context := [] |};
                          QueryForm.Typed "And the mean?";
                          QueryForm.Submitted]
                         eq_refl) Session.networkDown)).
Defined.
